(** * The train-delay preprocessing pipeline

    A shallow embedding of [train_processor.py] (class [DataProcessor]) and
    of the older module [data_processing.py], followed by the properties of
    the ingestion, filter, timestamp, encoding and writer stages.

    Python values are modelled as [cell]s, a dask/pandas frame as an ordered
    list of named columns, a Python [dict] used as a table as a [gmap], a
    [dict] that is iterated as an association list (iteration order matters
    there), and a function that catches its exceptions and returns [None] as
    a function into [option]. *)

From Stdlib Require Import ZArith QArith Qcanon Qround Ascii Lia.
From stdpp Require Import base numbers list strings gmap sorting pretty.

Local Open Scope Z_scope.

(** ** Python values and the library functions the pipeline calls *)

(** A value held in a frame: a Python [str], the missing value (the [<NA>]
    of the text columns that [read_csv] makes, which also stands for [nan]
    and [NaT]), an [int], a [float] (as an exact rational) or a
    [datetime64[ns]] timestamp (nanoseconds since the epoch). *)
Inductive cell :=
  | VStr (s : string)
  | VNaN
  | VInt (z : Z)
  | VFloat (q : Qc)
  | VTime (ns : Z).

Global Instance cell_eq_dec : EqDecision cell.
Proof. solve_decision. Defined.

(** The six calendar accessors of [Series.dt] that the pipeline reads. *)
Inductive dt_field := DAY | MONTH | YEAR | DAY_OF_WEEK | HOUR | MINUTE.

(** The runtime dtypes of a pandas column, and the four physical types the
    legacy writer chooses from ([pa.bool_()], [pa.int64()], [pa.float64()],
    [pa.string()]). *)
Inductive dtype :=
  | bool_ | int8 | int16 | int32 | int64 | uint8 | uint16 | uint32 | uint64
  | float16 | float32 | float64 | object_ | datetime64 | timedelta64
  | category | string_.

Inductive pa_type := pa_bool | pa_int64 | pa_float64 | pa_string.

Global Instance dtype_eq_dec : EqDecision dtype.
Proof. solve_decision. Defined.
Global Instance pa_type_eq_dec : EqDecision pa_type.
Proof. solve_decision. Defined.

(** The table held in [self.encoding_maps]: column name, then stringified
    value, then code. *)
Abbreviation encoding_table := (gmap string (gmap string nat)).

(** What the pipeline takes from Python, pandas and dask without the source
    saying how it is computed: [str()] of a number or timestamp; the
    permissive parser [to_datetime(v, format='mixed', dayfirst=...)] on one
    value ([None] when it raises, [Some None] for [NaT]); the calendar
    accessors; the realized dtype of a column ([data.dtypes]); the
    per-partition category codes of the legacy encoder; [pickle]; and the
    two [os.path] functions. *)
Class PyLib := {
  py_repr : cell → string;
  to_datetime : bool → cell → option (option Z);
  dt_get : dt_field → Z → Z;
  dtype_of : list cell → dtype;
  cat_codes_partitions : list (string * list cell) → option (list (string * list cell));
  pickled : Type;
  pickle_dump : encoding_table → pickled;
  pickle_load : pickled → option encoding_table;
  path_join : string → string → string;
  path_dirname : string → string
}.

Module Pandas.

(** [str(v)]: a string is itself and the missing value of a text column
    prints as ["<NA>"]. *)
Definition str `{PyLib} (v : cell) : string :=
  match v with
  | VStr s => s
  | VNaN => "<NA>"
  | _ => py_repr v
  end.

(** [str.lower()] on the bytes of the string: the letters A..Z become
    a..z.  Python also lowers letters outside ASCII; none of them lowers to
    an ASCII letter of ["true"] or ["false"]. *)
Definition lower_ascii (c : ascii) : ascii :=
  let n := Ascii.N_of_ascii c in
  if ((65 <=? n) && (n <=? 90))%N then Ascii.ascii_of_N (n + 32) else c.

Fixpoint lower_string (s : string) : string :=
  match s with
  | EmptyString => EmptyString
  | String c s' => String (lower_ascii c) (lower_string s')
  end.

(** [lower] is used on a string ([str.lower()]) and on one value of a text
    column ([Series.str.lower()]), where a missing value stays missing. *)
Class Lower (A : Type) := lower : A → A.

Global Instance string_lower : Lower string := lower_string.

Global Instance text_lower : Lower (option string) := fmap lower_string.

Abbreviation series := (list cell).

(** A frame: its columns in order, each with its values. *)
Abbreviation frame := (list (string * series)).

Definition columns (df : frame) : list string := df.*1.

(** [df[c]]; [None] stands for the [KeyError]. *)
Fixpoint getitem (df : frame) (c : string) : option series :=
  match df with
  | [] => None
  | (n, s) :: df' => if decide (n = c) then Some s else getitem df' c
  end.

Fixpoint replace_column (df : frame) (c : string) (s : series) : frame :=
  match df with
  | [] => []
  | (n, s0) :: df' =>
      if decide (n = c) then (n, s) :: df'
      else (n, s0) :: replace_column df' c s
  end.

(** [df[c] = s]: an existing column is overwritten in place, a new one is
    appended as the last column. *)
Definition setitem (df : frame) (c : string) (s : series) : frame :=
  if decide (c ∈ columns df) then replace_column df c s else df ++ [(c, s)].

(** [df.assign] with keyword arguments [c1=s1, ...], taken in order. *)
Definition assign (df : frame) (kw : list (string * series)) : frame :=
  foldl (λ d '(c, s), setitem d c s) df kw.

(** [df.drop(columns=cs)] for labels that are present (every call of the
    class guards this), and [errors='ignore'] otherwise. *)
Definition drop (df : frame) (cs : list string) : frame :=
  filter (λ p, p.1 ∉ cs) df.

(** [df[usecols]] as [read_csv(usecols=...)] keeps them: file order. *)
Definition usecols (df : frame) (cs : list string) : frame :=
  filter (λ p, p.1 ∈ cs) df.

Fixpoint select {A} (mask : list bool) (xs : list A) : list A :=
  match mask, xs with
  | b :: mask', x :: xs' => if b then x :: select mask' xs' else select mask' xs'
  | _, _ => []
  end.

(** [df[mask]]: the rows where the boolean series holds. *)
Definition mask_rows (df : frame) (mask : list bool) : frame :=
  prod_map id (select mask) <$> df.

(** [s.isin(values)] and [s == v]. *)
Definition isin (s : series) (values : list cell) : list bool :=
  (λ v, bool_decide (v ∈ values)) <$> s.

Definition eq_scalar (s : series) (v : cell) : list bool :=
  (λ x, bool_decide (x = v)) <$> s.

Definition mask_and (m1 m2 : list bool) : list bool := zip_with andb m1 m2.

(** [s.unique()]: the distinct values, in order of first appearance. *)
Definition unique (s : series) : list cell := reverse (remove_dups (reverse s)).

(** [sorted(...)] on strings: ascending in code-point order, which on the
    UTF-8 bytes is the lexicographic order of [String.le]. *)
Definition sorted (l : list string) : list string := merge_sort String.le l.

(** [enumerate(l)]. *)
Definition enumerate {A} (l : list A) : list (nat * A) := imap pair l.

(** [{k: v for v, k in pairs}]: a later pair overwrites an earlier one. *)
Definition dict_of (pairs : list (nat * string)) : gmap string nat :=
  foldl (λ m '(idx, val), <[val := idx]> m) ∅ pairs.

(** [s.map(mapping)] on a text column: the code of a key; missing for a
    missing value and for a text that is no key. *)
Definition map_dict (mapping : gmap string nat) (s : list (option string)) : series :=
  (λ k, match k ≫= (mapping !!.) with
        | Some n => VInt (Z.of_nat n)
        | None => VNaN
        end) <$> s.

(** [s.astype(str)]: the values as text; a missing value stays missing. *)
Definition astype_str `{PyLib} (s : series) : list (option string) :=
  (λ v, match v with VNaN => None | _ => Some (str v) end) <$> s.

(** [to_datetime(s, format='mixed', dayfirst=True)] on a series: one value
    the parser rejects makes the whole conversion raise. *)
Definition to_datetime_series `{PyLib} (s : series) : option series :=
  mapM (λ v, from_option VTime VNaN <$> to_datetime true v) s.

(** [Timedelta.total_seconds()] of a difference held in nanoseconds. *)
Definition total_seconds (ns : Z) : Qc := Q2Qc (ns # 1000000000).

(** One row of [(a - p).dt.total_seconds()]; [NaT] propagates. *)
Definition sub_total_seconds (a p : cell) : cell :=
  match a, p with
  | VTime ta, VTime tp => VFloat (total_seconds (ta - tp))
  | _, _ => VNaN
  end.

Definition time_difference (a p : series) : series :=
  zip_with sub_total_seconds a p.

(** [s.dt.day], [s.dt.month], ... *)
Definition dt_component `{PyLib} (f : dt_field) (s : series) : series :=
  (λ v, match v with VTime t => VInt (dt_get f t) | _ => VNaN end) <$> s.

(** [name.endswith(suffix)]. *)
Definition endswith (name suffix : string) : bool :=
  String.prefix (String.rev suffix) (String.rev name).

End Pandas.

(** ** The file system *)

(** A written parquet dataset: the rows, the number of partitions, the
    schema handed to the storage layer ([None] when the call passes none and
    the layer infers one), the codec and the [write_metadata_file] flag. *)
Record parquet := {
  pq_frame : Pandas.frame;
  pq_npartitions : Z;
  pq_schema : option (list (string * pa_type));
  pq_compression : string;
  pq_metadata_file : bool
}.

(** What a run reads: the directory listing, file sizes, the parsed content
    of a list of CSV files (all header columns, in header order; [None] when
    reading raises) and whether a path can be written. *)
Record env := {
  listdir : string → option (list string);
  getsize : string → N;
  read_csv : list string → string → option Pandas.frame;
  writable : string → bool
}.

(** What a run writes: pickled encoding tables, text reports of the
    mappings (their paths) and parquet datasets. *)
Record disk `{PyLib} := {
  pickles : gmap string pickled;
  reports : gset string;
  datasets : gmap string parquet
}.

(** ** [train_processor.py]: class [DataProcessor] *)

(** The value side of a filter entry: a list, or a scalar that the loop
    wraps into a one-element list. *)
Inductive filter_values := Scalar (v : cell) | Values (l : list cell).

Definition as_list (values : filter_values) : list cell :=
  match values with Scalar v => [v] | Values l => l end.

(** A filter [dict], in iteration order. *)
Abbreviation filters := (list (string * filter_values)).

(** The mask of the built-in filter:
    [(an == "REAL") & (ab == "REAL")]. *)
Definition real_mask (an ab : Pandas.series) : list bool :=
  Pandas.mask_and (Pandas.eq_scalar an (VStr "REAL")) (Pandas.eq_scalar ab (VStr "REAL")).

Module TrainProcessor.
Import Pandas.

(** The attributes of the object that the pipeline reads and writes; the
    dask cluster and client are not modelled. *)
Record DataProcessor := {
  encoding_maps : encoding_table;
  bool_columns : list string;
  categorical_columns : list string;
  output_file_path : option string
}.

Definition __init__ : DataProcessor := {|
  encoding_maps := ∅;
  bool_columns := ["ZUSATZFAHRT_TF"; "FAELLT_AUS_TF"; "DURCHFAHRT_TF"];
  categorical_columns :=
    ["FAHRT_BEZEICHNER"; "BETREIBER_ABK"; "LINIEN_ID"; "LINIEN_TEXT"; "BPUIC"];
  output_file_path := None
|}.

Definition with_maps (self : DataProcessor) (maps : encoding_table) : DataProcessor :=
  {| encoding_maps := maps; bool_columns := bool_columns self;
     categorical_columns := categorical_columns self;
     output_file_path := output_file_path self |}.

Definition with_output (self : DataProcessor) (out : string) : DataProcessor :=
  {| encoding_maps := encoding_maps self; bool_columns := bool_columns self;
     categorical_columns := categorical_columns self;
     output_file_path := Some out |}.

(** [{'false': 0, 'true': 1, 'False': 0, 'True': 1}] *)
Definition bool_mapping : gmap string nat :=
  <["True" := 1%nat]> (<["False" := 0%nat]> (<["true" := 1%nat]> (<["false" := 0%nat]> ∅))).

Definition encoded_name (col : string) : string := col +:+ "_encoded".

(** The encoded boolean series:
    [ddf[col].astype(str).str.lower().map(bool_mapping)]. *)
Definition encode_bool_series `{PyLib} (s : series) : series :=
  map_dict bool_mapping (lower <$> astype_str s).

(** One round of the boolean loop; [getitem] is [Some] exactly when
    [col in ddf.columns]. *)
Definition encode_bool `{PyLib} (st : encoding_table * frame) (col : string)
    : encoding_table * frame :=
  match getitem st.2 col with
  | Some s =>
      (<[col := bool_mapping]> st.1,
       setitem st.2 (encoded_name col) (encode_bool_series s))
  | None => st
  end.

(** [{str(val): idx for idx, val in
      enumerate(sorted(str(v) for v in unique_values))}] *)
Definition category_mapping `{PyLib} (unique_values : list cell) : gmap string nat :=
  dict_of (enumerate (sorted (str <$> unique_values))).

(** One round of the categorical loop. *)
Definition encode_categorical `{PyLib} (st : encoding_table * frame) (col : string)
    : encoding_table * frame :=
  match getitem st.2 col with
  | Some s =>
      let mapping := category_mapping (unique s) in
      (<[col := mapping]> st.1,
       setitem st.2 (encoded_name col) (map_dict mapping (astype_str s)))
  | None => st
  end.

(** The two loops seen as one list of rounds: what a round computes from
    the column it encodes (the mapping it records, the encoded series),
    the common shape of a round, and the rounds of one call in order. *)
Abbreviation encoder := (series → gmap string nat * series).

Definition bool_encoder `{PyLib} : encoder :=
  λ s, (bool_mapping, encode_bool_series s).

Definition categorical_encoder `{PyLib} : encoder :=
  λ s, let mapping := category_mapping (unique s) in
       (mapping, map_dict mapping (astype_str s)).

Definition encode_round (st : encoding_table * frame) (r : string * encoder)
    : encoding_table * frame :=
  match getitem st.2 r.1 with
  | Some s => (<[r.1 := (r.2 s).1]> st.1, setitem st.2 (encoded_name r.1) (r.2 s).2)
  | None => st
  end.

Definition rounds `{PyLib} (self : DataProcessor) : list (string * encoder) :=
  ((λ c, (c, bool_encoder)) <$> bool_columns self)
  ++ ((λ c, (c, categorical_encoder)) <$> categorical_columns self).

(** The configured lists are well named when no column is listed twice
    and no listed column is the encoded name of a listed column, as holds
    for the lists of [__init__]. *)
Definition well_named (self : DataProcessor) : Prop :=
  let listed := bool_columns self ++ categorical_columns self in
  NoDup listed ∧ Forall (λ c, encoded_name c ∉ listed) listed.

Global Instance well_named_dec self : Decision (well_named self).
Proof. unfold well_named. apply _. Defined.

Definition with_pickle `{PyLib} (d : disk) (path : string) (b : pickled) : disk :=
  {| pickles := <[path := b]> (pickles d); reports := reports d;
     datasets := datasets d |}.

Definition with_report `{PyLib} (d : disk) (path : string) : disk :=
  {| pickles := pickles d; reports := {[path]} ∪ reports d;
     datasets := datasets d |}.

Definition with_dataset `{PyLib} (d : disk) (path : string) (pq : parquet) : disk :=
  {| pickles := pickles d; reports := reports d;
     datasets := <[path := pq]> (datasets d) |}.

Definition encoder_file `{PyLib} (out : string) : string :=
  path_join (path_dirname out) "category_encodings.pkl".

Definition mapping_file `{PyLib} (out : string) : string :=
  path_join (path_dirname out) "category_mappings.txt".

(** The [try] block that saves the encodings: first the pickle, then the
    text report.  Any failure only prints a warning, and what was written
    before it stays. *)
Definition save_encodings `{PyLib} (self : DataProcessor) (e : env) (d : disk) : disk :=
  match output_file_path self with
  | None => d
  | Some out =>
      if writable e (encoder_file out) then
        let d1 := with_pickle d (encoder_file out) (pickle_dump (encoding_maps self)) in
        if writable e (mapping_file out) then with_report d1 (mapping_file out) else d1
      else d
  end.

Definition encode_categorical_columns `{PyLib}
    (self : DataProcessor) (e : env) (d : disk) (ddf : frame)
    : DataProcessor * disk * frame :=
  let st := foldl encode_bool (encoding_maps self, ddf) (bool_columns self) in
  let st := foldl encode_categorical st (categorical_columns self) in
  let self := with_maps self st.1 in
  (self, save_encodings self e d, st.2).

(** The caller filters of [process_data]: a filter on an absent column is
    passed over. *)
Definition apply_filter (ddf : frame) (f : string * filter_values) : frame :=
  match getitem ddf f.1 with
  | Some s => mask_rows ddf (isin s (as_list f.2))
  | None => ddf
  end.

Definition apply_filters (ddf : frame) (train_filters : filters) : frame :=
  foldl apply_filter ddf train_filters.

Definition status_columns : list string :=
  ["AN_PROGNOSE_STATUS"; "AB_PROGNOSE_STATUS"].

(** "Filtering for REAL status": only when both status columns are there. *)
Definition filter_real (ddf : frame) : frame :=
  match getitem ddf "AN_PROGNOSE_STATUS", getitem ddf "AB_PROGNOSE_STATUS" with
  | Some an, Some ab => drop (mask_rows ddf (real_mask an ab)) status_columns
  | _, _ => ddf
  end.

(** The block "Applying Filters": the caller filters, then the status
    filter. *)
Definition filter_stage (ddf : frame) (train_filters : filters) : frame :=
  filter_real (apply_filters ddf train_filters).

Definition timestamp_pairs : list (string * string * string) :=
  [("ANKUNFTSZEIT", "AN_PROGNOSE", "ARRIVAL_TIME_DIFF_SECONDS");
   ("ABFAHRTSZEIT", "AB_PROGNOSE", "DEPARTURE_TIME_DIFF_SECONDS")].

Definition component_suffixes : list (string * dt_field) :=
  [("_DAY", DAY); ("_MONTH", MONTH); ("_YEAR", YEAR);
   ("_DAY_OF_WEEK", DAY_OF_WEEK); ("_HOUR", HOUR); ("_MINUTE", MINUTE)].

(** [ddf.assign(...)] with the six calendar components of [ddf[col]]. *)
Definition extract_components `{PyLib} (ddf : frame) (col : string) : frame :=
  let s := default [] (getitem ddf col) in
  assign ddf ((λ sf, (col +:+ sf.1, dt_component sf.2 s)) <$> component_suffixes).

(** One round of the timestamp loop; [None] when a conversion raises. *)
Definition process_pair `{PyLib} (ddf : frame) (pair : string * string * string)
    : option frame :=
  let '(actual_col, pred_col, diff_col) := pair in
  match getitem ddf actual_col, getitem ddf pred_col with
  | Some a, Some p =>
      a' ← to_datetime_series a;
      let ddf := setitem ddf actual_col a' in
      p' ← to_datetime_series (default [] (getitem ddf pred_col));
      let ddf := setitem ddf pred_col p' in
      let ddf := setitem ddf diff_col
        (time_difference (default [] (getitem ddf actual_col))
                         (default [] (getitem ddf pred_col))) in
      let ddf := foldl extract_components ddf [actual_col; pred_col] in
      Some (drop ddf [actual_col; pred_col])
  | _, _ => Some ddf
  end.

Definition process_timestamps `{PyLib} (ddf : frame) : option frame :=
  foldl (λ acc pair, ddf ← acc; process_pair ddf pair) (Some ddf) timestamp_pairs.

(** "Drop original categorical columns after encoding". *)
Definition drop_originals (self : DataProcessor) (ddf : frame) : frame :=
  let columns_to_drop :=
    filter (λ col, col ∈ columns ddf) (bool_columns self ++ categorical_columns self) in
  drop ddf columns_to_drop.

(** [sum(os.path.getsize(f) for f in data_files) / (1024**3)], as an exact
    rational; the double of the source equals it below 2^53 bytes. *)
Definition total_size (e : env) (data_files : list string) : Q :=
  Z.of_N (foldr N.add 0%N (getsize e <$> data_files)) # 1073741824.

(** [int(x)]: truncation towards zero. *)
Definition py_int (x : Q) : Z := Z.quot (Qnum x) (Z.pos (Qden x)).

(** [max(1, int(total_size * 2))]: two partitions per GB. *)
Definition n_partitions (total_size : Q) : Z :=
  Z.max 1 (py_int (total_size * 2)).

(** [ddf.to_parquet(output_file_path, engine='pyarrow',
    compression='snappy', write_metadata_file=True, write_index=False)]
    after [repartition]: no schema is passed. *)
Definition to_parquet `{PyLib} (e : env) (d : disk) (out : string)
    (ddf : frame) (npartitions : Z) : option disk :=
  if writable e out then
    Some (with_dataset d out
            {| pq_frame := ddf; pq_npartitions := npartitions;
               pq_schema := None; pq_compression := "snappy";
               pq_metadata_file := true |})
  else None.

Definition csv_files `{PyLib} (e : env) (train_folder : string) : option (list string) :=
  names ← listdir e train_folder;
  Some (path_join train_folder <$> filter (λ f : string, endswith f ".csv" = true) (names : list string)).

(** The ingestion part of [process_data]: the files, the total size and
    the frame restricted to the needed columns; [None] when it raises. *)
Definition load `{PyLib} (e : env) (train_folder : string)
    (exclude_columns : list string) (delimiter : string) : option (Q * frame) :=
  data_files ← csv_files e train_folder;
  if decide (data_files = []) then None else
  content ← read_csv e data_files delimiter;
  let all_columns := columns content in
  let needed_columns := filter (λ col, col ∉ exclude_columns) all_columns in
  Some (total_size e data_files, usecols content needed_columns).

(** [process_data]: the returned path ([None] when an exception was
    caught), the object and the disk afterwards.  The validation of the
    output only prints and is left out. *)
Definition process_data `{PyLib} (self : DataProcessor) (e : env) (d : disk)
    (train_folder : string) (train_filters : filters)
    (output_file_path : string) (exclude_columns : list string)
    (delimiter : string) : option string * DataProcessor * disk :=
  let self := with_output self output_file_path in
  match load e train_folder exclude_columns delimiter with
  | None => (None, self, d)
  | Some (total_size, ddf) =>
      let ddf := filter_stage ddf train_filters in
      match process_timestamps ddf with
      | None => (None, self, d)
      | Some ddf =>
          let '(self, d, ddf) := encode_categorical_columns self e d ddf in
          let ddf := drop_originals self ddf in
          match to_parquet e d output_file_path ddf (n_partitions total_size) with
          | None => (None, self, d)
          | Some d => (Some output_file_path, self, d)
          end
      end
  end.

End TrainProcessor.

(** ** [data_processing.py]: the older, function-based pipeline *)

(** What a call that does not catch every exception does. *)
Inductive outcome (A : Type) := Returns (a : A) | Raises.
Arguments Returns {A} a.
Arguments Raises {A}.

Module DataProcessing.
Import Pandas.

(** One round of the filter loop of [_apply_filters]: an unknown column is
    logged as an error and ends the function with [None]. *)
Definition apply_filter (data : frame) (f : string * filter_values) : option frame :=
  match getitem data f.1 with
  | Some s => Some (mask_rows data (isin s (as_list f.2)))
  | None => None
  end.

(** The loop body with its early [return None]: once the function has
    returned, the remaining filters are not looked at. *)
Definition filter_step (acc : option frame) (f : string * filter_values) : option frame :=
  data ← acc; apply_filter data f.

Definition _apply_filters (data : frame) (fs : filters) : option frame :=
  an ← getitem data "AN_PROGNOSE_STATUS";
  ab ← getitem data "AB_PROGNOSE_STATUS";
  let data := mask_rows data (real_mask an ab) in
  foldl filter_step (Some data) fs.

(** [data.drop(columns=exclude_columns, errors='ignore')] *)
Definition _exclude_columns (data : frame) (exclude_columns : list string) : option frame :=
  Some (drop data exclude_columns).

(** [fillna(np.nan)] and [infer_objects] leave every value as it is. *)
Definition _preprocess_data (data : frame) : option frame := Some data.

(** The nested [calculate_time_difference]; a missing column or a failed
    conversion is caught and gives [None]. *)
Definition calculate_time_difference `{PyLib} (data : frame)
    (col1 col2 new_col_name : string) : option frame :=
  s1 ← getitem data col1;
  s1' ← to_datetime_series s1;
  let data := setitem data col1 s1' in
  s2 ← getitem data col2;
  s2' ← to_datetime_series s2;
  let data := setitem data col2 s2' in
  a ← getitem data col1;
  p ← getitem data col2;
  Some (setitem data new_col_name (time_difference a p)).

(** [data.map_partitions(encode_partition)]: category codes computed
    inside each dask partition. *)
Definition _encode_categorical_columns `{PyLib} (data : frame) : option frame :=
  cat_codes_partitions data.

(** [s.replace(old, new)] for a non-empty [old]: every occurrence, left to
    right; [skip] counts the characters of a match still to pass. *)
Fixpoint replace_go (old new : string) (skip : nat) (s : string) : string :=
  match s with
  | EmptyString => EmptyString
  | String c s' =>
      match skip with
      | S k => replace_go old new k s'
      | O =>
          if String.prefix old s
          then new +:+ replace_go old new (String.length old - 1) s'
          else String c (replace_go old new 0 s')
      end
  end.

Definition replace (s old new : string) : string := replace_go old new 0 s.

(** The branch of the schema loop: the first of [is_bool_dtype],
    [is_integer_dtype], [is_float_dtype] that holds, else [pa.string()]. *)
Definition is_bool_dtype (t : dtype) : bool :=
  match t with bool_ => true | _ => false end.

Definition is_integer_dtype (t : dtype) : bool :=
  match t with
  | int8 | int16 | int32 | int64 | uint8 | uint16 | uint32 | uint64 => true
  | _ => false
  end.

Definition is_float_dtype (t : dtype) : bool :=
  match t with float16 | float32 | float64 => true | _ => false end.

Definition pa_type_of (t : dtype) : pa_type :=
  if is_bool_dtype t then pa_bool
  else if is_integer_dtype t then pa_int64
  else if is_float_dtype t then pa_float64
  else pa_string.

(** [data.dtypes.items()] *)
Definition dtypes `{PyLib} (data : frame) : list (string * dtype) :=
  prod_map id dtype_of <$> data.

Definition schema_fields `{PyLib} (data : frame) : list (string * pa_type) :=
  prod_map id pa_type_of <$> dtypes data.

(** [save_processed_data]: always 20 partitions, the explicit schema, and
    the output path with [.csv] replaced by [.parquet]. *)
Definition save_processed_data `{PyLib} (e : env) (d : disk) (data : frame)
    (output_file_path : string) : option string * disk :=
  let schema := schema_fields data in
  let output_file_path := replace output_file_path ".csv" ".parquet" in
  if writable e output_file_path then
    (Some output_file_path,
     TrainProcessor.with_dataset d output_file_path
       {| pq_frame := data; pq_npartitions := 20;
          pq_schema := Some schema; pq_compression := "snappy";
          pq_metadata_file := false |})
  else (None, d).

Definition preprocess_and_save_data `{PyLib} (e : env) (d : disk) (data : frame)
    (fs : filters) (exclude_columns : list string) (output_file_path : string)
    : option string * disk :=
  match
    data ← _apply_filters data fs;
    data ← _exclude_columns data exclude_columns;
    data ← _preprocess_data data;
    data ← calculate_time_difference data
              "ANKUNFTSZEIT" "AN_PROGNOSE" "ARRIVAL_TIME_DIFF_SECONDS";
    data ← calculate_time_difference data
              "ABFAHRTSZEIT" "AB_PROGNOSE" "DEPARTURE_TIME_DIFF_SECONDS";
    _encode_categorical_columns data
  with
  | Some data => save_processed_data e d data output_file_path
  | None => (None, d)
  end.

(** [os.listdir] is outside every [try] here. *)
Definition _get_csv_files `{PyLib} (e : env) (folder : string) : outcome (list string) :=
  match listdir e folder with
  | Some names =>
      Returns (path_join folder <$> filter (λ f : string, endswith f ".csv" = true) names)
  | None => Raises
  end.

Definition _load_data (e : env) (data_files : list string) (delimiter : string)
    : option frame :=
  read_csv e data_files delimiter.

Definition load_and_preprocess_data `{PyLib} (e : env) (d : disk)
    (train_folder : string) (fs : filters) (output_file_path : string)
    (exclude_columns : list string) (delimiter : string)
    : outcome (option string) * disk :=
  match _get_csv_files e train_folder with
  | Raises => (Raises, d)
  | Returns data_files =>
      match _load_data e data_files delimiter with
      | None => (Returns None, d)
      | Some data =>
          let r := preprocess_and_save_data e d data fs exclude_columns output_file_path in
          (Returns r.1, r.2)
      end
  end.

End DataProcessing.

(** ** A reference runtime

    One instance of [PyLib], used to run the pipeline on concrete inputs:
    the date parser on the layouts of the data set (ISO
    [YYYY-MM-DD[T]HH:MM[:SS]] and [DD.MM.YYYY HH:MM[:SS]] with [.], [/] or
    [-]), the proleptic Gregorian calendar, and a serializer into item
    lists.  The general theorems below hold for every instance. *)
Module Reference.
Import Pandas.

Inductive token := Num (value : Z) (ndigits : nat) | Sep (c : ascii).

Definition digit (c : ascii) : option Z :=
  let n := Ascii.N_of_ascii c in
  if ((48 <=? n) && (n <=? 57))%N then Some (Z.of_N n - 48) else None.

Definition flush (acc : option (Z * nat)) : list token :=
  match acc with Some (v, n) => [Num v n] | None => [] end.

Fixpoint tokens (s : string) (acc : option (Z * nat)) : list token :=
  match s with
  | EmptyString => flush acc
  | String c s' =>
      match digit c with
      | Some dg =>
          let '(v, n) := default (0, 0%nat) acc in
          tokens s' (Some (10 * v + dg, S n))
      | None => flush acc ++ Sep c :: tokens s' None
      end
  end.

Definition is_leap (y : Z) : bool :=
  ((y mod 4 =? 0) && negb (y mod 100 =? 0)) || (y mod 400 =? 0).

Definition days_in_month (y m : Z) : Z :=
  if m =? 2 then (if is_leap y then 29 else 28)
  else if (m =? 4) || (m =? 6) || (m =? 9) || (m =? 11) then 30 else 31.

(** Days from 1970-01-01 to the civil date [y-m-d]. *)
Definition days_from_civil (y m d : Z) : Z :=
  let y' := if m <=? 2 then y - 1 else y in
  let era := y' / 400 in
  let yoe := y' - era * 400 in
  let doy := (153 * (if 2 <? m then m - 3 else m + 9) + 2) / 5 + d - 1 in
  let doe := yoe * 365 + yoe / 4 - yoe / 100 + doy in
  era * 146097 + doe - 719468.

(** The civil date [(y, m, d)] of a day count. *)
Definition civil_from_days (z : Z) : Z * Z * Z :=
  let z := z + 719468 in
  let era := z / 146097 in
  let doe := z - era * 146097 in
  let yoe := (doe - doe / 1460 + doe / 36524 - doe / 146096) / 365 in
  let doy := doe - (365 * yoe + yoe / 4 - yoe / 100) in
  let mp := (5 * doy + 2) / 153 in
  let d := doy - (153 * mp + 2) / 5 + 1 in
  let m := if mp <? 10 then mp + 3 else mp - 9 in
  (yoe + era * 400 + (if m <=? 2 then 1 else 0), m, d).

Definition ns_per_second : Z := 1000000000.
Definition ns_per_day : Z := 86400 * ns_per_second.

Definition valid_date (y m d : Z) : bool :=
  (1 <=? m) && (m <=? 12) && (1 <=? d) && (d <=? days_in_month y m).

Definition timestamp (y m d h mi sec : Z) : option Z :=
  if valid_date y m d && (h <? 24) && (mi <? 60) && (sec <? 60)
  then Some ((days_from_civil y m d * 86400 + h * 3600 + mi * 60 + sec) * ns_per_second)
  else None.

Definition is_date_sep (c : ascii) : bool :=
  bool_decide (c = "."%char ∨ c = "/"%char ∨ c = "-"%char).

Definition is_time_sep (c : ascii) : bool :=
  bool_decide (c = " "%char ∨ c = "T"%char).

(** The clock part: nothing, [HH:MM] or [HH:MM:SS]. *)
Definition parse_clock (ts : list token) : option (Z * Z * Z) :=
  match ts with
  | [] => Some (0, 0, 0)
  | [Sep c; Num h _; Sep ":"; Num mi _] =>
      if is_time_sep c then Some (h, mi, 0) else None
  | [Sep c; Num h _; Sep ":"; Num mi _; Sep ":"; Num sec _] =>
      if is_time_sep c then Some (h, mi, sec) else None
  | _ => None
  end.

(** Two leading fields [a] and [b] before a four-digit year: with
    [dayfirst] the day is read first; the other order is only taken when
    the preferred one is no date. *)
Definition day_month (dayfirst : bool) (y a b : Z) : Z * Z :=
  let '(d, m) := if dayfirst then (a, b) else (b, a) in
  if valid_date y m d then (d, m)
  else if valid_date y d m then (m, d) else (d, m).

Definition parse_datetime (dayfirst : bool) (s : string) : option Z :=
  match tokens s None with
  | Num y 4 :: Sep "-" :: Num m _ :: Sep "-" :: Num d _ :: clock =>
      '(h, mi, sec) ← parse_clock clock;
      timestamp y m d h mi sec
  | Num a _ :: Sep c1 :: Num b _ :: Sep c2 :: Num y 4 :: clock =>
      if is_date_sep c1 && bool_decide (c1 = c2) then
        '(h, mi, sec) ← parse_clock clock;
        let '(d, m) := day_month dayfirst y a b in
        timestamp y m d h mi sec
      else None
  | _ => None
  end.

Definition ref_to_datetime (dayfirst : bool) (v : cell) : option (option Z) :=
  match v with
  | VStr s => Some <$> parse_datetime dayfirst s
  | VNaN => Some None
  | VTime t => Some (Some t)
  | VInt z => Some (Some z)
  | VFloat _ => None
  end.

Definition ref_dt_get (f : dt_field) (ns : Z) : Z :=
  let days := ns / ns_per_day in
  let '(y, m, d) := civil_from_days days in
  match f with
  | DAY => d
  | MONTH => m
  | YEAR => y
  | DAY_OF_WEEK => (days + 3) mod 7
  | HOUR => (ns / (3600 * ns_per_second)) mod 24
  | MINUTE => (ns / (60 * ns_per_second)) mod 60
  end.

Definition ref_repr (v : cell) : string :=
  match v with
  | VStr s => s
  | VNaN => "nan"
  | VInt z => pretty z
  | VFloat q => pretty (Qnum q) +:+ "/" +:+ pretty (Z.pos (Qden q))
  | VTime t => pretty t +:+ "ns"
  end.

Definition is_int (v : cell) : bool := match v with VInt _ => true | _ => false end.
Definition is_num (v : cell) : bool :=
  match v with VInt _ | VFloat _ | VNaN => true | _ => false end.
Definition is_time (v : cell) : bool :=
  match v with VTime _ | VNaN => true | _ => false end.

Definition ref_dtype_of (s : list cell) : dtype :=
  if forallb is_int s then int64
  else if forallb is_num s then float64
  else if forallb is_time s then datetime64
  else object_.

(** Category codes with the whole frame as one partition: the rank of the
    value among the sorted distinct values of its column. *)
Definition ref_cat_codes (data : frame) : option frame :=
  Some (prod_map id (λ s,
          map_dict (dict_of (enumerate (sorted (ref_repr <$> unique s))))
                   (Some ∘ ref_repr <$> s)) <$> data).

Definition ref_pickle_dump (m : encoding_table) : list (string * list (string * nat)) :=
  map_to_list (map_to_list <$> m).

Definition ref_pickle_load (b : list (string * list (string * nat)))
    : option encoding_table :=
  Some (list_to_map (prod_map id list_to_map <$> b)).

Definition ref_join (a b : string) : string :=
  if decide (a = EmptyString) then b else a +:+ "/" +:+ b.

(** The part of the reversed path after its first ["/"]. *)
Fixpoint after_slash (s : string) : string :=
  match s with
  | EmptyString => EmptyString
  | String c s' => if decide (c = "/"%char) then s' else after_slash s'
  end.

Definition ref_dirname (p : string) : string :=
  String.rev (after_slash (String.rev p)).

Global Instance lib : PyLib := {|
  py_repr := ref_repr;
  to_datetime := ref_to_datetime;
  dt_get := ref_dt_get;
  dtype_of := ref_dtype_of;
  cat_codes_partitions := ref_cat_codes;
  pickled := list (string * list (string * nat));
  pickle_dump := ref_pickle_dump;
  pickle_load := ref_pickle_load;
  path_join := ref_join;
  path_dirname := ref_dirname
|}.

End Reference.



(** ** Column bookkeeping

    What the stages of [process_data] do to the list of column names, as
    functions on that list. *)

Module Columns.
Import Pandas TrainProcessor.

(** The names after [df[c] = ...]. *)
Definition add_column (cols : list string) (c : string) : list string :=
  if decide (c ∈ cols) then cols else cols ++ [c].

Definition component_names (col : string) : list string :=
  (λ sf, col +:+ sf.1) <$> component_suffixes.

Definition real_columns (cols : list string) : list string :=
  if decide ("AN_PROGNOSE_STATUS" ∈ cols ∧ "AB_PROGNOSE_STATUS" ∈ cols)
  then filter (λ c, c ∉ status_columns) cols else cols.

Definition pair_columns (cols : list string) (pair : string * string * string)
    : list string :=
  if decide (pair.1.1 ∈ cols ∧ pair.1.2 ∈ cols)
  then filter (λ c, c ∉ [pair.1.1; pair.1.2])
         (foldl add_column cols
            (pair.2 :: component_names pair.1.1 ++ component_names pair.1.2))
  else cols.

Definition encode_columns (cols listed : list string) : list string :=
  foldl (λ cols c, if decide (c ∈ cols) then add_column cols (encoded_name c) else cols)
        cols listed.

(** The names of the written frame, from the names that were read. *)
Definition final_columns (self : DataProcessor) (needed : list string) : list string :=
  let listed := bool_columns self ++ categorical_columns self in
  let cols := encode_columns (foldl pair_columns (real_columns needed) timestamp_pairs)
                             listed in
  filter (λ c, c ∉ filter (λ c, c ∈ cols) listed) cols.

(** The only names the stages before the last drop remove. *)
Definition dropped_names : list string :=
  status_columns ++ ["ANKUNFTSZEIT"; "AN_PROGNOSE"; "ABFAHRTSZEIT"; "AB_PROGNOSE"].

(** The columns that were read and are still there come first and in the
    order they were read in; the new columns follow. *)
Definition keeps_order (needed cols : list string) : Prop :=
  cols = filter (λ c, c ∈ cols) needed ++ filter (λ c, c ∉ needed) cols.

(** Only the names of [dropped_names] have gone from the columns read. *)
Definition intact (needed cols : list string) : Prop :=
  ∀ c, c ∈ needed → c ∉ dropped_names → c ∈ cols.

(** [s] ends with [suffix]. *)
Fixpoint has_suffix (suffix s : string) : bool :=
  if decide (s = suffix) then true
  else match s with
       | EmptyString => false
       | String _ s' => has_suffix suffix s'
       end.

End Columns.

(** ** The wording of the specification *)

Module Spec.
Import Pandas TrainProcessor.

(** The code of a boolean value: 0 for ["false"], 1 for ["true"] after
    lower-casing, missing for anything else. *)
Definition bool_code `{PyLib} (v : cell) : cell :=
  if decide (lower (str v) = "false") then VInt 0
  else if decide (lower (str v) = "true") then VInt 1
  else VNaN.


(** The categorical codes as they are worded, for a mapping and the
    stringified values of a column: the keys are those values, the codes
    are exactly [0 .. N-1] for the number [N] of distinct stringified
    values, each code belongs to one key, and the codes ascend in the
    lexicographic order of the keys. *)
Definition dense_codes (mapping : gmap string nat) (stringified : list string) : Prop :=
  let N := length (remove_dups stringified) in
  (∀ k, is_Some (mapping !! k) ↔ k ∈ stringified)
  ∧ (∀ n, (∃ k, mapping !! k = Some n) ↔ (n < N)%nat)
  ∧ (∀ k1 k2 n, mapping !! k1 = Some n → mapping !! k2 = Some n → k1 = k2)
  ∧ (∀ k1 k2 n1 n2, mapping !! k1 = Some n1 → mapping !! k2 = Some n2 →
       (n1 ≤ n2)%nat ↔ String.le k1 k2).



(** The partition count as it is worded, from the size in bytes:
    [max(1, floor(2 * GB))]. *)
Definition stated_partitions (bytes : N) : Z :=
  Z.max 1 (Qfloor (2 * (Z.of_N bytes # 1073741824))).

End Spec.

(** ** A small data set to run the pipelines on *)

Module Example.
Import Pandas.

Definition table : frame :=
  [("BETRIEBSTAG", [VStr "01.01.2024"; VStr "01.01.2024"; VStr "02.01.2024"]);
   ("LINIEN_TEXT", [VStr "IC5"; VStr "IC21"; VStr "IC5"]);
   ("ZUSATZFAHRT_TF", [VStr "false"; VStr "True"; VNaN]);
   ("ANKUNFTSZEIT",
    [VStr "01.01.2024 10:05"; VStr "01.01.2024 11:00"; VStr "02.01.2024 09:00"]);
   ("AN_PROGNOSE",
    [VStr "01.01.2024 10:00:00"; VStr "01.01.2024 11:02:30"; VNaN]);
   ("AN_PROGNOSE_STATUS", [VStr "REAL"; VStr "REAL"; VStr "PROGNOSE"]);
   ("ABFAHRTSZEIT",
    [VStr "01.01.2024 10:07"; VStr "01.01.2024 11:03"; VStr "02.01.2024 09:02"]);
   ("AB_PROGNOSE",
    [VStr "01.01.2024 10:07:10"; VStr "01.01.2024 11:03:00";
     VStr "02.01.2024 09:02:00"]);
   ("AB_PROGNOSE_STATUS", [VStr "REAL"; VStr "REAL"; VStr "REAL"])].

(** Two timestamp columns: the pair of the specification, the same pair
    swapped, and a day-first date against its ISO form. *)
Definition arrivals : frame :=
  [("ANKUNFTSZEIT",
    [VStr "2024-01-01T10:05:00"; VStr "2024-01-01T10:00:00"; VStr "01/02/2024 10:05:00"]);
   ("AN_PROGNOSE",
    [VStr "2024-01-01T10:00:00"; VStr "2024-01-01T10:05:00"; VStr "2024-02-01T10:00:00"])].

Definition csv_path : string := "data/train/2024-01.csv".

(** A folder with one CSV file of 5 GiB and one other file; every path
    can be written. *)
Definition world : env := {|
  listdir := λ folder,
    if decide (folder = "data/train") then Some ["2024-01.csv"; "README.txt"] else None;
  getsize := λ path, if decide (path = csv_path) then 5368709120%N else 0%N;
  read_csv := λ files delimiter,
    if decide (files = [csv_path] ∧ delimiter = ";") then Some table else None;
  writable := λ _, true
|}.

Definition empty_disk : disk (H := Reference.lib) :=
  {| pickles := ∅; reports := ∅; datasets := ∅ |}.

Definition output : string := "data/processed/processed_data.parquet".

Definition run (train_filters : filters) (exclude_columns : list string) :=
  TrainProcessor.process_data (H := Reference.lib) TrainProcessor.__init__
    world empty_disk "data/train" train_filters output exclude_columns ";".

(** The encoder alone, on the whole table. *)
Definition example_encode :=
  TrainProcessor.encode_categorical_columns (H := Reference.lib)
    (TrainProcessor.with_output TrainProcessor.__init__ output)
    world empty_disk table.

Definition legacy_run (fs : filters) (exclude_columns : list string) :=
  DataProcessing.load_and_preprocess_data (H := Reference.lib)
    world empty_disk "data/train" fs "out/processed.csv" exclude_columns ";".

End Example.

(** ** [train_processor.py]: class [DataValidation] *)

Module Validation.
Import Pandas.

(** The entry of one encoded column in [stats['encoded_columns']]. *)
Record column_stats := {
  unique_values : nat;
  value_range : string
}.

(** The statistics dictionary of [validate_parquet].  Its two size strings
    ([memory_usage] and [file_size]) are formatted from what the storage
    layer reports and are not part of the model. *)
Record stats := {
  total_rows : nat;
  stats_columns : list string;
  encoded_columns : list (string * column_stats)
}.

(** [ddf.shape[0]]: the number of rows. *)
Definition nrows (df : frame) : nat :=
  match df with
  | [] => 0%nat
  | (_, s) :: _ => length s
  end.

(** [len(s.value_counts())]: the distinct values of the column; missing
    values are not counted. *)
Definition value_counts_len (s : series) : nat :=
  length (remove_dups (filter (λ v, v ≠ VNaN) s)).

(** [{'unique_values': n, 'value_range': f"0 to {n - 1}"}] *)
Definition encoded_stats (s : series) : column_stats :=
  let n := value_counts_len s in
  {| unique_values := n;
     value_range := "0 to " +:+ pretty (Z.of_nat n - 1) |}.

(** [validate_parquet]: [(True, stats)], or [(False, {'error': ...})] when
    the file cannot be read; the entries of the encoded columns come in
    column order. *)
Definition validate_parquet `{PyLib} (d : disk) (file_path : string)
    : bool * option stats :=
  match datasets d !! file_path with
  | Some pq =>
      let ddf := pq_frame pq in
      let encoded_cols := filter (λ col, endswith col "_encoded" = true) (columns ddf) in
      (true,
       Some {| total_rows := nrows ddf;
               stats_columns := columns ddf;
               encoded_columns :=
                 (λ col, (col, encoded_stats (default [] (getitem ddf col))))
                   <$> encoded_cols |})
  | None => (false, None)
  end.

End Validation.

(** ** [train_processor.py]: class [DelayAnalyzer] *)

Module Analysis.
Import Pandas.

Definition required_cols : list string :=
  ["DEPARTURE_TIME_DIFF_SECONDS"; "ARRIVAL_TIME_DIFF_SECONDS"].

Definition feature_suffixes : list string :=
  ["_DAY"; "_MONTH"; "_YEAR"; "_DAY_OF_WEEK"; "_HOUR"; "_MINUTE"; "_encoded"].

(** [col.endswith((s1, s2, ...))] *)
Definition endswith_any (col : string) (suffixes : list string) : bool :=
  existsb (endswith col) suffixes.

(** [[col for col in ddf.columns
      if col.endswith((...)) and col not in required_cols]] *)
Definition feature_cols (cols : list string) : list string :=
  filter (λ col, endswith_any col feature_suffixes = true ∧ col ∉ required_cols) cols.

(** [analyze_delays] up to the selection of the features.  What follows
    (statistics, sampling, the two forests, the plots and the saved models)
    is the argument [fit], which gets the frame and the feature columns and
    gives [None] when a step raises; the method returns [None] as well when
    the file cannot be read or a required column is missing. *)
Definition analyze_delays `{PyLib} {M : Type}
    (fit : frame → list string → option M) (d : disk) (parquet_file : string)
    : option M :=
  match datasets d !! parquet_file with
  | Some pq =>
      let ddf := pq_frame pq in
      if decide (Forall (λ col, col ∈ columns ddf) required_cols)
      then fit ddf (feature_cols (columns ddf))
      else None
  | None => None
  end.

End Analysis.

(** ** [train_processor.py]: class [DataManager] *)

Module Manager.

(** [CONFIG['months_history']] *)
Definition months_history : nat := 3.

(** The text of a month as [strftime("%Y-%m")] prints it, for a year of
    four digits. *)
Definition month_str (y m : Z) : string :=
  pretty y +:+ "-" +:+ (if m <? 10 then "0" +:+ pretty m else pretty m).

(** [date.strftime("%Y-%m")] of the day [days] after 1970-01-01. *)
Definition strftime_Ym (days : Z) : string :=
  let '(y, m, _) := Reference.civil_from_days days in month_str y m.

(** [get_months_to_download], with the date of [datetime.now()] given as
    its day number: the month of today less [30 * i] days, for [i] in
    [range(months_history)]. *)
Definition get_months_to_download (today : Z) : list string :=
  (λ i : nat, strftime_Ym (today - 30 * Z.of_nat i)) <$> seq 0 months_history.

(** Dates as [civil_from_days] computes them, counted from the first of
    March: the day number of the day [d] of the month [mp] (0 for March, 11
    for February) of the year [yoe] of the 400-year era [era], and the
    dates that exist. *)
Definition day_number (era yoe mp d : Z) : Z :=
  era * 146097 + (365 * yoe + yoe / 4 - yoe / 100) + (153 * mp + 2) / 5 + d - 1.

Definition valid (yoe mp d : Z) : Prop :=
  0 ≤ yoe ≤ 399 ∧ 0 ≤ mp ≤ 11 ∧ 1 ≤ d
  ∧ (153 * mp + 2) / 5 + d - 1 < (153 * (mp + 1) + 2) / 5
  ∧ (365 * yoe + yoe / 4 - yoe / 100) + (153 * mp + 2) / 5 + d - 1 < 146097
  ∧ (yoe < 399 →
     (153 * mp + 2) / 5 + d - 1
     < 365 * (yoe + 1) + (yoe + 1) / 4 - (yoe + 1) / 100
       - (365 * yoe + yoe / 4 - yoe / 100)).

End Manager.

(** Goals about division by the constants of the calendar are handed to
    [lia] after the quotients are named. *)
Ltac zdiv := Z.to_euclidean_division_equations.
Ltac solve_valid := unfold Manager.valid, Manager.day_number in *; split_and!; (zdiv; lia).

(** * Properties *)

(** ** Frames *)

Section frames.
Import Pandas.
Implicit Types (df : frame) (c : string) (s : series).

Lemma elem_of_columns_cons df n s c :
  c ∈ columns ((n, s) :: df) ↔ n = c ∨ c ∈ columns df.
Proof.
  unfold columns. rewrite fmap_cons, elem_of_cons. simpl.
  split; intros [|]; auto.
Qed.

Lemma getitem_None df c : getitem df c = None ↔ c ∉ columns df.
Proof.
  induction df as [|[n s] df IH].
  - split; [intros _; apply not_elem_of_nil | done].
  - rewrite elem_of_columns_cons. simpl. case_decide.
    + split; [done|]. intros Hn. destruct Hn. by left.
    + rewrite IH. split; [intros ? [|]; done|]. intros Hn ?. apply Hn. by right.
Qed.

Lemma getitem_is_Some df c : is_Some (getitem df c) ↔ c ∈ columns df.
Proof.
  destruct (getitem df c) as [s|] eqn:Hg.
  - split; [|by eauto]. intros _.
    destruct (decide (c ∈ columns df)) as [|Hn]; [done|].
    apply getitem_None in Hn. congruence.
  - apply getitem_None in Hg. split; [by intros [? ?]|done].
Qed.

Lemma getitem_Some_columns df c s : getitem df c = Some s → c ∈ columns df.
Proof. intros Hs. apply getitem_is_Some. by exists s. Qed.

Lemma columns_replace_column df c s : columns (replace_column df c s) = columns df.
Proof.
  induction df as [|[n s0] df IH]; simpl; [done|].
  case_decide; [done|]. unfold columns in *. rewrite !fmap_cons. by f_equal.
Qed.

Lemma columns_setitem df c s :
  columns (setitem df c s) = if decide (c ∈ columns df) then columns df else columns df ++ [c].
Proof.
  unfold setitem. case_decide.
  - apply columns_replace_column.
  - unfold columns. by rewrite fmap_app.
Qed.

Lemma elem_of_columns_setitem df c s c' :
  c' ∈ columns (setitem df c s) ↔ c' = c ∨ c' ∈ columns df.
Proof.
  rewrite columns_setitem. case_decide.
  - split; [by right|]. by intros [->|].
  - rewrite elem_of_app, list_elem_of_singleton. split; intros [|]; auto.
Qed.

Lemma getitem_replace_column df c s c' :
  getitem (replace_column df c s) c' =
    if decide (c = c') then (λ _, s) <$> getitem df c else getitem df c'.
Proof.
  induction df as [|[n s0] df IH]; simpl.
  - by case_decide.
  - destruct (decide (n = c)) as [->|Hn]; simpl.
    + by destruct (decide (c = c')).
    + rewrite IH. destruct (decide (n = c')) as [->|]; [|done].
      by rewrite decide_False.
Qed.

Lemma getitem_app df1 df2 c :
  getitem (df1 ++ df2) c =
    match getitem df1 c with Some s => Some s | None => getitem df2 c end.
Proof.
  induction df1 as [|[n s0] df1 IH]; simpl; [done|]. by case_decide.
Qed.

Lemma getitem_setitem_eq df c s : getitem (setitem df c s) c = Some s.
Proof.
  unfold setitem. case_decide as Hc.
  - rewrite getitem_replace_column, decide_True by done.
    apply getitem_is_Some in Hc as [s0 ->]. done.
  - rewrite getitem_app. apply getitem_None in Hc as ->. simpl.
    by rewrite decide_True.
Qed.

Lemma getitem_setitem_ne df c s c' :
  c ≠ c' → getitem (setitem df c s) c' = getitem df c'.
Proof.
  intros Hne. unfold setitem. case_decide.
  - by rewrite getitem_replace_column, decide_False.
  - rewrite getitem_app. destruct (getitem df c'); [done|]. simpl.
    by rewrite decide_False.
Qed.

Lemma drop_cons df n s cs :
  drop ((n, s) :: df) cs = if decide (n ∈ cs) then drop df cs else (n, s) :: drop df cs.
Proof.
  unfold drop. rewrite filter_cons. simpl.
  destruct (decide (n ∈ cs)); [by rewrite decide_False by auto|by rewrite decide_True].
Qed.

Lemma columns_drop df cs : columns (drop df cs) = filter (λ c, c ∉ cs) (columns df).
Proof.
  induction df as [|[n s0] df IH]; [done|].
  rewrite drop_cons. unfold columns in *. rewrite fmap_cons. cbn [fst].
  destruct (decide (n ∈ cs)).
  - by rewrite (filter_cons_False (λ c, c ∉ cs)) by auto.
  - rewrite (filter_cons_True (λ c, c ∉ cs)) by done.
    rewrite fmap_cons. f_equal. exact IH.
Qed.

Lemma getitem_drop df cs c :
  getitem (drop df cs) c = if decide (c ∈ cs) then None else getitem df c.
Proof.
  induction df as [|[n s0] df IH].
  - by case_decide.
  - rewrite drop_cons. destruct (decide (n ∈ cs)) as [Hn|Hn]; simpl; rewrite IH.
    + destruct (decide (n = c)) as [->|]; [|done]. by destruct (decide (c ∈ cs)).
    + destruct (decide (n = c)) as [->|]; [|done]. by destruct (decide (c ∈ cs)).
Qed.

Lemma columns_mask_rows df mask : columns (mask_rows df mask) = columns df.
Proof.
  unfold columns, mask_rows. rewrite <-list_fmap_compose.
  apply list_fmap_ext. by intros ? [].
Qed.

Lemma getitem_mask_rows df mask c :
  getitem (mask_rows df mask) c = select mask <$> getitem df c.
Proof.
  unfold mask_rows. induction df as [|[n s0] df IH]; simpl; [done|].
  by case_decide.
Qed.

Lemma usecols_cons df n s cs :
  usecols ((n, s) :: df) cs =
    if decide (n ∈ cs) then (n, s) :: usecols df cs else usecols df cs.
Proof. unfold usecols. by rewrite filter_cons. Qed.

Lemma columns_usecols df cs : columns (usecols df cs) = filter (λ c, c ∈ cs) (columns df).
Proof.
  induction df as [|[n s0] df IH]; [done|].
  rewrite usecols_cons. unfold columns in *. rewrite fmap_cons. cbn [fst].
  destruct (decide (n ∈ cs)).
  - rewrite (filter_cons_True (λ c, c ∈ cs)) by done.
    rewrite fmap_cons. f_equal. exact IH.
  - by rewrite (filter_cons_False (λ c, c ∈ cs)) by done.
Qed.

End frames.

(** ** Boolean and categorical encoding *)

Section encoding.
Context `{PyLib}.
Import Pandas TrainProcessor Spec.

Lemma lower_ascii_idemp c : lower_ascii (lower_ascii c) = lower_ascii c.
Proof. by destruct c as [[] [] [] [] [] [] [] []]. Qed.

Lemma lower_idemp (s : string) : lower (lower s) = lower s.
Proof.
  unfold lower, string_lower.
  induction s as [|c s IH]; simpl; [done|]. by rewrite lower_ascii_idemp, IH.
Qed.

(** After lower-casing, the two capitalised keys of the table are dead. *)
Lemma lower_not_capitalised (s : string) : lower s ≠ "False" ∧ lower s ≠ "True".
Proof.
  split; intros Hs; pose proof (lower_idemp s) as Hi; rewrite Hs in Hi; done.
Qed.

(** One value of [s.astype(str)]. *)
Lemma astype_str_lookup (s : series) i v :
  s !! i = Some v →
  astype_str s !! i = Some (if decide (v = VNaN) then None else Some (str v)).
Proof.
  intros Hv. unfold astype_str. rewrite list_lookup_fmap, Hv. simpl.
  by destruct v.
Qed.

Lemma bool_mapping_lookup k :
  bool_mapping !! k =
    if decide (k = "True") then Some 1%nat
    else if decide (k = "False") then Some 0%nat
    else if decide (k = "true") then Some 1%nat
    else if decide (k = "false") then Some 0%nat
    else None.
Proof.
  unfold bool_mapping. rewrite !lookup_insert, lookup_empty.
  repeat (case_decide; simplify_eq; try done).
Qed.

Lemma encode_bool_series_fmap (s : series) :
  encode_bool_series s = bool_code <$> s.
Proof.
  unfold encode_bool_series, map_dict, astype_str.
  rewrite <-!list_fmap_compose. apply list_fmap_ext. intros _ v _.
  destruct (decide (v = VNaN)) as [->|Hv]; [reflexivity|].
  cbn [compose].
  assert ((match v with VNaN => None | _ => Some (str v) end) = Some (str v)) as ->
    by by destruct v.
  change (lower (Some (str v)) ≫= (bool_mapping !!.))
    with (bool_mapping !! lower (str v)).
  rewrite bool_mapping_lookup. unfold bool_code.
  destruct (lower_not_capitalised (str v)).
  repeat case_decide; done || congruence.
Qed.

(** *** The dictionary built from an enumeration *)

Lemma enumerate_snoc {A} (l : list A) x :
  enumerate (l ++ [x]) = enumerate l ++ [(length l, x)].
Proof.
  unfold enumerate. rewrite imap_app. simpl. by rewrite Nat.add_0_r.
Qed.

Lemma dict_of_snoc l x :
  dict_of (enumerate (l ++ [x])) = <[x := length l]> (dict_of (enumerate l)).
Proof. unfold dict_of. by rewrite enumerate_snoc, foldl_app. Qed.

(** A key is mapped to the index of its last occurrence. *)
Lemma dict_of_lookup l k i :
  dict_of (enumerate l) !! k = Some i ↔
    l !! i = Some k ∧ ∀ j, (i < j)%nat → l !! j ≠ Some k.
Proof.
  revert i. induction l as [|x l IH] using rev_ind; intros i.
  - unfold dict_of. simpl. rewrite lookup_empty. split; [done|]. by intros [? _].
  - rewrite dict_of_snoc, lookup_insert. case_decide as Hx.
    + subst x. split.
      * intros [= <-]. split; [by rewrite list_lookup_middle|].
        intros j Hj. rewrite lookup_ge_None_2; [done|].
        rewrite length_app. simpl. lia.
      * intros [Hi Hlast]. f_equal.
        destruct (decide (i < length l)%nat) as [Hlt|Hge].
        -- destruct (Hlast (length l) Hlt). by rewrite list_lookup_middle.
        -- apply lookup_lt_Some in Hi. rewrite length_app in Hi. simpl in Hi. lia.
    + rewrite IH. split.
      * intros [Hi Hlast]. split; [by apply lookup_app_l_Some|].
        intros j Hj Hk. apply lookup_app_Some in Hk as [Hk|[_ Hk]].
        -- by apply (Hlast j).
        -- apply list_lookup_singleton_Some in Hk as [_ ?]. done.
      * intros [Hi Hlast]. apply lookup_app_Some in Hi as [Hi|[_ Hi]].
        -- split; [done|]. intros j Hj Hk. apply (Hlast j Hj).
           by apply lookup_app_l_Some.
        -- apply list_lookup_singleton_Some in Hi as [_ ?]. done.
Qed.

Lemma dict_of_lookup_NoDup l k i :
  NoDup l → dict_of (enumerate l) !! k = Some i ↔ l !! i = Some k.
Proof.
  intros Hnd. rewrite dict_of_lookup. split; [by intros [? _]|].
  intros Hi. split; [done|]. intros j Hj Hk.
  pose proof (NoDup_lookup _ _ _ _ Hnd Hi Hk). lia.
Qed.

(** *** [sorted] *)

Lemma sorted_Permutation l : sorted l ≡ₚ l.
Proof. apply merge_sort_Permutation. Qed.

Lemma sorted_StronglySorted l : StronglySorted String.le (sorted l).
Proof. apply StronglySorted_merge_sort; apply _. Qed.

(** The result depends on the values only, not on the order they come in. *)
Lemma sorted_proper l1 l2 : l1 ≡ₚ l2 → sorted l1 = sorted l2.
Proof.
  intros Hp. apply (Sorted_unique String.le).
  - apply Sorted_merge_sort; apply _.
  - apply Sorted_merge_sort; apply _.
  - by rewrite !sorted_Permutation.
Qed.

Lemma StronglySorted_lookup_le (l : list string) i j x y :
  StronglySorted String.le l → l !! i = Some x → l !! j = Some y →
  (i ≤ j)%nat → String.le x y.
Proof.
  intros Hs. revert i j. induction Hs as [|a l Hs IH Hall]; intros i j Hi Hj Hij.
  - done.
  - destruct i as [|i], j as [|j]; simpl in *; simplify_eq.
    + reflexivity.
    + eapply Forall_forall in Hall; [done|]. by eapply list_elem_of_lookup_2.
    + lia.
    + eapply IH; eauto with lia.
Qed.

(** *** The categorical mapping *)

Lemma category_mapping_lookup uniq k i :
  NoDup (str <$> uniq) →
  category_mapping uniq !! k = Some i ↔ sorted (str <$> uniq) !! i = Some k.
Proof.
  intros Hnd. apply dict_of_lookup_NoDup. by rewrite sorted_Permutation.
Qed.

(** When no two distinct values of the column print alike, the codes are
    dense: the keys are the stringified values, the codes are exactly
    [0 .. N-1], each code has one key, and codes ascend with the keys. *)
Lemma category_mapping_dense uniq :
  NoDup (str <$> uniq) →
  (∀ k, is_Some (category_mapping uniq !! k) ↔ k ∈ str <$> uniq) ∧
  (∀ i, (∃ k, category_mapping uniq !! k = Some i) ↔ (i < length uniq)%nat) ∧
  (∀ k1 k2 i, category_mapping uniq !! k1 = Some i →
              category_mapping uniq !! k2 = Some i → k1 = k2) ∧
  (∀ k1 k2 i1 i2, category_mapping uniq !! k1 = Some i1 →
                  category_mapping uniq !! k2 = Some i2 →
                  (i1 ≤ i2)%nat ↔ String.le k1 k2).
Proof.
  intros Hnd.
  assert (Hlen : length (sorted (str <$> uniq)) = length uniq).
  { by rewrite sorted_Permutation, length_fmap. }
  assert (Hnds : NoDup (sorted (str <$> uniq))) by by rewrite sorted_Permutation.
  split_and!.
  - intros k. rewrite <-(sorted_Permutation (str <$> uniq)), list_elem_of_lookup.
    split.
    + intros [i Hi]. exists i. by apply category_mapping_lookup.
    + intros [i Hi]. exists i. by apply category_mapping_lookup.
  - intros i. rewrite <-Hlen. split.
    + intros [k Hk]. apply category_mapping_lookup in Hk; [|done].
      by eapply lookup_lt_Some.
    + intros Hi. apply lookup_lt_is_Some in Hi as [k Hk].
      exists k. by apply category_mapping_lookup.
  - intros k1 k2 i H1 H2.
    apply category_mapping_lookup in H1, H2; [|done..]. congruence.
  - intros k1 k2 i1 i2 H1 H2.
    apply category_mapping_lookup in H1, H2; [|done..].
    pose proof (sorted_StronglySorted (str <$> uniq)) as Hs. split.
    + intros Hle. by eapply StronglySorted_lookup_le.
    + intros Hle. destruct (decide (i1 ≤ i2)%nat) as [|Hgt]; [done|].
      assert (String.le k2 k1) as Hle'.
      { eapply StronglySorted_lookup_le; eauto with lia. }
      assert (k1 = k2) as -> by by apply (anti_symm String.le).
      pose proof (NoDup_lookup _ _ _ _ Hnds H1 H2). lia.
Qed.

(** Encoding twice from the same stringified values, met in any order,
    gives the same mapping. *)
Lemma category_mapping_deterministic uniq1 uniq2 :
  str <$> uniq1 ≡ₚ str <$> uniq2 → category_mapping uniq1 = category_mapping uniq2.
Proof. intros Hp. unfold category_mapping. by rewrite (sorted_proper _ _ Hp). Qed.

End encoding.

Section rounds.
Context `{PyLib}.
Import Pandas TrainProcessor.

Lemma string_length_app s t : String.length (s +:+ t) = (String.length s + String.length t)%nat.
Proof. induction s as [|c s IH]; simpl; [done|]. by rewrite IH. Qed.

Lemma append_suffix_inj t s1 s2 : s1 +:+ t = s2 +:+ t → s1 = s2.
Proof.
  revert s2. induction s1 as [|c s1 IH]; intros [|c2 s2] Heq.
  - done.
  - apply (f_equal String.length) in Heq.
    rewrite !string_length_app in Heq. simpl in Heq. lia.
  - apply (f_equal String.length) in Heq.
    rewrite !string_length_app in Heq. simpl in Heq. lia.
  - injection Heq as -> Heq. f_equal. by apply IH.
Qed.

Lemma encoded_name_inj : Inj (=) (=) encoded_name.
Proof. intros s1 s2. apply append_suffix_inj. Qed.

Lemma encode_as_rounds self st :
  foldl encode_categorical (foldl encode_bool st (bool_columns self))
        (categorical_columns self)
  = foldl encode_round st (rounds self).
Proof.
  unfold rounds. rewrite foldl_app, !foldl_fmap. done.
Qed.

Implicit Types (rs : list (string * encoder)) (st : encoding_table * frame).

Lemma rounds_frame_other rs st c :
  c ∉ encoded_name <$> rs.*1 →
  getitem (foldl encode_round st rs).2 c = getitem st.2 c.
Proof.
  revert st. induction rs as [|[col enc] rs IH]; intros st Hc; [done|].
  rewrite !fmap_cons, not_elem_of_cons in Hc. destruct Hc as [Hne Hc].
  simpl. rewrite IH by done. unfold encode_round. simpl.
  destruct (getitem st.2 col); [|done]. simpl.
  by rewrite getitem_setitem_ne.
Qed.

Lemma rounds_maps_other rs st c :
  c ∉ rs.*1 → (foldl encode_round st rs).1 !! c = st.1 !! c.
Proof.
  revert st. induction rs as [|[col enc] rs IH]; intros st Hc; [done|].
  rewrite fmap_cons, not_elem_of_cons in Hc. destruct Hc as [Hne Hc].
  simpl. rewrite IH by done. unfold encode_round. simpl.
  destruct (getitem st.2 col); [|done]. simpl.
  by rewrite lookup_insert_ne.
Qed.

(** A listed column that is in the frame gets the mapping and the encoded
    series of its round, whatever the other rounds do. *)
Lemma rounds_present rs st col enc s :
  NoDup rs.*1 → Forall (λ c, encoded_name c ∉ rs.*1) rs.*1 →
  (col, enc) ∈ rs → getitem st.2 col = Some s →
  (foldl encode_round st rs).1 !! col = Some (enc s).1
  ∧ getitem (foldl encode_round st rs).2 (encoded_name col) = Some (enc s).2.
Proof.
  revert st. induction rs as [|[c0 e0] rs IH]; intros st Hnd Hwn Hin Hs.
  { by apply elem_of_nil in Hin. }
  rewrite fmap_cons in Hnd, Hwn. cbn [fst] in Hnd, Hwn.
  apply NoDup_cons in Hnd as [Hc0 Hnd].
  apply Forall_cons in Hwn as [Hwn0 Hwn].
  apply elem_of_cons in Hin as [Heq|Hin].
  - simplify_eq. simpl. unfold encode_round at 2 4. simpl. rewrite Hs. split.
    + rewrite rounds_maps_other by done. simpl. by rewrite lookup_insert_eq.
    + rewrite rounds_frame_other.
      * simpl. by rewrite getitem_setitem_eq.
      * intros Hin. apply list_elem_of_fmap in Hin as [c' [Hc' Hin]].
        apply encoded_name_inj in Hc'. by subst.
  - simpl. apply IH; [done| |done|].
    + eapply Forall_impl; [exact Hwn|]. intros c Hc Hc'. apply Hc. by right.
    + unfold encode_round. simpl. destruct (getitem st.2 c0); [|done]. simpl.
      rewrite getitem_setitem_ne; [done|]. intros Heq. apply Hwn0.
      rewrite Heq. right. apply list_elem_of_fmap. by exists (col, enc).
Qed.

(** A listed column that is not in the frame leaves no trace. *)
Lemma rounds_absent rs st col :
  Forall (λ c, encoded_name c ∉ rs.*1) rs.*1 →
  col ∈ rs.*1 → getitem st.2 col = None →
  (foldl encode_round st rs).1 !! col = st.1 !! col
  ∧ getitem (foldl encode_round st rs).2 (encoded_name col)
    = getitem st.2 (encoded_name col)
  ∧ getitem (foldl encode_round st rs).2 col = None.
Proof.
  revert st. induction rs as [|[c0 e0] rs IH]; intros st Hwn Hin Hs.
  { by apply elem_of_nil in Hin. }
  rewrite fmap_cons in Hwn, Hin. cbn [fst] in Hwn, Hin.
  apply Forall_cons in Hwn as [Hwn0 Hwn].
  assert (Hwn' : Forall (λ c, encoded_name c ∉ rs.*1) rs.*1).
  { eapply Forall_impl; [exact Hwn|]. intros c Hc Hc'. apply Hc. by right. }
  assert (Hstep : getitem (encode_round st (c0, e0)).2 col = None
                  ∧ (c0 ≠ col → (encode_round st (c0, e0)).1 !! col = st.1 !! col
                     ∧ getitem (encode_round st (c0, e0)).2 (encoded_name col)
                       = getitem st.2 (encoded_name col))
                  ∧ (c0 = col → encode_round st (c0, e0) = st)).
  { unfold encode_round. simpl. split_and!.
    - destruct (getitem st.2 c0); [|done]. simpl.
      rewrite getitem_setitem_ne; [done|]. intros Heq. apply Hwn0.
      rewrite Heq. done.
    - intros Hne. destruct (getitem st.2 c0); [|done]. simpl.
      rewrite lookup_insert_ne by done. split; [done|].
      rewrite getitem_setitem_ne; [done|]. by intros ?%encoded_name_inj.
    - intros ->. by rewrite Hs. }
  destruct Hstep as (Hnone & Hother & Hsame). simpl.
  destruct (decide (c0 = col)) as [->|Hne].
  - rewrite (Hsame eq_refl).
    destruct (decide (col ∈ rs.*1)) as [Hin'|Hnin]; [by apply IH|].
    rewrite rounds_maps_other by done. split; [done|]. split.
    + apply rounds_frame_other.
      intros (c' & Hc' & Hin')%list_elem_of_fmap.
      apply encoded_name_inj in Hc'. by subst.
    + rewrite rounds_frame_other; [done|].
      intros (c' & Hc' & Hin')%list_elem_of_fmap.
      eapply Forall_forall in Hwn; [|exact Hin']. apply Hwn. rewrite <-Hc'. by left.
  - apply elem_of_cons in Hin as [|Hin]; [done|].
    destruct (Hother Hne) as [Hm Hf].
    destruct (IH (encode_round st (c0, e0)) Hwn' Hin Hnone) as (IH1 & IH2 & IH3).
    by rewrite IH1, IH2, Hm, Hf.
Qed.

End rounds.

Section encode_call.
Context `{PyLib}.
Import Pandas TrainProcessor.

Lemma rounds_names self :
  (rounds self).*1 = bool_columns self ++ categorical_columns self.
Proof.
  unfold rounds. rewrite fmap_app, <-!list_fmap_compose.
  f_equal; apply list_fmap_id.
Qed.

Lemma encode_categorical_columns_eq self e d ddf :
  encode_categorical_columns self e d ddf =
    let st := foldl encode_round (encoding_maps self, ddf) (rounds self) in
    (with_maps self st.1, save_encodings (with_maps self st.1) e d, st.2).
Proof. unfold encode_categorical_columns. by rewrite encode_as_rounds. Qed.

Lemma save_encodings_pickle self e d out :
  output_file_path self = Some out → writable e (encoder_file out) = true →
  pickles (save_encodings self e d) !! encoder_file out
  = Some (pickle_dump (encoding_maps self)).
Proof.
  intros Hout Hw. unfold save_encodings. rewrite Hout, Hw.
  destruct (writable e (mapping_file out)); simpl; by rewrite lookup_insert_eq.
Qed.

(** C10. A column named in the boolean or the categorical list that the
    frame does not have is passed over by the encoder: the call returns, the
    frame gets no encoded column for it (and not the column itself), the
    encoding table keeps whatever it held for that name, so none when the
    processor is fresh, and the table that is pickled is that table. *)
Theorem absent_column_skipped self e d ddf col self' d' ddf' :
  well_named self →
  col ∈ bool_columns self ++ categorical_columns self →
  col ∉ columns ddf →
  encode_categorical_columns self e d ddf = (self', d', ddf') →
  getitem ddf' (encoded_name col) = getitem ddf (encoded_name col)
  ∧ (col ∉ columns ddf')
  ∧ encoding_maps self' !! col = encoding_maps self !! col
  ∧ (encoding_maps self = ∅ → encoding_maps self' !! col = None)
  ∧ (∀ out, output_file_path self = Some out →
            writable e (encoder_file out) = true →
            pickles d' !! encoder_file out = Some (pickle_dump (encoding_maps self'))).
Proof.
  intros [Hnd Hwn] Hin Hcol. rewrite encode_categorical_columns_eq. simpl.
  intros [= <- <- <-].
  rewrite <-rounds_names in Hwn, Hin.
  apply getitem_None in Hcol.
  destruct (rounds_absent (rounds self) (encoding_maps self, ddf) col Hwn Hin Hcol)
    as (Hm & Hf & Hc).
  split_and!; try done.
  - by apply getitem_None.
  - intros Hempty. simpl in *. by rewrite Hm, Hempty.
  - intros out Hout Hw. by apply save_encodings_pickle.
Qed.

(** C9. When the encoder writes its pickle file, loading that file gives
    back the encoding table of the processor, and this table is the one the
    encoded columns were made with: a boolean column present in the frame
    has the fixed boolean table as its entry and its encoded column is that
    table applied to the lower-cased stringified values; a categorical
    column present has a mapping as its entry and its encoded column is that
    mapping applied to the stringified values; every other entry is as it
    was before the call. *)
Theorem encoding_artifact_roundtrip self e d ddf out self' d' ddf' :
  (∀ m, pickle_load (pickle_dump m) = Some m) →
  well_named self →
  output_file_path self = Some out →
  writable e (encoder_file out) = true →
  encode_categorical_columns self e d ddf = (self', d', ddf') →
  ∃ artifact table,
    pickles d' !! encoder_file out = Some artifact
    ∧ pickle_load artifact = Some table
    ∧ table = encoding_maps self'
    ∧ (∀ col s, col ∈ bool_columns self → getitem ddf col = Some s →
         table !! col = Some bool_mapping
         ∧ getitem ddf' (encoded_name col)
           = Some (map_dict bool_mapping (lower <$> astype_str s)))
    ∧ (∀ col s, col ∈ categorical_columns self → getitem ddf col = Some s →
         ∃ mapping, table !! col = Some mapping
         ∧ getitem ddf' (encoded_name col) = Some (map_dict mapping (astype_str s)))
    ∧ (∀ col, col ∉ columns ddf ∨ col ∉ bool_columns self ++ categorical_columns self →
         table !! col = encoding_maps self !! col).
Proof.
  intros Hpickle [Hnd Hwn] Hout Hw. rewrite encode_categorical_columns_eq. simpl.
  intros [= <- <- <-].
  rewrite <-rounds_names in Hnd, Hwn.
  eexists _, _. split_and!.
  - by apply save_encodings_pickle.
  - apply Hpickle.
  - done.
  - intros col s Hin Hs.
    apply (rounds_present (rounds self) (encoding_maps self, ddf) col bool_encoder s);
      [done..| |done].
    unfold rounds. apply elem_of_app. left. apply list_elem_of_fmap. by exists col.
  - intros col s Hin Hs. eexists.
    apply (rounds_present (rounds self) (encoding_maps self, ddf) col
             categorical_encoder s); [done..| |done].
    unfold rounds. apply elem_of_app. right. apply list_elem_of_fmap. by exists col.
  - intros col [Hcol|Hcol].
    + destruct (decide (col ∈ (rounds self).*1)) as [Hin|Hnin].
      * apply getitem_None in Hcol.
        by destruct (rounds_absent (rounds self) (encoding_maps self, ddf) col
                       Hwn Hin Hcol) as (Hm & _).
      * by apply rounds_maps_other.
    + apply rounds_maps_other. by rewrite rounds_names.
Qed.
End encode_call.


(** ** The filter stage *)

Section filter_stage_facts.
Import Pandas.
Implicit Types (df : frame) (m : list bool).

Lemma select_fmap {A B} (f : A → B) m (xs : list A) :
  select m (f <$> xs) = f <$> select m xs.
Proof.
  revert xs. induction m as [|b m IH]; intros [|x xs]; simpl; try done.
  destruct b; simpl; by rewrite IH.
Qed.


Lemma select_nil_r {A} m : select m (@nil A) = [].
Proof. by destruct m. Qed.

Lemma select_select {A} m1 m2 (xs : list A) :
  select (select m1 m2) (select m1 xs) = select (zip_with andb m1 m2) xs.
Proof.
  revert m2 xs. induction m1 as [|b m1 IH]; intros [|b2 m2] [|x xs]; simpl; try done.
  - apply select_nil_r.
  - destruct b, b2; simpl; by rewrite IH.
Qed.

Lemma zip_with_andb_comm m1 m2 : zip_with andb m1 m2 = zip_with andb m2 m1.
Proof.
  revert m2. induction m1 as [|b m1 IH]; intros [|b2 m2]; simpl; try done.
  by rewrite IH, andb_comm.
Qed.

Lemma mask_rows_mask_rows df m1 m2 :
  mask_rows (mask_rows df m1) (select m1 m2) = mask_rows df (zip_with andb m1 m2).
Proof.
  unfold mask_rows. rewrite <-list_fmap_compose. apply list_fmap_ext.
  intros _ [c s] _. simpl. unfold prod_map. simpl. by rewrite select_select.
Qed.

(** Two row filters commute when each mask is computed on the frame it
    is applied to. *)
Lemma mask_rows_comm df m1 m2 :
  mask_rows (mask_rows df m1) (select m1 m2) = mask_rows (mask_rows df m2) (select m2 m1).
Proof. by rewrite !mask_rows_mask_rows, zip_with_andb_comm. Qed.


Lemma isin_select m s values : isin (select m s) values = select m (isin s values).
Proof. unfold isin. by rewrite select_fmap. Qed.



Import TrainProcessor Spec.

Lemma filter_real_eq df :
  filter_real df =
    match getitem df "AN_PROGNOSE_STATUS", getitem df "AB_PROGNOSE_STATUS" with
    | Some an, Some ab => drop (mask_rows df (real_mask an ab)) status_columns
    | _, _ => df
    end.
Proof. done. Qed.





Lemma columns_apply_filter df f : columns (apply_filter df f) = columns df.
Proof.
  unfold apply_filter. destruct (getitem df f.1); [|done].
  apply columns_mask_rows.
Qed.

(** *** The legacy filter loop *)

Lemma legacy_fold_None fs : foldl DataProcessing.filter_step None fs = None.
Proof. by induction fs. Qed.

Lemma legacy_fold_Some fs data r :
  foldl DataProcessing.filter_step (Some data) fs = Some r →
  r = apply_filters data fs ∧ columns r = columns data
  ∧ Forall (λ f, f.1 ∈ columns data) fs.
Proof.
  revert data. induction fs as [|f fs IH]; intros data; simpl.
  - by intros [= ->].
  - unfold DataProcessing.apply_filter.
    destruct (getitem data f.1) as [s|] eqn:Hs.
    + intros (-> & Hc & Hall)%IH. rewrite columns_mask_rows in Hc, Hall.
      split_and!; [|done|].
      * unfold apply_filters. simpl. f_equal. unfold apply_filter. by rewrite Hs.
      * constructor; [|done]. by eapply getitem_Some_columns.
    + by rewrite legacy_fold_None.
Qed.

Lemma legacy_fold_unknown fs data :
  Exists (λ f, f.1 ∉ columns data) fs → foldl DataProcessing.filter_step (Some data) fs = None.
Proof.
  intros Hex. destruct (foldl DataProcessing.filter_step (Some data) fs) as [r|] eqn:Hr; [|done].
  apply legacy_fold_Some in Hr as (_ & _ & Hall).
  apply Exists_exists in Hex as (f & Hin & Hf).
  eapply Forall_forall in Hall; [|exact Hin]. done.
Qed.

Lemma legacy_apply_filters_Some data fs r :
  DataProcessing._apply_filters data fs = Some r →
  ∃ an ab, getitem data "AN_PROGNOSE_STATUS" = Some an
    ∧ getitem data "AB_PROGNOSE_STATUS" = Some ab
    ∧ r = apply_filters (mask_rows data (real_mask an ab)) fs
    ∧ columns r = columns data
    ∧ Forall (λ f, f.1 ∈ columns data) fs.
Proof.
  unfold DataProcessing._apply_filters.
  destruct (getitem data "AN_PROGNOSE_STATUS") as [an|]; [|done].
  destruct (getitem data "AB_PROGNOSE_STATUS") as [ab|]; [|done]. simpl.
  intros (-> & Hc & Hall)%legacy_fold_Some. rewrite columns_mask_rows in Hc, Hall.
  by exists an, ab.
Qed.

Lemma legacy_apply_filters_unknown data fs :
  Exists (λ f, f.1 ∉ columns data) fs → DataProcessing._apply_filters data fs = None.
Proof.
  intros Hex. unfold DataProcessing._apply_filters.
  destruct (getitem data "AN_PROGNOSE_STATUS") as [an|]; [|done].
  destruct (getitem data "AB_PROGNOSE_STATUS") as [ab|]; [|done]. simpl.
  apply legacy_fold_unknown. by rewrite columns_mask_rows.
Qed.

End filter_stage_facts.

Section legacy_filters.
Context `{PyLib}.
Import Pandas TrainProcessor Spec.

Lemma columns_apply_filters df fs : columns (apply_filters df fs) = columns df.
Proof.
  unfold apply_filters. revert df. induction fs as [|f fs IH]; intros df; [done|].
  simpl. by rewrite IH, columns_apply_filter.
Qed.

Lemma apply_filters_skip df fs1 f fs2 :
  f.1 ∉ columns df →
  apply_filters df (fs1 ++ f :: fs2) = apply_filters df (fs1 ++ fs2).
Proof.
  intros Hf. unfold apply_filters. rewrite !foldl_app. simpl.
  assert (apply_filter (foldl apply_filter df fs1) f = foldl apply_filter df fs1) as ->;
    [|done].
  unfold apply_filter at 1.
  assert (getitem (foldl apply_filter df fs1) f.1 = None) as ->; [|done].
  apply getitem_None. pose proof (columns_apply_filters df fs1) as Hc.
  unfold apply_filters in Hc. by rewrite Hc.
Qed.

Lemma legacy_preprocess_unknown e d data fs exclude_columns out :
  Exists (λ f, f.1 ∉ columns data) fs →
  DataProcessing.preprocess_and_save_data e d data fs exclude_columns out = (None, d).
Proof.
  intros Hex. unfold DataProcessing.preprocess_and_save_data.
  by rewrite legacy_apply_filters_unknown.
Qed.

End legacy_filters.




(** C4. In the legacy pipeline a filter on a column the data does not
    have makes [_apply_filters] fail, and the entry point
    [load_and_preprocess_data] returns [None] and leaves the disk as it
    was. [process_data] passes over such a filter: the run is the run
    without it. *)
Theorem unknown_filter_column `{PyLib} :
  (∀ e d folder names data fs out exclude_columns delimiter,
     listdir e folder = Some names →
     read_csv e (path_join folder <$>
                   filter (λ f : string, Pandas.endswith f ".csv" = true) names)
              delimiter = Some data →
     Exists (λ f, f.1 ∉ Pandas.columns data) fs →
     DataProcessing._apply_filters data fs = None
     ∧ DataProcessing.load_and_preprocess_data e d folder fs out exclude_columns delimiter
       = (Returns None, d))
  ∧ (∀ self e d folder fs1 f fs2 out exclude_columns delimiter size ddf,
       TrainProcessor.load e folder exclude_columns delimiter = Some (size, ddf) →
       f.1 ∉ Pandas.columns ddf →
       TrainProcessor.process_data self e d folder (fs1 ++ f :: fs2) out
                                   exclude_columns delimiter
       = TrainProcessor.process_data self e d folder (fs1 ++ fs2) out
                                     exclude_columns delimiter).
Proof.
  split.
  - intros e d folder names data fs out exclude_columns delimiter Hls Hcsv Hex.
    split; [by apply legacy_apply_filters_unknown|].
    unfold DataProcessing.load_and_preprocess_data, DataProcessing._get_csv_files,
      DataProcessing._load_data.
    rewrite Hls, Hcsv. by rewrite legacy_preprocess_unknown.
  - intros self e d folder fs1 f fs2 out exclude_columns delimiter size ddf Hload Hf.
    unfold TrainProcessor.process_data. rewrite Hload.
    unfold TrainProcessor.filter_stage. by rewrite apply_filters_skip.
Qed.

(** A filter on a column the example table does not have. *)
Lemma unknown_filter_column_witness :
  let unknown := ("NO_SUCH_COLUMN", Scalar (VStr "x")) in
  Example.legacy_run [unknown] [] = (Returns None, Example.empty_disk)
  ∧ Example.run [unknown] [] = Example.run [] [].
Proof.
  destruct (unknown_filter_column (H := Reference.lib)) as [Hold Hnew]. split.
  - eapply Hold; [reflexivity|reflexivity|compute_done].
  - eapply (Hnew _ _ _ _ [] _ []); [reflexivity|compute_done].
Defined.

(** [process_data] with a filter on a column the table does not have returns the path of the data set. *)
Lemma unknown_filter_column_counterexample :
  ("NO_SUCH_COLUMN" ∉ Pandas.columns Example.table)
  ∧ (Example.run [("NO_SUCH_COLUMN", Scalar (VStr "x"))] []).1.1 = Some Example.output.
Proof. split; [compute_done|reflexivity]. Qed.

Section timestamps.
Context `{PyLib}.
Import Pandas TrainProcessor.

Lemma to_datetime_series_lookup s s' i x :
  to_datetime_series s = Some s' → s !! i = Some x →
  ∃ t, to_datetime true x = Some t ∧ s' !! i = Some (from_option VTime VNaN t).
Proof.
  unfold to_datetime_series. intros Hs Hx.
  apply mapM_Some in Hs.
  destruct (Forall2_lookup_l _ _ _ _ _ Hs Hx) as (y & Hy & Hxy).
  destruct (to_datetime true x) as [t|]; [|done]. simpl in Hxy.
  exists t. split; [done|]. congruence.
Qed.

Lemma getitem_assign_other df kw c :
  c ∉ kw.*1 → getitem (assign df kw) c = getitem df c.
Proof.
  unfold assign. revert df. induction kw as [|[n s] kw IH]; intros df Hc; [done|].
  rewrite fmap_cons, not_elem_of_cons in Hc. destruct Hc as [Hne Hc].
  simpl. rewrite IH by done. by apply getitem_setitem_ne.
Qed.

Lemma getitem_extract_components_other df col c :
  c ∉ (λ sf, col +:+ sf.1) <$> component_suffixes →
  getitem (extract_components df col) c = getitem df c.
Proof.
  intros Hc. unfold extract_components. apply getitem_assign_other.
  by rewrite <-list_fmap_compose.
Qed.


Lemma legacy_time_difference data col1 col2 new_col_name a p a' p' :
  col1 ≠ col2 →
  getitem data col1 = Some a → getitem data col2 = Some p →
  to_datetime_series a = Some a' → to_datetime_series p = Some p' →
  ∃ data', DataProcessing.calculate_time_difference data col1 col2 new_col_name
           = Some data'
           ∧ getitem data' new_col_name = Some (time_difference a' p').
Proof.
  intros Hne Ha Hp Ha' Hp'. unfold DataProcessing.calculate_time_difference.
  rewrite Ha. simpl. rewrite Ha'. simpl.
  rewrite getitem_setitem_ne, Hp by done. simpl. rewrite Hp'. simpl.
  rewrite (getitem_setitem_ne _ col2 _ col1) by auto.
  rewrite !getitem_setitem_eq. simpl.
  eexists. split; [done|]. by rewrite getitem_setitem_eq.
Qed.

Lemma time_difference_lookup a p a' p' i x y tx ty :
  to_datetime_series a = Some a' → to_datetime_series p = Some p' →
  a !! i = Some x → p !! i = Some y →
  to_datetime true x = Some (Some tx) → to_datetime true y = Some (Some ty) →
  time_difference a' p' !! i = Some (VFloat (total_seconds (tx - ty))).
Proof.
  intros Ha Hp Hx Hy Htx Hty.
  destruct (to_datetime_series_lookup _ _ _ _ Ha Hx) as (t1 & Ht1 & Hx').
  destruct (to_datetime_series_lookup _ _ _ _ Hp Hy) as (t2 & Ht2 & Hy').
  simplify_eq. unfold time_difference. rewrite lookup_zip_with, Hx', Hy'. done.
Qed.

Lemma total_seconds_opp t1 t2 :
  total_seconds (t2 - t1) = (- total_seconds (t1 - t2))%Qc.
Proof.
  unfold total_seconds, Qcopp. apply Q2Qc_eq_iff. simpl.
  rewrite Qred_correct. unfold Qeq, Qopp. simpl. lia.
Qed.

End timestamps.

(** ** The writer *)

Section writer.
Context `{PyLib}.
Import Pandas TrainProcessor.

Lemma load_Some e folder exclude_columns delimiter size ddf :
  load e folder exclude_columns delimiter = Some (size, ddf) →
  ∃ data_files content,
    csv_files e folder = Some data_files
    ∧ read_csv e data_files delimiter = Some content
    ∧ size = total_size e data_files
    ∧ ddf = usecols content (filter (λ col, col ∉ exclude_columns) (columns content)).
Proof.
  unfold load.
  destruct (csv_files e folder) as [data_files|] eqn:Hfiles; [|done]. simpl.
  destruct (decide (data_files = [])); [done|].
  destruct (read_csv e data_files delimiter) as [content|] eqn:Hcsv; [|done]. simpl.
  intros [= <- <-]. by exists data_files, content.
Qed.

(** What a successful run of [process_data] went through. *)
Lemma process_data_Some self e d folder fs out exclude_columns delimiter p self' d' :
  process_data self e d folder fs out exclude_columns delimiter = (Some p, self', d') →
  ∃ size ddf0 ddf d1 ddf1,
    load e folder exclude_columns delimiter = Some (size, ddf0)
    ∧ process_timestamps (filter_stage ddf0 fs) = Some ddf
    ∧ encode_categorical_columns (with_output self out) e d ddf = (self', d1, ddf1)
    ∧ p = out
    ∧ d' = with_dataset d1 out
             {| pq_frame := drop_originals self' ddf1;
                pq_npartitions := n_partitions size;
                pq_schema := None; pq_compression := "snappy";
                pq_metadata_file := true |}.
Proof.
  unfold process_data.
  destruct (load e folder exclude_columns delimiter) as [[size ddf0]|] eqn:Hload;
    [|done].
  destruct (process_timestamps (filter_stage ddf0 fs)) as [ddf|] eqn:Hts; [|done].
  destruct (encode_categorical_columns (with_output self out) e d ddf)
    as [[self1 d1] ddf1] eqn:Henc.
  unfold to_parquet. destruct (writable e out); [|done].
  intros [= <- <- <-]. by exists size, ddf0, ddf, d1, ddf1.
Qed.

Lemma py_int_nonneg (x : Q) : 0 <= Qnum x → py_int x = Qfloor x.
Proof.
  intros Hx. unfold py_int. destruct x as [n dn]. simpl in *.
  by apply Z.quot_div_nonneg.
Qed.

Lemma n_partitions_spec (bytes : N) :
  n_partitions (Z.of_N bytes # 1073741824) = Spec.stated_partitions bytes
  ∧ n_partitions (Z.of_N bytes # 1073741824) = Z.max 1 (Z.of_N bytes / 536870912)
  ∧ 1 <= n_partitions (Z.of_N bytes # 1073741824).
Proof.
  unfold n_partitions, Spec.stated_partitions.
  rewrite py_int_nonneg by (simpl; lia).
  assert (Qfloor ((Z.of_N bytes # 1073741824) * 2) = Z.of_N bytes / 536870912) as ->.
  { unfold Qfloor, Qmult. simpl.
    by rewrite <-(Z.div_mul_cancel_r (Z.of_N bytes) 536870912 2). }
  assert (Qfloor (2 * (Z.of_N bytes # 1073741824)) = Z.of_N bytes / 536870912) as ->.
  { unfold Qfloor, Qmult. cbn [Qnum Qden].
    rewrite <-(Z.div_mul_cancel_r (Z.of_N bytes) 536870912 2) by done.
    f_equal. lia. }
  split_and!; [done|done|lia].
Qed.

Lemma pa_type_of_cases (t : dtype) :
  (DataProcessing.pa_type_of t = pa_bool ↔ DataProcessing.is_bool_dtype t = true)
  ∧ (DataProcessing.pa_type_of t = pa_int64 ↔ DataProcessing.is_integer_dtype t = true)
  ∧ (DataProcessing.pa_type_of t = pa_float64 ↔ DataProcessing.is_float_dtype t = true)
  ∧ (DataProcessing.pa_type_of t = pa_string ↔
       DataProcessing.is_bool_dtype t = false
       ∧ DataProcessing.is_integer_dtype t = false
       ∧ DataProcessing.is_float_dtype t = false).
Proof. destruct t; compute; intuition congruence. Qed.

Lemma save_processed_data_Some e d data out p d' :
  DataProcessing.save_processed_data e d data out = (Some p, d') →
  p = DataProcessing.replace out ".csv" ".parquet"
  ∧ d' = with_dataset d p
           {| pq_frame := data; pq_npartitions := 20;
              pq_schema := Some (DataProcessing.schema_fields data);
              pq_compression := "snappy"; pq_metadata_file := false |}.
Proof.
  unfold DataProcessing.save_processed_data.
  destruct (writable e _); [|done]. by intros [= <- <-].
Qed.

End writer.

(** C8. The partition count of [process_data] is
    [max 1 (floor (2 * size in GiB))] of the summed sizes of the CSV files,
    which is [max 1 (bytes / 2^29)]: never below 1, 10 for 5 GiB and 9 for
    5 * 10^9 bytes. The legacy [save_processed_data] writes 20 partitions
    whatever the size. *)
Theorem partition_counts `{PyLib} :
  (∀ bytes : N,
     TrainProcessor.n_partitions (Z.of_N bytes # 1073741824) = Spec.stated_partitions bytes
     ∧ TrainProcessor.n_partitions (Z.of_N bytes # 1073741824)
       = Z.max 1 (Z.of_N bytes / 536870912)
     ∧ 1 <= TrainProcessor.n_partitions (Z.of_N bytes # 1073741824))
  ∧ TrainProcessor.n_partitions (5368709120 # 1073741824) = 10
  ∧ TrainProcessor.n_partitions (5000000000 # 1073741824) = 9
  ∧ (∀ self e d folder fs out exclude_columns delimiter p self' d',
       TrainProcessor.process_data self e d folder fs out exclude_columns delimiter
       = (Some p, self', d') →
       ∃ data_files pq,
         TrainProcessor.csv_files e folder = Some data_files
         ∧ datasets d' !! p = Some pq
         ∧ pq_npartitions pq
           = Spec.stated_partitions (foldr N.add 0%N (getsize e <$> data_files)))
  ∧ (∀ e d data out p d',
       DataProcessing.save_processed_data e d data out = (Some p, d') →
       ∃ pq, datasets d' !! p = Some pq ∧ pq_npartitions pq = 20).
Proof.
  split_and!.
  - apply n_partitions_spec.
  - reflexivity.
  - reflexivity.
  - intros self e d folder fs out exclude_columns delimiter p self' d' Hrun.
    apply process_data_Some in Hrun
      as (size & ddf0 & ddf & d1 & ddf1 & Hload & _ & _ & -> & ->).
    apply load_Some in Hload as (data_files & content & Hfiles & _ & -> & _).
    eexists data_files, _. split; [done|]. simpl. rewrite lookup_insert_eq.
    split; [done|]. simpl. apply n_partitions_spec.
  - intros e d data out p d' (-> & ->)%save_processed_data_Some.
    eexists. simpl. by rewrite lookup_insert_eq.
Qed.

(** The two pipelines on the folder of 5 GiB. *)
Lemma partition_counts_witness :
  (∃ pq, datasets (Example.run [] []).2 !! Example.output = Some pq
         ∧ pq_npartitions pq = Spec.stated_partitions 5368709120)
  ∧ (∃ pq, datasets (Example.legacy_run [] []).2 !! "out/processed.parquet" = Some pq
           ∧ pq_npartitions pq = 20).
Proof.
  destruct (partition_counts (H := Reference.lib)) as (_ & _ & _ & Hnew & Hold). split.
  - destruct (Hnew TrainProcessor.__init__ Example.world Example.empty_disk
                   "data/train" [] Example.output [] ";" Example.output
                   (Example.run [] []).1.2 (Example.run [] []).2)
      as (data_files & pq & Hfiles & Hpq & Hn); [reflexivity|].
    exists pq. split; [done|]. injection Hfiles as <-. exact Hn.
  - apply (Hold Example.world Example.empty_disk
             (default [] (Reference.ref_cat_codes
                (default [] (DataProcessing.calculate_time_difference
                   (default [] (DataProcessing.calculate_time_difference
                      (default [] (DataProcessing._apply_filters Example.table []))
                      "ANKUNFTSZEIT" "AN_PROGNOSE" "ARRIVAL_TIME_DIFF_SECONDS"))
                   "ABFAHRTSZEIT" "AB_PROGNOSE" "DEPARTURE_TIME_DIFF_SECONDS"))))
             "out/processed.csv").
    reflexivity.
Defined.

(** The legacy pipeline writes 20 partitions for 5 GiB, not 10. *)
Lemma partition_counts_counterexample :
  ∃ pq, datasets (Example.legacy_run [] []).2 !! "out/processed.parquet" = Some pq
        ∧ foldr N.add 0%N (getsize Example.world <$> [Example.csv_path]) = 5368709120%N
        ∧ pq_npartitions pq ≠ Spec.stated_partitions 5368709120.
Proof. eexists. split_and!; [vm_compute; reflexivity|reflexivity|]. vm_compute. discriminate. Qed.

(** C7. The legacy writer classifies the dtype of a column as exactly one
    of boolean, integer, float and string, string being what is left, and
    [save_processed_data] writes the frame under the schema that gives every
    column its class. [process_data] hands no schema to the Parquet
    writer. *)
Theorem schema_classification `{PyLib} :
  (∀ t : dtype,
     (DataProcessing.pa_type_of t = pa_bool ↔ DataProcessing.is_bool_dtype t = true)
     ∧ (DataProcessing.pa_type_of t = pa_int64 ↔ DataProcessing.is_integer_dtype t = true)
     ∧ (DataProcessing.pa_type_of t = pa_float64 ↔ DataProcessing.is_float_dtype t = true)
     ∧ (DataProcessing.pa_type_of t = pa_string ↔
          DataProcessing.is_bool_dtype t = false
          ∧ DataProcessing.is_integer_dtype t = false
          ∧ DataProcessing.is_float_dtype t = false))
  ∧ (∀ e d data out p d',
       DataProcessing.save_processed_data e d data out = (Some p, d') →
       ∃ pq, datasets d' !! p = Some pq
             ∧ pq_frame pq = data
             ∧ pq_schema pq
               = Some (prod_map id (λ s, DataProcessing.pa_type_of (dtype_of s)) <$> data))
  ∧ (∀ self e d folder fs out exclude_columns delimiter p self' d',
       TrainProcessor.process_data self e d folder fs out exclude_columns delimiter
       = (Some p, self', d') →
       ∃ pq, datasets d' !! p = Some pq ∧ pq_schema pq = None).
Proof.
  split_and!.
  - apply pa_type_of_cases.
  - intros e d data out p d' (-> & ->)%save_processed_data_Some.
    eexists. simpl. rewrite lookup_insert_eq. split_and!; [done|done|]. simpl.
    unfold DataProcessing.schema_fields, DataProcessing.dtypes.
    rewrite <-list_fmap_compose. f_equal.
  - intros self e d folder fs out exclude_columns delimiter p self' d' Hrun.
    apply process_data_Some in Hrun
      as (size & ddf0 & ddf & d1 & ddf1 & _ & _ & _ & -> & ->).
    eexists. simpl. by rewrite lookup_insert_eq.
Qed.

(** The data set of the example run has no schema. *)
Lemma schema_classification_witness :
  ∃ pq, datasets (Example.run [] []).2 !! Example.output = Some pq ∧ pq_schema pq = None.
Proof.
  destruct (schema_classification (H := Reference.lib)) as (_ & _ & Hnew).
  apply (Hnew TrainProcessor.__init__ Example.world Example.empty_disk
              "data/train" [] Example.output [] ";" Example.output
              (Example.run [] []).1.2).
  reflexivity.
Defined.

(** The data set [process_data] writes is not under the schema of the classification. *)
Lemma schema_classification_counterexample :
  ∃ pq, datasets (Example.run [] []).2 !! Example.output = Some pq
        ∧ pq_schema pq ≠ Some (DataProcessing.schema_fields (H := Reference.lib) (pq_frame pq)).
Proof. eexists. split; [vm_compute; reflexivity|]. vm_compute. discriminate. Qed.

(** ** The columns of the written frame *)

Section written_frame.
Context `{PyLib}.
Import Pandas TrainProcessor Columns.

Lemma filter_ext_in {A} (P Q : A → Prop) `{∀ x, Decision (P x), ∀ x, Decision (Q x)}
    (l : list A) :
  (∀ x, x ∈ l → P x ↔ Q x) → filter P l = filter Q l.
Proof.
  induction l as [|x l IH]; intros HPQ; [done|].
  rewrite !filter_cons.
  assert (filter P l = filter Q l) as ->.
  { apply IH. intros y Hy. apply HPQ. by right. }
  destruct (decide (P x)) as [HP|HP], (decide (Q x)) as [HQ|HQ]; try done.
  - destruct HQ. apply HPQ; [by left|done].
  - destruct HP. apply HPQ; [by left|done].
Qed.

Lemma filter_elem_of_filter {A} `{EqDecision A} (P : A → Prop)
    `{∀ x, Decision (P x)} (l : list A) :
  filter (λ c, c ∈ filter P l) l = filter P l.
Proof.
  apply filter_ext_in. intros x Hx. rewrite list_elem_of_filter. tauto.
Qed.

Lemma columns_setitem_add df c s : columns (setitem df c s) = add_column (columns df) c.
Proof. apply columns_setitem. Qed.

Lemma columns_assign df kw : columns (assign df kw) = foldl add_column (columns df) kw.*1.
Proof.
  unfold assign. revert df. induction kw as [|[c s] kw IH]; intros df; [done|].
  simpl. by rewrite IH, columns_setitem_add.
Qed.

Lemma columns_extract_components df col :
  columns (extract_components df col)
  = foldl add_column (columns df) (component_names col).
Proof.
  unfold extract_components. rewrite columns_assign.
  by rewrite <-list_fmap_compose.
Qed.

Lemma add_column_present cols c : c ∈ cols → add_column cols c = cols.
Proof. intros Hc. unfold add_column. by rewrite decide_True. Qed.

Lemma elem_of_add_column cols c x : x ∈ add_column cols c ↔ x = c ∨ x ∈ cols.
Proof.
  unfold add_column. case_decide.
  - split; [by right|]. by intros [->|].
  - rewrite elem_of_app, list_elem_of_singleton. split; intros [|]; auto.
Qed.

Lemma elem_of_foldl_add_column cols cs x :
  x ∈ foldl add_column cols cs ↔ x ∈ cs ∨ x ∈ cols.
Proof.
  revert cols. induction cs as [|c cs IH]; intros cols; simpl.
  - split; [by right|]. intros [Hx|]; [|done]. by apply elem_of_nil in Hx.
  - rewrite IH, elem_of_add_column, elem_of_cons. tauto.
Qed.

Lemma columns_filter_stage ddf fs :
  columns (filter_stage ddf fs) = real_columns (columns ddf).
Proof.
  unfold filter_stage, real_columns. rewrite filter_real_eq.
  pose proof (columns_apply_filters ddf fs) as Hc.
  pose proof (getitem_is_Some (apply_filters ddf fs) "AN_PROGNOSE_STATUS") as Han.
  pose proof (getitem_is_Some (apply_filters ddf fs) "AB_PROGNOSE_STATUS") as Hab.
  rewrite Hc in Han, Hab.
  destruct (getitem (apply_filters ddf fs) "AN_PROGNOSE_STATUS") as [an|];
    destruct (getitem (apply_filters ddf fs) "AB_PROGNOSE_STATUS") as [ab|].
  - rewrite decide_True by (split; [apply Han|apply Hab]; eauto).
    by rewrite columns_drop, columns_mask_rows, Hc.
  - rewrite decide_False; [done|]. intros [_ Hin]. apply Hab in Hin. by destruct Hin.
  - rewrite decide_False; [done|]. intros [Hin _]. apply Han in Hin. by destruct Hin.
  - rewrite decide_False; [done|]. intros [Hin _]. apply Han in Hin. by destruct Hin.
Qed.

Lemma foldl_pair {A B} (f : A → B → A) x b1 b2 : foldl f x [b1; b2] = f (f x b1) b2.
Proof. reflexivity. Qed.

Lemma foldl_cons_eq {A B} (f : A → B → A) x b l : foldl f x (b :: l) = foldl f (f x b) l.
Proof. reflexivity. Qed.

Lemma columns_process_pair ddf pair ddf' :
  process_pair ddf pair = Some ddf' → columns ddf' = pair_columns (columns ddf) pair.
Proof.
  destruct pair as [[actual pred] diff]. unfold process_pair, pair_columns. cbn [fst snd].
  pose proof (getitem_is_Some ddf actual) as Ha.
  pose proof (getitem_is_Some ddf pred) as Hp.
  destruct (getitem ddf actual) as [a|]; [destruct (getitem ddf pred) as [p|]|].
  - rewrite decide_True by (split; [apply Ha|apply Hp]; eauto).
    assert (Hain : actual ∈ columns ddf) by (apply Ha; eauto).
    assert (Hpin : pred ∈ columns ddf) by (apply Hp; eauto).
    destruct (to_datetime_series a) as [a'|]; [|done]. cbn [mbind option_bind].
    destruct (to_datetime_series _) as [p'|]; [|done]. cbn [mbind option_bind].
    intros Heq. apply (inj Some) in Heq. rewrite <-Heq. clear Heq.
    rewrite columns_drop, foldl_pair.
    rewrite !columns_extract_components, !columns_setitem_add.
    rewrite (add_column_present (columns ddf) actual) by done.
    rewrite (add_column_present (columns ddf) pred) by done.
    by rewrite foldl_cons_eq, foldl_app.
  - intros Heq. apply (inj Some) in Heq. subst ddf'.
    rewrite decide_False; [reflexivity|].
    intros [_ Hin]. apply Hp in Hin. destruct Hin as [? Hin]. discriminate Hin.
  - intros Heq. apply (inj Some) in Heq. subst ddf'.
    rewrite decide_False; [reflexivity|].
    intros [Hin _]. apply Ha in Hin. destruct Hin as [? Hin]. discriminate Hin.
Qed.

Lemma columns_process_timestamps ddf ddf' :
  process_timestamps ddf = Some ddf' →
  columns ddf' = foldl pair_columns (columns ddf) timestamp_pairs.
Proof.
  unfold process_timestamps. generalize timestamp_pairs as pairs.
  intros pairs. revert ddf. induction pairs as [|pair pairs IH]; intros ddf; simpl.
  - by intros [= <-].
  - destruct (process_pair ddf pair) as [ddf1|] eqn:Hpair.
    + intros Hrest. apply IH in Hrest. rewrite Hrest.
      by rewrite (columns_process_pair _ _ _ Hpair).
    + intros Hnone. exfalso. revert Hnone. clear. induction pairs; simpl; [done|auto].
Qed.

Lemma columns_encode_rounds rs st :
  columns (foldl encode_round st rs).2 = encode_columns (columns st.2) rs.*1.
Proof.
  unfold encode_columns. revert st. induction rs as [|[c enc] rs IH]; intros st; [done|].
  simpl. rewrite IH. f_equal. unfold encode_round. simpl.
  pose proof (getitem_is_Some st.2 c) as Hc.
  destruct (getitem st.2 c) as [s|]; simpl.
  - rewrite decide_True by (apply Hc; eauto). apply columns_setitem_add.
  - rewrite decide_False; [done|]. intros Hin. apply Hc in Hin. by destruct Hin.
Qed.

Lemma columns_drop_originals self ddf :
  columns (drop_originals self ddf)
  = filter (λ c, c ∉ filter (λ c, c ∈ columns ddf)
                        (bool_columns self ++ categorical_columns self))
           (columns ddf).
Proof. unfold drop_originals. by rewrite columns_drop. Qed.

(** The columns of the data set a successful run wrote. *)
Lemma process_data_columns self e d folder fs out exclude_columns delimiter p self' d' :
  process_data self e d folder fs out exclude_columns delimiter = (Some p, self', d') →
  ∃ data_files content pq,
    csv_files e folder = Some data_files
    ∧ read_csv e data_files delimiter = Some content
    ∧ datasets d' !! p = Some pq
    ∧ columns (pq_frame pq)
      = final_columns self (filter (λ col, col ∉ exclude_columns) (columns content)).
Proof.
  intros Hrun. apply process_data_Some in Hrun
    as (size & ddf0 & ddf & d1 & ddf1 & Hload & Hts & Henc & -> & ->).
  apply load_Some in Hload as (data_files & content & Hfiles & Hcsv & _ & ->).
  exists data_files, content. eexists. split_and!; [done|done|..].
  { simpl. by rewrite lookup_insert_eq. }
  simpl. rewrite encode_categorical_columns_eq in Henc. simpl in Henc.
  injection Henc as <- _ <-.
  rewrite columns_drop_originals. simpl.
  rewrite columns_encode_rounds, rounds_names. simpl.
  rewrite (columns_process_timestamps _ _ Hts), columns_filter_stage, columns_usecols.
  unfold final_columns.
  by rewrite filter_elem_of_filter.
Qed.

End written_frame.

Section final_column_facts.
Import Pandas TrainProcessor Columns.
Implicit Types (cols needed : list string) (c : string).

Lemma filter_all {A} (P : A → Prop) `{∀ x, Decision (P x)} (l : list A) :
  (∀ x, x ∈ l → P x) → filter P l = l.
Proof.
  induction l as [|x l IH]; intros HP; [done|].
  rewrite filter_cons_True by (apply HP; by left).
  f_equal. apply IH. intros y Hy. apply HP. by right.
Qed.

Lemma filter_none {A} (P : A → Prop) `{∀ x, Decision (P x)} (l : list A) :
  (∀ x, x ∈ l → ¬ P x) → filter P l = [].
Proof.
  induction l as [|x l IH]; intros HP; [done|].
  rewrite filter_cons_False by (apply HP; by left).
  apply IH. intros y Hy. apply HP. by right.
Qed.

(** *** Membership through the stages *)

Lemma elem_of_real_columns cols (x : string) :
  x ∈ real_columns cols ↔
    x ∈ cols ∧ ¬ ("AN_PROGNOSE_STATUS" ∈ cols ∧ "AB_PROGNOSE_STATUS" ∈ cols
                  ∧ x ∈ status_columns).
Proof.
  unfold real_columns. case_decide as Hst.
  - rewrite list_elem_of_filter. tauto.
  - tauto.
Qed.

Lemma elem_of_pair_columns cols pair (x : string) :
  x ∈ pair_columns cols pair ↔
    if decide (pair.1.1 ∈ cols ∧ pair.1.2 ∈ cols)
    then (x ∉ [pair.1.1; pair.1.2])
         ∧ (x ∈ pair.2 :: component_names pair.1.1 ++ component_names pair.1.2
            ∨ x ∈ cols)
    else x ∈ cols.
Proof.
  unfold pair_columns. case_decide; [|done].
  by rewrite list_elem_of_filter, elem_of_foldl_add_column.
Qed.

Lemma elem_of_encode_columns_mono cols listed (x : string) :
  x ∈ cols → x ∈ encode_columns cols listed.
Proof.
  unfold encode_columns. revert cols.
  induction listed as [|c listed IH]; intros cols Hx; [done|].
  rewrite foldl_cons_eq. apply IH. case_decide; [|done].
  apply elem_of_add_column. by right.
Qed.

Lemma elem_of_encode_columns_inv cols listed (x : string) :
  x ∈ encode_columns cols listed →
  x ∈ cols ∨ ∃ c, c ∈ listed ∧ x = encoded_name c.
Proof.
  unfold encode_columns. revert cols.
  induction listed as [|c listed IH]; intros cols; [by left|].
  rewrite foldl_cons_eq. intros Hx. apply IH in Hx as [Hx|(c' & Hc' & ->)].
  - case_decide; [|by left].
    apply elem_of_add_column in Hx as [->|Hx]; [|by left].
    right. exists c. split; [by left|done].
  - right. exists c'. split; [by right|done].
Qed.

(** *** Encoded names *)

Lemma has_suffix_app suffix c : has_suffix suffix (c +:+ suffix) = true.
Proof.
  induction c as [|a c IH].
  - change (EmptyString +:+ suffix) with suffix.
    destruct suffix; cbn [has_suffix]; by rewrite decide_True.
  - change (String a c +:+ suffix) with (String a (c +:+ suffix)).
    cbn [has_suffix]. case_decide; [done|]. exact IH.
Qed.

Lemma encoded_name_apart (x : string) c : has_suffix "_encoded" x = false → encoded_name c ≠ x.
Proof.
  intros Hx <-. unfold encoded_name in Hx. by rewrite has_suffix_app in Hx.
Qed.

Lemma encoded_name_not_dropped c : encoded_name c ∉ dropped_names.
Proof.
  unfold dropped_names, status_columns. intros Hin.
  repeat (apply elem_of_cons in Hin as [Hin|Hin];
          [by eapply encoded_name_apart; [|exact Hin]|]).
  by apply elem_of_nil in Hin.
Qed.

End final_column_facts.

Section order.
Import Pandas TrainProcessor Columns.
Implicit Types (cols needed : list string) (c : string).

(** *** The order of the surviving columns *)

Lemma keeps_order_refl needed : keeps_order needed needed.
Proof.
  unfold keeps_order.
  rewrite (filter_all (λ c, c ∈ needed)) by done.
  rewrite (filter_none (λ c, c ∉ needed)) by auto.
  by rewrite app_nil_r.
Qed.

Lemma keeps_order_filter needed cols (P : string → Prop) `{∀ x, Decision (P x)} :
  keeps_order needed cols → keeps_order needed (filter P cols).
Proof.
  unfold keeps_order. intros Hk.
  etrans; [exact (f_equal (filter P) Hk)|].
  rewrite filter_app. f_equal.
  - rewrite (list_filter_filter P (λ c, c ∈ cols)).
    apply list_filter_iff. intros x. rewrite list_elem_of_filter. tauto.
  - rewrite (list_filter_filter P (λ c, c ∉ needed)).
    rewrite (list_filter_filter (λ c, c ∉ needed) P).
    apply list_filter_iff. intros x. tauto.
Qed.

Lemma keeps_order_add needed cols c :
  keeps_order needed cols → (c ∈ needed → c ∈ cols) →
  keeps_order needed (add_column cols c).
Proof.
  unfold keeps_order, add_column. intros Hk Hc. case_decide as Hin; [done|].
  assert (Hn : c ∉ needed) by auto.
  rewrite filter_app.
  rewrite (filter_cons_True (λ c, c ∉ needed)) by done.
  rewrite filter_nil, app_assoc. f_equal.
  etrans; [exact Hk|]. f_equal.
  apply filter_ext_in. intros x Hx. rewrite elem_of_app, list_elem_of_singleton.
  split; [by left|]. intros [Hx'| ->]; done.
Qed.

Lemma intact_filter needed cols (P : string → Prop) `{∀ x, Decision (P x)} :
  (∀ c, c ∉ dropped_names → P c) → intact needed cols → intact needed (filter P cols).
Proof.
  intros HP Hi c Hc Hd. apply list_elem_of_filter. split; [by apply HP|by apply Hi].
Qed.

Lemma intact_add needed cols c : intact needed cols → intact needed (add_column cols c).
Proof. intros Hi c' Hc Hd. apply elem_of_add_column. right. by apply Hi. Qed.

Lemma order_foldl_add needed cols cs :
  Forall (λ c, c ∉ dropped_names) cs →
  keeps_order needed cols ∧ intact needed cols →
  keeps_order needed (foldl add_column cols cs) ∧ intact needed (foldl add_column cols cs).
Proof.
  intros Hcs. revert cols. induction Hcs as [|c cs Hc Hcs IH]; intros cols [Hk Hi]; [done|].
  rewrite foldl_cons_eq. apply IH. split.
  - apply keeps_order_add; [done|]. intros Hin. by apply Hi.
  - by apply intact_add.
Qed.

Lemma order_real_columns needed cols :
  keeps_order needed cols ∧ intact needed cols →
  keeps_order needed (real_columns cols) ∧ intact needed (real_columns cols).
Proof.
  intros [Hk Hi]. unfold real_columns. case_decide; [|done]. split.
  - by apply keeps_order_filter.
  - apply intact_filter; [|done]. intros c Hc Hin. apply Hc.
    unfold dropped_names. apply elem_of_app. by left.
Qed.

Lemma order_pair_columns needed cols pair :
  pair ∈ timestamp_pairs →
  keeps_order needed cols ∧ intact needed cols →
  keeps_order needed (pair_columns cols pair) ∧ intact needed (pair_columns cols pair).
Proof.
  intros Hpair Hinv. unfold pair_columns. case_decide; [|done].
  assert (Forall (λ c, c ∉ dropped_names)
            (pair.2 :: component_names pair.1.1 ++ component_names pair.1.2)
          ∧ ∀ c, c ∉ dropped_names → c ∉ [pair.1.1; pair.1.2]) as [Hnew Hold].
  { unfold timestamp_pairs in Hpair.
    apply elem_of_cons in Hpair as [->|Hpair];
      [|apply list_elem_of_singleton in Hpair as ->].
    - split; [compute_done|]. intros c Hc Hin. apply Hc.
      unfold dropped_names. apply elem_of_app. right.
      apply elem_of_cons in Hin as [->|Hin]; [compute_done|].
      apply list_elem_of_singleton in Hin as ->. compute_done.
    - split; [compute_done|]. intros c Hc Hin. apply Hc.
      unfold dropped_names. apply elem_of_app. right.
      apply elem_of_cons in Hin as [->|Hin]; [compute_done|].
      apply list_elem_of_singleton in Hin as ->. compute_done. }
  destruct (order_foldl_add needed cols _ Hnew Hinv) as [Hk Hi]. split.
  - by apply keeps_order_filter.
  - by apply intact_filter.
Qed.

Lemma order_encode_columns needed cols listed :
  keeps_order needed cols ∧ intact needed cols →
  keeps_order needed (encode_columns cols listed)
  ∧ intact needed (encode_columns cols listed).
Proof.
  unfold encode_columns. revert cols.
  induction listed as [|c listed IH]; intros cols [Hk Hi]; [done|].
  rewrite foldl_cons_eq. apply IH. case_decide; [|done]. split.
  - apply keeps_order_add; [done|]. intros Hin. apply Hi; [done|].
    apply encoded_name_not_dropped.
  - by apply intact_add.
Qed.

Lemma final_columns_keeps_order self needed :
  keeps_order needed (final_columns self needed).
Proof.
  unfold final_columns. apply keeps_order_filter.
  apply order_encode_columns.
  assert (∀ pairs cols, pairs ⊆ timestamp_pairs →
            keeps_order needed cols ∧ intact needed cols →
            keeps_order needed (foldl pair_columns cols pairs)
            ∧ intact needed (foldl pair_columns cols pairs)) as Hpairs.
  { induction pairs as [|pair pairs IH]; intros cols Hsub Hinv; [done|].
    rewrite foldl_cons_eq. apply IH.
    - intros p Hp. apply Hsub. by right.
    - apply order_pair_columns; [|done]. apply Hsub. by left. }
  apply Hpairs; [done|]. apply order_real_columns. split.
  - apply keeps_order_refl.
  - by intros c Hc _.
Qed.

Lemma final_columns_not_listed self needed c :
  c ∈ bool_columns self ++ categorical_columns self → c ∉ final_columns self needed.
Proof.
  unfold final_columns. intros Hc [Hnot Hin]%list_elem_of_filter.
  apply Hnot. apply list_elem_of_filter. by split.
Qed.

Lemma elem_of_pair_columns_weak cols pair (x : string) :
  x ∈ pair_columns cols pair →
  x ∈ pair.2 :: component_names pair.1.1 ++ component_names pair.1.2 ∨ x ∈ cols.
Proof.
  rewrite elem_of_pair_columns. case_decide; [|by right]. by intros [_ ?].
Qed.

Lemma pair_columns_complete cols pair (x : string) :
  pair.1.1 ∈ cols → pair.1.2 ∈ cols → x ∈ [pair.1.1; pair.1.2] →
  x ∉ pair_columns cols pair.
Proof.
  intros Ha Hp Hx. rewrite elem_of_pair_columns, decide_True by done.
  by intros [Hnot _].
Qed.

Lemma real_columns_keeps needed (x : string) :
  x ∈ needed → x ∉ status_columns → x ∈ real_columns needed.
Proof.
  intros Hx Hst. apply elem_of_real_columns. split; [done|]. by intros (_ & _ & ?).
Qed.

Lemma final_columns_pair_dropped self needed pair :
  pair ∈ timestamp_pairs → pair.1.1 ∈ needed → pair.1.2 ∈ needed →
  (pair.1.1 ∉ final_columns self needed) ∧ (pair.1.2 ∉ final_columns self needed).
Proof.
  intros Hpair Ha Hp.
  assert (∀ x, x ∈ [pair.1.1; pair.1.2] → x ∉ final_columns self needed) as Hgone;
    [|split; apply Hgone; [by left|right; by left]].
  intros x Hx. unfold final_columns. intros [_ Hin]%list_elem_of_filter.
  apply elem_of_encode_columns_inv in Hin as [Hin|(c & _ & Hc)].
  - revert Hin. unfold timestamp_pairs in *. rewrite foldl_pair.
    apply elem_of_cons in Hpair as [->|Hpair];
      [|apply list_elem_of_singleton in Hpair as ->]; cbn [fst snd] in *.
    + intros [Hnew|Hin]%elem_of_pair_columns_weak.
      * revert Hnew. cbn [fst snd].
        apply elem_of_cons in Hx as [->|Hx];
          [|apply list_elem_of_singleton in Hx as ->]; compute_done.
      * revert Hin. apply pair_columns_complete; cbn [fst snd]; [..|done].
        -- apply real_columns_keeps; [done|compute_done].
        -- apply real_columns_keeps; [done|compute_done].
    + apply pair_columns_complete; cbn [fst snd]; [..|done].
      * apply elem_of_pair_columns. cbn [fst snd].
        case_decide; (split || idtac); [compute_done|right|];
          (apply real_columns_keeps; [done|compute_done]).
      * apply elem_of_pair_columns. cbn [fst snd].
        case_decide; (split || idtac); [compute_done|right|];
          (apply real_columns_keeps; [done|compute_done]).
  - subst x. unfold timestamp_pairs in Hpair.
    apply elem_of_cons in Hpair as [->|Hpair];
      [|apply list_elem_of_singleton in Hpair as ->]; cbn [fst snd] in Hx.
    + apply elem_of_cons in Hx as [Hx|Hx];
        [|apply list_elem_of_singleton in Hx];
        by eapply encoded_name_apart; [|exact Hx].
    + apply elem_of_cons in Hx as [Hx|Hx];
        [|apply list_elem_of_singleton in Hx];
        by eapply encoded_name_apart; [|exact Hx].
Qed.

End order.

Section kept.
Import Pandas TrainProcessor Columns.

Lemma pair_columns_keeps cols pair (x : string) :
  x ∈ cols → x ∉ [pair.1.1; pair.1.2] → x ∈ pair_columns cols pair.
Proof.
  intros Hx Hnot. apply elem_of_pair_columns. case_decide; [|done].
  split; [done|by right].
Qed.

Lemma pair_columns_incomplete cols pair :
  ¬ (pair.1.1 ∈ cols ∧ pair.1.2 ∈ cols) → pair_columns cols pair = cols.
Proof. intros Hnot. unfold pair_columns. by rewrite decide_False. Qed.

Lemma real_columns_subseteq needed (x : string) : x ∈ real_columns needed → x ∈ needed.
Proof. rewrite elem_of_real_columns. by intros [? _]. Qed.

(** A timestamp column whose partner was not read stays as it is. *)
Lemma final_columns_pair_kept self needed pair (x : string) :
  pair ∈ timestamp_pairs → x ∈ [pair.1.1; pair.1.2] → x ∈ needed →
  ¬ (pair.1.1 ∈ needed ∧ pair.1.2 ∈ needed) →
  x ∉ bool_columns self ++ categorical_columns self →
  x ∈ final_columns self needed.
Proof.
  intros Hpair Hx Hin Hnot Hlisted. unfold final_columns.
  apply list_elem_of_filter. split.
  { intros [_ ?]%list_elem_of_filter. done. }
  apply elem_of_encode_columns_mono.
  unfold timestamp_pairs in *. rewrite foldl_pair.
  apply elem_of_cons in Hpair as [->|Hpair];
    [|apply list_elem_of_singleton in Hpair as ->]; cbn [fst snd] in *.
  - apply pair_columns_keeps; cbn [fst snd].
    + rewrite pair_columns_incomplete.
      * apply real_columns_keeps; [done|].
        apply elem_of_cons in Hx as [->|Hx];
          [|apply list_elem_of_singleton in Hx as ->]; compute_done.
      * cbn [fst snd]. intros [Ha Hp]. apply Hnot.
        split; by apply real_columns_subseteq.
    + apply elem_of_cons in Hx as [->|Hx];
        [|apply list_elem_of_singleton in Hx as ->]; compute_done.
  - assert (x ∈ pair_columns (real_columns needed)
                  ("ANKUNFTSZEIT", "AN_PROGNOSE", "ARRIVAL_TIME_DIFF_SECONDS")) as Hx1.
    { apply pair_columns_keeps; cbn [fst snd].
      - apply real_columns_keeps; [done|].
        apply elem_of_cons in Hx as [->|Hx];
          [|apply list_elem_of_singleton in Hx as ->]; compute_done.
      - apply elem_of_cons in Hx as [->|Hx];
          [|apply list_elem_of_singleton in Hx as ->]; compute_done. }
    rewrite pair_columns_incomplete; [done|]. cbn [fst snd].
    intros [Ha Hp]. apply Hnot. split.
    + apply elem_of_pair_columns_weak in Ha as [Ha|Ha].
      * revert Ha. cbn [fst snd]. compute_done.
      * by apply real_columns_subseteq.
    + apply elem_of_pair_columns_weak in Hp as [Hp|Hp].
      * revert Hp. cbn [fst snd]. compute_done.
      * by apply real_columns_subseteq.
Qed.

End kept.

(** C6. In the data set that [process_data] wrote, no column of the
    boolean or the categorical list is left, and neither column of a
    timestamp pair whose two columns were read; a timestamp column whose
    partner was not read, and that is in neither list, is still there; and
    the columns read that are still there are in the order in which they
    were read. *)
Theorem written_columns `{PyLib}
    self e d folder fs out exclude_columns delimiter p self' d' :
  TrainProcessor.process_data self e d folder fs out exclude_columns delimiter
  = (Some p, self', d') →
  ∃ data_files content pq,
    TrainProcessor.csv_files e folder = Some data_files
    ∧ read_csv e data_files delimiter = Some content
    ∧ datasets d' !! p = Some pq
    ∧ let needed := filter (λ col, col ∉ exclude_columns) (Pandas.columns content) in
      let final := Pandas.columns (pq_frame pq) in
      let listed := TrainProcessor.bool_columns self
                    ++ TrainProcessor.categorical_columns self in
      (∀ c, c ∈ listed → c ∉ final)
      ∧ (∀ pair, pair ∈ TrainProcessor.timestamp_pairs →
           pair.1.1 ∈ needed → pair.1.2 ∈ needed →
           (pair.1.1 ∉ final) ∧ (pair.1.2 ∉ final))
      ∧ (∀ pair x, pair ∈ TrainProcessor.timestamp_pairs →
           x ∈ [pair.1.1; pair.1.2] → x ∈ needed →
           ¬ (pair.1.1 ∈ needed ∧ pair.1.2 ∈ needed) → x ∉ listed →
           x ∈ final)
      ∧ Columns.keeps_order needed final.
Proof.
  intros Hrun.
  apply process_data_columns in Hrun
    as (data_files & content & pq & Hfiles & Hcsv & Hpq & Hcols).
  exists data_files, content, pq. split_and!; [done..|].
  cbv zeta. rewrite Hcols. split_and!.
  - intros c. apply final_columns_not_listed.
  - intros pair. apply final_columns_pair_dropped.
  - intros pair x. apply final_columns_pair_kept.
  - apply final_columns_keeps_order.
Qed.

(** The example run without the day of operation. *)
Lemma written_columns_witness :
  ∃ pq, datasets (Example.run [] ["BETRIEBSTAG"]).2 !! Example.output = Some pq
        ∧ ("LINIEN_TEXT" ∉ Pandas.columns (pq_frame pq))
        ∧ ("ANKUNFTSZEIT" ∉ Pandas.columns (pq_frame pq))
        ∧ Columns.keeps_order
            (filter (λ col, col ∉ ["BETRIEBSTAG"]) (Pandas.columns Example.table))
            (Pandas.columns (pq_frame pq)).
Proof.
  destruct (written_columns (H := Reference.lib) TrainProcessor.__init__ Example.world
              Example.empty_disk "data/train" [] Example.output ["BETRIEBSTAG"] ";"
              Example.output (Example.run [] ["BETRIEBSTAG"]).1.2
              (Example.run [] ["BETRIEBSTAG"]).2)
    as (data_files & content & pq & Hfiles & Hcsv & Hpq & Hlisted & Hpairs & _ & Horder).
  { reflexivity. }
  injection Hfiles as <-. injection Hcsv as <-.
  exists pq. split_and!; [done| | |done].
  - apply Hlisted. compute_done.
  - apply (Hpairs ("ANKUNFTSZEIT", "AN_PROGNOSE", "ARRIVAL_TIME_DIFF_SECONDS"));
      compute_done.
Defined.

(** When the actual arrival time is not read, the predicted one is written as it was read. *)
Lemma written_columns_counterexample :
  ∃ pq, datasets (Example.run [] ["ANKUNFTSZEIT"]).2 !! Example.output = Some pq
        ∧ Pandas.getitem (pq_frame pq) "AN_PROGNOSE"
          = Some [VStr "01.01.2024 10:00:00"; VStr "01.01.2024 11:02:30"].
Proof. eexists. split; vm_compute; reflexivity. Qed.

(** ** The reference serializer *)

Lemma NoDup_fst_proper (m : encoding_table)
    (l : list (string * gmap string nat)) :
  l ≡ₚ map_to_list m → NoDup l.*1.
Proof. intros ->. apply NoDup_fst_map_to_list. Qed.

Lemma ref_pickle_roundtrip (m : encoding_table) :
  Reference.ref_pickle_load (Reference.ref_pickle_dump m) = Some m.
Proof.
  unfold Reference.ref_pickle_load, Reference.ref_pickle_dump. f_equal.
  assert (prod_map id list_to_map <$> map_to_list (map_to_list <$> m)
          ≡ₚ map_to_list m) as Hperm.
  { rewrite map_to_list_fmap, <-list_fmap_compose.
    assert ((prod_map id list_to_map ∘ prod_map id map_to_list) <$> map_to_list m
            = map_to_list m) as ->; [|done].
    rewrite <-(list_fmap_id (map_to_list m)) at 2.
    apply list_fmap_ext. intros _ [k v] _.
    unfold prod_map. simpl. by rewrite list_to_map_to_list. }
  rewrite (list_to_map_proper _ _ (NoDup_fst_proper _ _ Hperm) Hperm).
  apply list_to_map_to_list.
Qed.

(** The encoder on the example table, with the reference serializer. *)
Lemma encoding_artifact_roundtrip_witness :
  ∃ artifact table,
    pickles Example.example_encode.1.2 !! "data/processed/category_encodings.pkl" = Some artifact
    ∧ Reference.ref_pickle_load artifact = Some table
    ∧ table = TrainProcessor.encoding_maps Example.example_encode.1.1
    ∧ table !! "ZUSATZFAHRT_TF" = Some TrainProcessor.bool_mapping.
Proof.
  destruct (encoding_artifact_roundtrip (H := Reference.lib)
              (TrainProcessor.with_output TrainProcessor.__init__ Example.output)
              Example.world Example.empty_disk Example.table Example.output
              Example.example_encode.1.1 Example.example_encode.1.2 Example.example_encode.2)
    as (artifact & table & Hfile & Hload & Htable & Hbool & _).
  - apply ref_pickle_roundtrip.
  - compute_done.
  - reflexivity.
  - reflexivity.
  - reflexivity.
  - exists artifact, table. split_and!; [exact Hfile|exact Hload|exact Htable|].
    eapply (Hbool "ZUSATZFAHRT_TF"); [compute_done|reflexivity].
Defined.

(** The example table has no column [FAELLT_AUS_TF]. *)
Lemma absent_column_skipped_witness :
  Pandas.getitem Example.example_encode.2 "FAELLT_AUS_TF_encoded" = None
  ∧ TrainProcessor.encoding_maps Example.example_encode.1.1 !! "FAELLT_AUS_TF" = None.
Proof.
  destruct (absent_column_skipped (H := Reference.lib)
              (TrainProcessor.with_output TrainProcessor.__init__ Example.output)
              Example.world Example.empty_disk Example.table "FAELLT_AUS_TF"
              Example.example_encode.1.1 Example.example_encode.1.2 Example.example_encode.2)
    as (Hcol & _ & _ & Hfresh & _).
  - compute_done.
  - compute_done.
  - compute_done.
  - reflexivity.
  - split; [exact Hcol|]. by apply Hfresh.
Defined.

(** * Further properties *)

(** ** Runs that cannot start, and what a run touches *)

Section runs.
Context `{PyLib}.
Import Pandas TrainProcessor.

Lemma csv_files_none_listed e folder names :
  listdir e folder = Some names →
  Forall (λ f, endswith f ".csv" = false) names →
  csv_files e folder = Some [].
Proof.
  intros Hls Hall. unfold csv_files. rewrite Hls. simpl. f_equal.
  rewrite (filter_none (λ f : string, endswith f ".csv" = true)); [done|].
  intros f Hf Hcsv. rewrite Forall_forall in Hall. specialize (Hall f Hf). congruence.
Qed.

Lemma datasets_save_encodings self e d : datasets (save_encodings self e d) = datasets d.
Proof.
  unfold save_encodings. destruct (output_file_path self); [|done].
  destruct (writable e (encoder_file s)); [|done].
  by destruct (writable e (mapping_file s)).
Qed.

Lemma pickles_save_encodings self e d out p :
  output_file_path self = Some out → p ≠ encoder_file out →
  pickles (save_encodings self e d) !! p = pickles d !! p.
Proof.
  intros Hout Hp. unfold save_encodings. rewrite Hout.
  destruct (writable e (encoder_file out)); [|done].
  destruct (writable e (mapping_file out)); simpl; by rewrite lookup_insert_ne.
Qed.

Lemma reports_save_encodings self e d out p :
  output_file_path self = Some out → p ≠ mapping_file out →
  p ∈ reports (save_encodings self e d) ↔ p ∈ reports d.
Proof.
  intros Hout Hp. unfold save_encodings. rewrite Hout.
  destruct (writable e (encoder_file out)); [|done].
  destruct (writable e (mapping_file out)); simpl; [|done].
  rewrite elem_of_union, elem_of_singleton. split; [by intros [?|?]|by right].
Qed.

End runs.

(** X1. When the folder cannot be listed, or lists no name that ends in
    [.csv] (the test is on the exact lower-case suffix), [process_data]
    returns [None], with its output path set and nothing written; when the
    folder cannot be listed the legacy entry point does not return [None]
    but raises, its listing being outside every [try]. *)
Theorem nothing_to_read `{PyLib} self e d folder fs out exclude_columns delimiter :
  match listdir e folder with
  | None => True
  | Some names => Forall (λ f, Pandas.endswith f ".csv" = false) names
  end →
  TrainProcessor.process_data self e d folder fs out exclude_columns delimiter
  = (None, TrainProcessor.with_output self out, d)
  ∧ (listdir e folder = None →
     DataProcessing.load_and_preprocess_data e d folder fs out exclude_columns delimiter
     = (Raises, d)).
Proof.
  intros Hls. split.
  - unfold TrainProcessor.process_data, TrainProcessor.load.
    destruct (listdir e folder) as [names|] eqn:Hnames.
    + by rewrite (csv_files_none_listed e folder names).
    + unfold TrainProcessor.csv_files. by rewrite Hnames.
  - intros Hnone. unfold DataProcessing.load_and_preprocess_data, DataProcessing._get_csv_files.
    by rewrite Hnone.
Qed.

(** A folder holding a text file, a file with the suffix [.CSV] and a file named [csv]; and a folder that is not there. *)
Lemma nothing_to_read_witness :
  let e := {| listdir := λ folder, if decide (folder = "data/train")
                                   then Some ["README.txt"; "2024-01.CSV"; "csv"] else None;
              getsize := λ _, 0%N;
              read_csv := λ _ _, Some Example.table;
              writable := λ _, true |} in
  (TrainProcessor.process_data (H := Reference.lib) TrainProcessor.__init__ e
     Example.empty_disk "data/train" [] Example.output [] ";").1.1 = None
  ∧ (DataProcessing.load_and_preprocess_data (H := Reference.lib) e
       Example.empty_disk "data/raw" [] "out.csv" [] ";").1 = Raises.
Proof.
  intros e. split.
  - rewrite (proj1 (nothing_to_read (H := Reference.lib) TrainProcessor.__init__ e
                      Example.empty_disk "data/train" [] Example.output [] ";"
                      ltac:(vm_compute; repeat constructor))).
    reflexivity.
  - rewrite (proj2 (nothing_to_read (H := Reference.lib) TrainProcessor.__init__ e
                      Example.empty_disk "data/raw" [] "out.csv" [] ";" I) eq_refl).
    reflexivity.
Defined.

(** X2. Whatever a call of [process_data] returns, the object has the
    output path it was given, and on the disk at most three paths differ
    from before: the data set at the output path, the pickle
    [category_encodings.pkl] and the report [category_mappings.txt] next to
    it.  The call returns [None] or the output path itself, and in the
    second case a data set is there. *)
Theorem process_data_footprint `{PyLib}
    self e d folder fs out exclude_columns delimiter r self' d' :
  TrainProcessor.process_data self e d folder fs out exclude_columns delimiter
  = (r, self', d') →
  TrainProcessor.output_file_path self' = Some out
  ∧ (∀ p, p ≠ out → datasets d' !! p = datasets d !! p)
  ∧ (∀ p, p ≠ TrainProcessor.encoder_file out → pickles d' !! p = pickles d !! p)
  ∧ (∀ p, p ≠ TrainProcessor.mapping_file out → p ∈ reports d' ↔ p ∈ reports d)
  ∧ (r = None ∨ r = Some out ∧ is_Some (datasets d' !! out)).
Proof.
  unfold TrainProcessor.process_data.
  destruct (TrainProcessor.load e folder exclude_columns delimiter) as [[size ddf0]|];
    [|intros [= <- <- <-]; split_and!; auto].
  destruct (TrainProcessor.process_timestamps _) as [ddf|];
    [|intros [= <- <- <-]; split_and!; auto].
  rewrite encode_categorical_columns_eq. cbv zeta.
  set (st := foldl _ _ _).
  set (self1 := TrainProcessor.with_maps _ _).
  assert (Hout : TrainProcessor.output_file_path self1 = Some out) by done.
  unfold TrainProcessor.to_parquet.
  destruct (writable e out).
  - intros [= <- <- <-]. split_and!; [done|..].
    + intros p Hp. simpl. rewrite lookup_insert_ne by done.
      by rewrite datasets_save_encodings.
    + intros p Hp. simpl. by apply (pickles_save_encodings _ _ _ out).
    + intros p Hp. simpl. by apply (reports_save_encodings _ _ _ out).
    + right. split; [done|]. simpl. rewrite lookup_insert_eq. by eexists.
  - intros [= <- <- <-]. split_and!; [done|..].
    + intros p Hp. by rewrite datasets_save_encodings.
    + intros p Hp. by apply (pickles_save_encodings _ _ _ out).
    + intros p Hp. by apply (reports_save_encodings _ _ _ out).
    + by left.
Qed.

(** After the example run another data set and another pickle are still absent. *)
Lemma process_data_footprint_witness :
  datasets (Example.run [] []).2 !! "data/processed/other.parquet" = None
  ∧ pickles (Example.run [] []).2 !! "data/processed/other.pkl" = None.
Proof.
  destruct (process_data_footprint (H := Reference.lib) TrainProcessor.__init__
              Example.world Example.empty_disk "data/train" [] Example.output [] ";"
              (Example.run [] []).1.1 (Example.run [] []).1.2 (Example.run [] []).2)
    as (_ & Hd & Hp & _).
  { reflexivity. }
  split.
  - rewrite Hd; [reflexivity|]. vm_compute. discriminate.
  - rewrite Hp; [reflexivity|]. vm_compute. discriminate.
Defined.

(** X3. In [process_data] a filter on a column that is also excluded does
    nothing: the excluded columns are never read, so the filter finds no
    column and is passed over, and the run is the run without it. *)
Theorem filter_on_excluded_column `{PyLib}
    self e d folder fs1 f fs2 out exclude_columns delimiter :
  f.1 ∈ exclude_columns →
  TrainProcessor.process_data self e d folder (fs1 ++ f :: fs2) out exclude_columns delimiter
  = TrainProcessor.process_data self e d folder (fs1 ++ fs2) out exclude_columns delimiter.
Proof.
  intros Hf. unfold TrainProcessor.process_data.
  destruct (TrainProcessor.load e folder exclude_columns delimiter)
    as [[size ddf0]|] eqn:Hload; [|done].
  apply load_Some in Hload as (data_files & content & _ & _ & _ & ->).
  unfold TrainProcessor.filter_stage. rewrite apply_filters_skip; [done|].
  rewrite columns_usecols. intros Hin.
  apply list_elem_of_filter in Hin as [Hin _].
  apply list_elem_of_filter in Hin as [Hin _]. done.
Qed.

(** Filtering the example by the day of operation while excluding that column. *)
Lemma filter_on_excluded_column_witness :
  Example.run [("BETRIEBSTAG", Scalar (VStr "02.01.2024"))] ["BETRIEBSTAG"]
  = Example.run [] ["BETRIEBSTAG"].
Proof.
  apply (filter_on_excluded_column (H := Reference.lib) TrainProcessor.__init__
           Example.world Example.empty_disk "data/train" []
           ("BETRIEBSTAG", Scalar (VStr "02.01.2024")) []).
  compute_done.
Defined.

(** ** The filters, row by row *)

Section filter_rows.
Import Pandas TrainProcessor.
Implicit Types (df : frame) (m : list bool) (s : series).

Lemma Forall_select {A} (P : A → Prop) m (xs : list A) :
  Forall P xs → Forall P (select m xs).
Proof.
  intros Hxs. revert m. induction Hxs as [|x xs Hx Hxs IH]; intros [|b m]; simpl;
    try constructor.
  destruct b; [constructor; [done|]|]; apply IH.
Qed.

Lemma sublist_select {A} m (xs : list A) : select m xs `sublist_of` xs.
Proof.
  revert xs. induction m as [|b m IH]; intros [|x xs]; simpl; try apply sublist_nil_l.
  destruct b; [by apply sublist_skip|by apply sublist_cons].
Qed.

Lemma Forall_sublist {A} (P : A → Prop) (l1 l2 : list A) :
  l1 `sublist_of` l2 → Forall P l2 → Forall P l1.
Proof.
  intros Hsub%sublist_subseteq. rewrite !Forall_forall. intros Hl x Hx. by apply Hl, Hsub.
Qed.

Lemma Forall_select_mask {A} (f : A → bool) m (xs : list A) :
  Forall (λ x, f x = true) (select (zip_with andb (f <$> xs) m) xs).
Proof.
  revert m. induction xs as [|x xs IH]; intros [|b m]; simpl; try constructor.
  destruct (f x) eqn:Hfx, b; simpl; try apply IH. constructor; [done|apply IH].
Qed.

Lemma Forall_select_isin s values :
  Forall (λ v, v ∈ values) (select (isin s values) s).
Proof.
  induction s as [|x s IH]; simpl; [constructor|].
  case_bool_decide; [constructor; [done|]|]; apply IH.
Qed.

Lemma Forall_select_real_mask_l an ab :
  Forall (λ v, v = VStr "REAL") (select (real_mask an ab) an).
Proof.
  unfold real_mask, mask_and, eq_scalar.
  eapply Forall_impl; [apply (Forall_select_mask (λ x, bool_decide (x = VStr "REAL")))|].
  intros x Hx. by apply bool_decide_eq_true in Hx.
Qed.

Lemma Forall_select_real_mask_r an ab :
  Forall (λ v, v = VStr "REAL") (select (real_mask an ab) ab).
Proof.
  unfold real_mask, mask_and. rewrite zip_with_andb_comm. unfold eq_scalar.
  eapply Forall_impl; [apply (Forall_select_mask (λ x, bool_decide (x = VStr "REAL")))|].
  intros x Hx. by apply bool_decide_eq_true in Hx.
Qed.

(** A property of the values of a column that holds before a filter holds
    after it, and each column after it is a sublist of the one before. *)
Lemma apply_filter_rows df f c s' :
  getitem (apply_filter df f) c = Some s' →
  ∃ s, getitem df c = Some s ∧ s' `sublist_of` s
       ∧ (c = f.1 → Forall (λ v, v ∈ as_list f.2) s').
Proof.
  unfold apply_filter. destruct (getitem df f.1) as [sf|] eqn:Hsf.
  - rewrite getitem_mask_rows. destruct (getitem df c) as [s|] eqn:Hs; [|done].
    simpl. intros [= <-]. exists s. split_and!; [done|apply sublist_select|].
    intros ->. rewrite Hsf in Hs. injection Hs as ->. apply Forall_select_isin.
  - intros Hs. exists s'. split_and!; [done|done|]. intros ->. congruence.
Qed.

Lemma apply_filters_rows fs df c s' :
  getitem (apply_filters df fs) c = Some s' →
  ∃ s, getitem df c = Some s ∧ s' `sublist_of` s
       ∧ (c ∈ fs.*1 → ∀ f, f ∈ fs → f.1 = c → Forall (λ v, v ∈ as_list f.2) s').
Proof.
  unfold apply_filters. revert df s'.
  induction fs as [|f fs IH] using rev_ind; intros df s'.
  - simpl. intros Hs. exists s'. split_and!; [done|done|]. intros _ f Hf.
    by apply elem_of_nil in Hf.
  - rewrite foldl_app. simpl. intros Hs.
    apply apply_filter_rows in Hs as (s1 & Hs1 & Hsub1 & Hf).
    apply IH in Hs1 as (s & Hs & Hsub & Hfs).
    exists s. split_and!; [done|by etrans|].
    intros _ g Hg Hgc. apply elem_of_app in Hg as [Hg|Hg].
    + eapply Forall_sublist; [exact Hsub1|]. apply Hfs; [|done..].
      apply list_elem_of_fmap. by exists g.
    + apply list_elem_of_singleton in Hg as ->. by apply Hf.
Qed.

Lemma filter_real_rows df c s' :
  getitem (filter_real df) c = Some s' →
  ∃ s, getitem df c = Some s ∧ s' `sublist_of` s.
Proof.
  rewrite filter_real_eq.
  destruct (getitem df "AN_PROGNOSE_STATUS") as [an|]; [|by eauto].
  destruct (getitem df "AB_PROGNOSE_STATUS") as [ab|]; [|by eauto].
  rewrite getitem_drop. case_decide; [done|]. rewrite getitem_mask_rows.
  destruct (getitem df c) as [s|]; [|done]. simpl. intros [= <-].
  exists s. split; [done|apply sublist_select].
Qed.

Lemma apply_filter_comm df f g :
  apply_filter (apply_filter df f) g = apply_filter (apply_filter df g) f.
Proof.
  unfold apply_filter.
  destruct (getitem df f.1) as [sf|] eqn:Hf, (getitem df g.1) as [sg|] eqn:Hg.
  - rewrite !getitem_mask_rows, ?Hf, ?Hg. simpl. rewrite !isin_select.
    apply mask_rows_comm.
  - rewrite ?getitem_mask_rows, ?Hf, ?Hg. simpl. by rewrite ?Hf, ?Hg.
  - rewrite ?getitem_mask_rows, ?Hf, ?Hg. simpl. by rewrite ?Hf, ?Hg.
  - by rewrite ?Hf, ?Hg.
Qed.

Lemma apply_filters_Permutation fs fs' df :
  fs ≡ₚ fs' → apply_filters df fs = apply_filters df fs'.
Proof.
  unfold apply_filters. intros Hperm. revert df.
  induction Hperm as [|f fs fs' _ IH|f g fs|fs1 fs2 fs3 _ IH1 _ IH2]; intros df.
  - done.
  - simpl. apply IH.
  - simpl. by rewrite apply_filter_comm.
  - by rewrite IH1.
Qed.

Lemma legacy_fold_present fs data :
  Forall (λ f, f.1 ∈ columns data) fs →
  foldl DataProcessing.filter_step (Some data) fs = Some (apply_filters data fs).
Proof.
  unfold apply_filters. revert data. induction fs as [|f fs IH]; intros data Hall; [done|].
  apply Forall_cons in Hall as [Hf Hall]. simpl.
  apply getitem_is_Some in Hf as [s Hs].
  unfold DataProcessing.apply_filter, apply_filter. rewrite Hs.
  apply IH. by rewrite columns_mask_rows.
Qed.

Lemma legacy_fold_Permutation fs fs' data :
  fs ≡ₚ fs' →
  foldl DataProcessing.filter_step (Some data) fs
  = foldl DataProcessing.filter_step (Some data) fs'.
Proof.
  intros Hperm.
  destruct (decide (Forall (λ f, f.1 ∈ columns data) fs)) as [Hall|Hex].
  - rewrite !legacy_fold_present; [|by rewrite <-Hperm|done].
    f_equal. by apply apply_filters_Permutation.
  - apply not_Forall_Exists in Hex; [|apply _].
    rewrite !legacy_fold_unknown; [done| |done].
    by rewrite <-Hperm.
Qed.

End filter_rows.

(** X4. After the filter stage of [process_data] every column is a
    sublist of the column that was read (rows are only removed, their order
    is kept), and a column named by a filter holds only values of that
    filter. *)
Theorem filter_stage_rows ddf fs c s' :
  Pandas.getitem (TrainProcessor.filter_stage ddf fs) c = Some s' →
  (∃ s, Pandas.getitem ddf c = Some s ∧ s' `sublist_of` s)
  ∧ (∀ f, f ∈ fs → f.1 = c → Forall (λ v, v ∈ as_list f.2) s').
Proof.
  intros Hs. unfold TrainProcessor.filter_stage in Hs.
  apply filter_real_rows in Hs as (s1 & Hs1 & Hsub1).
  apply apply_filters_rows in Hs1 as (s & Hs & Hsub & Hfs).
  split; [exists s; split; [done|by etrans]|].
  intros f Hf Hc. eapply Forall_sublist; [exact Hsub1|]. apply (Hfs); [|done..].
  apply list_elem_of_fmap. by exists f.
Qed.

(** The line column of the example after a filter on two lines. *)
Lemma filter_stage_rows_witness :
  Forall (λ v, v ∈ [VStr "IC5"; VStr "IC8"]) [VStr "IC5"].
Proof.
  destruct (filter_stage_rows Example.table
              [("LINIEN_TEXT", Values [VStr "IC5"; VStr "IC8"])]
              "LINIEN_TEXT" [VStr "IC5"] eq_refl) as [_ Hf].
  apply (Hf ("LINIEN_TEXT", Values [VStr "IC5"; VStr "IC8"])); [|done].
  apply list_elem_of_singleton. done.
Defined.

(** X5. When the legacy [_apply_filters] returns a frame, every column of
    it is a sublist of the column it was given, a column named by a filter
    holds only values of that filter, and the two status columns, which are
    kept, hold nothing but ["REAL"]. *)
Theorem legacy_filter_rows data fs r c s' :
  DataProcessing._apply_filters data fs = Some r →
  Pandas.getitem r c = Some s' →
  (∃ s, Pandas.getitem data c = Some s ∧ s' `sublist_of` s)
  ∧ (∀ f, f ∈ fs → f.1 = c → Forall (λ v, v ∈ as_list f.2) s')
  ∧ (c ∈ TrainProcessor.status_columns → Forall (λ v, v = VStr "REAL") s').
Proof.
  intros Hr Hs.
  apply legacy_apply_filters_Some in Hr as (an & ab & Han & Hab & -> & _ & _).
  apply apply_filters_rows in Hs as (s1 & Hs1 & Hsub1 & Hfs).
  rewrite getitem_mask_rows in Hs1.
  destruct (Pandas.getitem data c) as [s|] eqn:Hc; [|done].
  injection Hs1 as <-. split_and!.
  - exists s. split; [done|]. etrans; [exact Hsub1|apply sublist_select].
  - intros f Hf Hfc. apply Hfs; [|done..]. apply list_elem_of_fmap. by exists f.
  - intros Hin. eapply Forall_sublist; [exact Hsub1|].
    unfold TrainProcessor.status_columns in Hin.
    apply elem_of_cons in Hin as [->|Hin];
      [|apply list_elem_of_singleton in Hin as ->].
    + rewrite Han in Hc. injection Hc as <-. apply Forall_select_real_mask_l.
    + rewrite Hab in Hc. injection Hc as <-. apply Forall_select_real_mask_r.
Qed.

(** The arrival status column of the example after the legacy filter stage. *)
Lemma legacy_filter_rows_witness :
  Forall (λ v, v = VStr "REAL") [VStr "REAL"; VStr "REAL"].
Proof.
  destruct (legacy_filter_rows Example.table [] _ "AN_PROGNOSE_STATUS"
              [VStr "REAL"; VStr "REAL"] eq_refl eq_refl) as (_ & _ & Hreal).
  apply Hreal. compute_done.
Defined.

(** X6. The order in which the filter dictionary is iterated does not
    matter: for two orders of the same filters the filter stage of
    [process_data] gives the same frame, and the legacy [_apply_filters]
    gives the same frame or fails for both. *)
Theorem filters_order_irrelevant fs fs' :
  fs ≡ₚ fs' →
  (∀ ddf, TrainProcessor.filter_stage ddf fs = TrainProcessor.filter_stage ddf fs')
  ∧ (∀ data, DataProcessing._apply_filters data fs = DataProcessing._apply_filters data fs').
Proof.
  intros Hperm. split.
  - intros ddf. unfold TrainProcessor.filter_stage.
    by rewrite (apply_filters_Permutation fs fs').
  - intros data. unfold DataProcessing._apply_filters.
    destruct (Pandas.getitem data "AN_PROGNOSE_STATUS") as [an|]; [|done].
    destruct (Pandas.getitem data "AB_PROGNOSE_STATUS") as [ab|]; [|done].
    simpl. by apply legacy_fold_Permutation.
Qed.

(** Two filters on the example, in both orders. *)
Lemma filters_order_irrelevant_witness :
  TrainProcessor.filter_stage Example.table
    [("LINIEN_TEXT", Scalar (VStr "IC5")); ("ZUSATZFAHRT_TF", Values [VStr "false"; VNaN])]
  = TrainProcessor.filter_stage Example.table
    [("ZUSATZFAHRT_TF", Values [VStr "false"; VNaN]); ("LINIEN_TEXT", Scalar (VStr "IC5"))].
Proof.
  apply (filters_order_irrelevant
           [("LINIEN_TEXT", Scalar (VStr "IC5")); ("ZUSATZFAHRT_TF", Values [VStr "false"; VNaN])]
           [("ZUSATZFAHRT_TF", Values [VStr "false"; VNaN]); ("LINIEN_TEXT", Scalar (VStr "IC5"))]).
  apply perm_swap.
Defined.

(** ** Columns the pipelines expect *)

Section expected_columns.
Context `{PyLib}.
Import Pandas TrainProcessor.

Lemma filter_real_absent df :
  ¬ ("AN_PROGNOSE_STATUS" ∈ columns df ∧ "AB_PROGNOSE_STATUS" ∈ columns df) →
  filter_real df = df.
Proof.
  intros Hno. rewrite filter_real_eq.
  destruct (getitem df "AN_PROGNOSE_STATUS") as [an|] eqn:Han; [|done].
  destruct (getitem df "AB_PROGNOSE_STATUS") as [ab|] eqn:Hab; [|done].
  destruct Hno. split; by eapply getitem_Some_columns.
Qed.

Lemma calculate_time_difference_absent data col1 col2 new_col_name :
  col1 ≠ col2 →
  ¬ (col1 ∈ columns data ∧ col2 ∈ columns data) →
  DataProcessing.calculate_time_difference data col1 col2 new_col_name = None.
Proof.
  intros Hne Hno. unfold DataProcessing.calculate_time_difference.
  destruct (getitem data col1) as [s1|] eqn:H1; [|done]. cbn [mbind option_bind].
  destruct (to_datetime_series s1) as [s1'|]; [|done]. cbn [mbind option_bind].
  rewrite getitem_setitem_ne by done.
  destruct (getitem data col2) as [s2|] eqn:H2; [|done].
  destruct Hno. split; by eapply getitem_Some_columns.
Qed.

Lemma calculate_time_difference_columns data col1 col2 new_col_name data' c :
  DataProcessing.calculate_time_difference data col1 col2 new_col_name = Some data' →
  c ∈ columns data' → c = new_col_name ∨ c ∈ columns data.
Proof.
  unfold DataProcessing.calculate_time_difference.
  destruct (getitem data col1) as [s1|] eqn:H1; [|done]. cbn [mbind option_bind].
  destruct (to_datetime_series s1) as [s1'|]; [|done]. cbn [mbind option_bind].
  destruct (getitem (setitem data col1 s1') col2) as [s2|] eqn:H2; [|done].
  cbn [mbind option_bind].
  destruct (to_datetime_series s2) as [s2'|]; [|done]. cbn [mbind option_bind].
  destruct (getitem (setitem (setitem data col1 s1') col2 s2') col1) as [a|]; [|done].
  cbn [mbind option_bind].
  destruct (getitem (setitem (setitem data col1 s1') col2 s2') col2) as [p|]; [|done].
  cbn [mbind option_bind].
  intros Heq. apply (inj Some) in Heq. rewrite <-Heq.
  rewrite !elem_of_columns_setitem. intros [->|[->|[->|Hc]]]; auto.
  - right. apply getitem_Some_columns in H2.
    apply elem_of_columns_setitem in H2 as [->|H2]; [|done].
    by eapply getitem_Some_columns.
  - right. by eapply getitem_Some_columns.
Qed.

End expected_columns.

(** X7. When a status column is not in the data, [process_data] leaves
    the validity filter out (its filter stage is the filters of the caller
    alone and the other status column stays), while the legacy
    [_apply_filters] fails and [preprocess_and_save_data] returns [None]
    without writing. *)
Theorem missing_status_column `{PyLib} e d data fs exclude_columns out :
  ¬ ("AN_PROGNOSE_STATUS" ∈ Pandas.columns data
     ∧ "AB_PROGNOSE_STATUS" ∈ Pandas.columns data) →
  TrainProcessor.filter_stage data fs = TrainProcessor.apply_filters data fs
  ∧ DataProcessing._apply_filters data fs = None
  ∧ DataProcessing.preprocess_and_save_data e d data fs exclude_columns out = (None, d).
Proof.
  intros Hno.
  assert (DataProcessing._apply_filters data fs = None) as Hnone.
  { unfold DataProcessing._apply_filters.
    destruct (Pandas.getitem data "AN_PROGNOSE_STATUS") as [an|] eqn:Han; [|done].
    destruct (Pandas.getitem data "AB_PROGNOSE_STATUS") as [ab|] eqn:Hab; [|done].
    destruct Hno. split; by eapply getitem_Some_columns. }
  split_and!; [|done|].
  - unfold TrainProcessor.filter_stage. apply filter_real_absent.
    by rewrite columns_apply_filters.
  - unfold DataProcessing.preprocess_and_save_data. by rewrite Hnone.
Qed.

(** The example without the departure status column. *)
Lemma missing_status_column_witness :
  let data := Pandas.drop Example.table ["AB_PROGNOSE_STATUS"] in
  TrainProcessor.filter_stage data [] = data
  ∧ DataProcessing._apply_filters data [] = None.
Proof.
  intros data.
  destruct (missing_status_column (H := Reference.lib) Example.world Example.empty_disk
              data [] [] "out.csv") as (Hnew & Hold & _).
  - vm_compute. intros [_ Hin]. by repeat (apply elem_of_cons in Hin as [?|Hin]; [done|]);
      apply elem_of_nil in Hin.
  - split; [exact Hnew|exact Hold].
Defined.

(** X8. The legacy pipeline needs all four timestamp columns: when one of
    them is excluded by the caller or missing from the data,
    [preprocess_and_save_data] returns [None] and writes nothing. *)
Theorem legacy_needs_timestamp_columns `{PyLib} e d data fs exclude_columns out c :
  c ∈ ["ANKUNFTSZEIT"; "AN_PROGNOSE"; "ABFAHRTSZEIT"; "AB_PROGNOSE"] →
  c ∈ exclude_columns ∨ c ∉ Pandas.columns data →
  DataProcessing.preprocess_and_save_data e d data fs exclude_columns out = (None, d).
Proof.
  intros Hc Hgone. unfold DataProcessing.preprocess_and_save_data.
  destruct (DataProcessing._apply_filters data fs) as [r|] eqn:Hr; [|done].
  apply legacy_apply_filters_Some in Hr as (an & ab & _ & _ & _ & Hcols & _).
  cbn [mbind option_bind DataProcessing._exclude_columns DataProcessing._preprocess_data].
  set (data1 := Pandas.drop r exclude_columns).
  assert (Habs : c ∉ Pandas.columns data1).
  { unfold data1. rewrite columns_drop, Hcols. intros Hin.
    apply list_elem_of_filter in Hin as [Hex Hin]. by destruct Hgone. }
  clearbody data1.
  destruct (DataProcessing.calculate_time_difference data1 _ _ _) as [data2|] eqn:H1;
    [|done].
  cbn [mbind option_bind].
  assert (c ∈ ["ABFAHRTSZEIT"; "AB_PROGNOSE"] ∧ c ∉ Pandas.columns data2) as [Hc2 Habs2].
  { destruct (decide (c ∈ ["ANKUNFTSZEIT"; "AN_PROGNOSE"])) as [Hc1|Hc1].
    - rewrite calculate_time_difference_absent in H1; [done|done|].
      intros [Ha Hp]. apply elem_of_cons in Hc1 as [->|Hc1]; [done|].
      apply list_elem_of_singleton in Hc1 as ->. done.
    - split.
      + apply elem_of_cons in Hc as [->|Hc]; [destruct Hc1; by left|].
        apply elem_of_cons in Hc as [->|Hc]; [destruct Hc1; right; by left|]. done.
      + intros Hin.
        apply (calculate_time_difference_columns _ _ _ _ _ _ H1) in Hin as [->|Hin];
          [|done].
        revert Hc. clear. intros Hc.
        repeat (apply elem_of_cons in Hc as [Hc|Hc]; [discriminate Hc|]).
        by apply elem_of_nil in Hc. }
  rewrite calculate_time_difference_absent; [done|done|].
  intros [Ha Hp]. apply elem_of_cons in Hc2 as [->|Hc2]; [done|].
  apply list_elem_of_singleton in Hc2 as ->. done.
Qed.

(** The example with the predicted arrival time excluded. *)
Lemma legacy_needs_timestamp_columns_witness :
  DataProcessing.preprocess_and_save_data (H := Reference.lib) Example.world
    Example.empty_disk Example.table [] ["AN_PROGNOSE"] "out/processed.csv"
  = (None, Example.empty_disk).
Proof.
  apply (legacy_needs_timestamp_columns (H := Reference.lib) Example.world
           Example.empty_disk Example.table [] ["AN_PROGNOSE"] "out/processed.csv"
           "AN_PROGNOSE"); [compute_done|left; compute_done].
Defined.

(** ** The codes of a categorical column *)

Section codes.
Context `{PyLib}.
Import Pandas TrainProcessor.

Lemma elem_of_unique (s : series) v : v ∈ unique s ↔ v ∈ s.
Proof. unfold unique. by rewrite elem_of_reverse, elem_of_remove_dups, elem_of_reverse. Qed.

Lemma NoDup_unique (s : series) : NoDup (unique s).
Proof. unfold unique. rewrite reverse_Permutation. apply NoDup_remove_dups. Qed.

Lemma dict_of_lookup_is_Some l k : k ∈ l → is_Some (dict_of (enumerate l) !! k).
Proof.
  induction l as [|x l IH] using rev_ind; [by intros ?%elem_of_nil|].
  rewrite dict_of_snoc, lookup_insert_is_Some, elem_of_app, list_elem_of_singleton.
  destruct (decide (x = k)) as [->|Hne]; [by left|].
  intros [Hk|Hk]; [|congruence]. right. split; [done|by apply IH].
Qed.

Lemma category_mapping_total (s : series) v :
  v ∈ s →
  ∃ n, category_mapping (unique s) !! str v = Some n ∧ (n < length (unique s))%nat.
Proof.
  intros Hv. unfold category_mapping.
  destruct (dict_of_lookup_is_Some (sorted (str <$> unique s)) (str v)) as [n Hn].
  { rewrite sorted_Permutation. apply list_elem_of_fmap. exists v.
    split; [done|by apply elem_of_unique]. }
  exists n. split; [done|].
  apply dict_of_lookup in Hn as [Hn _]. apply lookup_lt_Some in Hn.
  by rewrite sorted_Permutation, length_fmap in Hn.
Qed.

Lemma category_mapping_order uniq k1 k2 n1 n2 :
  category_mapping uniq !! k1 = Some n1 → category_mapping uniq !! k2 = Some n2 →
  ((n1 ≤ n2)%nat ↔ String.le k1 k2) ∧ (n1 = n2 ↔ k1 = k2).
Proof.
  intros H1 H2.
  assert (Heq : n1 = n2 ↔ k1 = k2).
  { split; [|intros ->; congruence]. intros ->.
    apply dict_of_lookup in H1 as [H1 _], H2 as [H2 _]. congruence. }
  split; [|done].
  pose proof (sorted_StronglySorted (str <$> uniq)) as Hs.
  apply dict_of_lookup in H1 as [H1 Hlast1], H2 as [H2 Hlast2]. split.
  - intros Hle. by eapply StronglySorted_lookup_le.
  - intros Hle. destruct (decide (n1 ≤ n2)%nat) as [|Hgt]; [done|].
    assert (String.le k2 k1) as Hle'.
    { eapply StronglySorted_lookup_le; eauto with lia. }
    assert (k1 = k2) as -> by by apply (anti_symm String.le).
    destruct (Hlast2 n1); [lia|done].
Qed.

Lemma categorical_encoder_lookup (s : series) i v :
  s !! i = Some v →
  (categorical_encoder s).2 !! i
  = Some (if decide (v = VNaN) then VNaN
          else match category_mapping (unique s) !! str v with
               | Some n => VInt (Z.of_nat n) | None => VNaN end).
Proof.
  intros Hv. unfold categorical_encoder, map_dict. cbn [snd].
  rewrite list_lookup_fmap, (astype_str_lookup s i v Hv). by case_decide.
Qed.

Lemma categorical_encoder_lookup_inv (s : series) i x :
  (categorical_encoder s).2 !! i = Some x → ∃ v, s !! i = Some v.
Proof.
  intros Hi. apply lookup_lt_is_Some. apply lookup_lt_Some in Hi.
  unfold categorical_encoder, map_dict, astype_str in Hi. cbn [snd] in Hi.
  by rewrite !length_fmap in Hi.
Qed.

(** A column as [read_csv] delivers it under the dtype [object]: strings
    and missing values, the text ["<NA>"] being read as missing. *)
Lemma csv_values_print_apart (s : series) :
  Forall (λ v, v = VNaN ∨ ∃ t, v = VStr t ∧ t ≠ "<NA>") s →
  NoDup (str <$> unique s).
Proof.
  intros Hall. apply NoDup_fmap_2_strong; [|apply NoDup_unique].
  rewrite Forall_forall in Hall.
  intros v w Hv%elem_of_unique%Hall Hw%elem_of_unique%Hall.
  destruct Hv as [->|(t & -> & Ht)], Hw as [->|(u & -> & Hu)]; simpl; congruence.
Qed.

(** One round of the categorical loop on a column that is there. *)
Lemma encode_categorical_present self e d ddf self' d' ddf' col s :
  well_named self →
  encode_categorical_columns self e d ddf = (self', d', ddf') →
  col ∈ categorical_columns self → getitem ddf col = Some s →
  encoding_maps self' !! col = Some (category_mapping (unique s))
  ∧ getitem ddf' (encoded_name col) = Some (categorical_encoder s).2.
Proof.
  intros [Hnd Hwn]. rewrite encode_categorical_columns_eq. cbv zeta.
  intros [= <- _ <-] Hcol Hs. cbn [encoding_maps with_maps].
  apply (rounds_present (rounds self) (encoding_maps self, ddf) col
           categorical_encoder s); rewrite ?rounds_names; [done..| |done].
  unfold rounds. apply elem_of_app. right. apply list_elem_of_fmap. by exists col.
Qed.

(** One round of the boolean loop on a column that is there. *)
Lemma encode_bool_present self e d ddf self' d' ddf' col s :
  well_named self →
  encode_categorical_columns self e d ddf = (self', d', ddf') →
  col ∈ bool_columns self → getitem ddf col = Some s →
  encoding_maps self' !! col = Some bool_mapping
  ∧ getitem ddf' (encoded_name col) = Some (encode_bool_series s).
Proof.
  intros [Hnd Hwn]. rewrite encode_categorical_columns_eq. cbv zeta.
  intros [= <- _ <-] Hcol Hs. cbn [encoding_maps with_maps].
  apply (rounds_present (rounds self) (encoding_maps self, ddf) col
           bool_encoder s); rewrite ?rounds_names; [done..| |done].
  unfold rounds. apply elem_of_app. left. apply list_elem_of_fmap. by exists col.
Qed.

(** The rows of the encoded column of any categorical column. *)
Lemma categorical_rows (s : series) :
  (∀ i v, s !! i = Some v → v ≠ VNaN →
     ∃ n, category_mapping (unique s) !! str v = Some n
          ∧ (n < length (unique s))%nat
          ∧ (categorical_encoder s).2 !! i = Some (VInt (Z.of_nat n)))
  ∧ (∀ i, s !! i = Some VNaN → (categorical_encoder s).2 !! i = Some VNaN).
Proof.
  split.
  - intros i v Hv Hne.
    destruct (category_mapping_total s v) as (n & Hn & Hlt).
    { by eapply list_elem_of_lookup_2. }
    exists n. split_and!; [done|done|].
    by rewrite (categorical_encoder_lookup s i v Hv), decide_False, Hn.
  - intros i Hv. by rewrite (categorical_encoder_lookup s i VNaN Hv).
Qed.

(** The values of the encoded column of a column as [read_csv] delivers
    it. *)
Lemma categorical_values (s : series) x :
  Forall (λ v, v = VNaN ∨ ∃ t, v = VStr t ∧ t ≠ "<NA>") s →
  x ∈ (categorical_encoder s).2 ↔
    (x = VNaN ∧ VNaN ∈ s)
    ∨ ∃ n, (n < length (unique s))%nat ∧ x = VInt (Z.of_nat n)
           ∧ category_mapping (unique s) !! "<NA>" ≠ Some n.
Proof.
  intros Hall. pose proof (csv_values_print_apart s Hall) as Hnd.
  rewrite Forall_forall in Hall.
  destruct (categorical_rows s) as [Hrow Hmiss]. split.
  - intros (i & Hi)%list_elem_of_lookup.
    destruct (categorical_encoder_lookup_inv s i x Hi) as [v Hv].
    assert (Hin : v ∈ s) by by eapply list_elem_of_lookup_2.
    destruct (decide (v = VNaN)) as [->|Hne].
    + left. rewrite (Hmiss i Hv) in Hi. by injection Hi as <-.
    + right. destruct (Hrow i v Hv Hne) as (n & Hn & Hlt & Hx).
      rewrite Hx in Hi. injection Hi as <-. exists n. split_and!; [done..|].
      intros Hna.
      destruct (category_mapping_order _ _ _ _ _ Hn Hna) as [_ [Heq _]].
      specialize (Heq eq_refl).
      destruct (Hall v Hin) as [->|(t & -> & Ht)]; simpl in Heq; congruence.
  - intros [[-> Hin]|(n & Hlt & -> & Hna)].
    + apply list_elem_of_lookup in Hin as [i Hi].
      apply list_elem_of_lookup. exists i. by apply Hmiss.
    + destruct (category_mapping_dense (unique s) Hnd) as (Hkeys & Hcodes & _).
      apply Hcodes in Hlt as [k Hk].
      assert (k ∈ str <$> unique s) as (v & -> & Hv)%list_elem_of_fmap.
      { apply Hkeys. by eexists. }
      apply (proj1 (elem_of_unique _ _)) in Hv.
      assert (v ≠ VNaN) as Hne by (intros ->; by destruct Hna).
      apply list_elem_of_lookup in Hv as [i Hi].
      apply list_elem_of_lookup. exists i.
      destruct (Hrow i v Hi Hne) as (n' & Hn' & _ & Hx). congruence.
Qed.

Lemma categorical_injective (s : series) v w :
  Forall (λ v, v = VNaN ∨ ∃ t, v = VStr t ∧ t ≠ "<NA>") s →
  v ∈ s → w ∈ s →
  category_mapping (unique s) !! str v = category_mapping (unique s) !! str w →
  v = w.
Proof.
  intros Hall Hv Hw Heq.
  destruct (category_mapping_total s v Hv) as (n & Hn & _).
  rewrite Hn in Heq. symmetry in Heq.
  destruct (category_mapping_order _ _ _ _ _ Hn Heq) as [_ [Hstr _]].
  specialize (Hstr eq_refl).
  rewrite Forall_forall in Hall.
  destruct (Hall v Hv) as [->|(t & -> & Ht)], (Hall w Hw) as [->|(u & -> & Hu)];
    simpl in Hstr; congruence.
Qed.

End codes.

(** X9. For every categorical column that the frame has, the encoder
    records a mapping and makes an encoded column such that a row that
    holds a value gets the code of its stringified value in the mapping,
    which is below the number of distinct values of the column; a row whose
    value is missing is encoded to the missing value; and in the mapping
    codes ascend exactly as the keys do, so two keys have the same code only
    when they are the same key. *)
Theorem categorical_codes `{PyLib} self e d ddf self' d' ddf' col s :
  TrainProcessor.well_named self →
  TrainProcessor.encode_categorical_columns self e d ddf = (self', d', ddf') →
  col ∈ TrainProcessor.categorical_columns self →
  Pandas.getitem ddf col = Some s →
  ∃ mapping encoded,
    TrainProcessor.encoding_maps self' !! col = Some mapping
    ∧ Pandas.getitem ddf' (TrainProcessor.encoded_name col) = Some encoded
    ∧ (∀ i v, s !! i = Some v → v ≠ VNaN →
         ∃ n, mapping !! Pandas.str v = Some n
              ∧ (n < length (Pandas.unique s))%nat
              ∧ encoded !! i = Some (VInt (Z.of_nat n)))
    ∧ (∀ i, s !! i = Some VNaN → encoded !! i = Some VNaN)
    ∧ (∀ k1 k2 n1 n2, mapping !! k1 = Some n1 → mapping !! k2 = Some n2 →
         ((n1 ≤ n2)%nat ↔ String.le k1 k2) ∧ (n1 = n2 ↔ k1 = k2)).
Proof.
  intros Hwn Hrun Hcol Hs.
  destruct (encode_categorical_present _ _ _ _ _ _ _ _ _ Hwn Hrun Hcol Hs) as [Hm Hc].
  destruct (categorical_rows s) as [Hrow Hmiss].
  eexists _, _. split_and!; [exact Hm|exact Hc|exact Hrow|exact Hmiss|].
  intros k1 k2 n1 n2. apply category_mapping_order.
Qed.

(** The line column of the example: the second row gets the code 0. *)
Lemma categorical_codes_witness :
  ∃ mapping encoded,
    TrainProcessor.encoding_maps Example.example_encode.1.1 !! "LINIEN_TEXT" = Some mapping
    ∧ Pandas.getitem Example.example_encode.2 "LINIEN_TEXT_encoded" = Some encoded
    ∧ mapping !! "IC21" = Some 0%nat
    ∧ encoded !! 1%nat = Some (VInt 0).
Proof.
  destruct (categorical_codes (H := Reference.lib)
              (TrainProcessor.with_output TrainProcessor.__init__ Example.output)
              Example.world Example.empty_disk Example.table
              Example.example_encode.1.1 Example.example_encode.1.2 Example.example_encode.2
              "LINIEN_TEXT" [VStr "IC5"; VStr "IC21"; VStr "IC5"])
    as (mapping & encoded & Hm & Hc & _).
  - compute_done.
  - reflexivity.
  - compute_done.
  - reflexivity.
  - exists mapping, encoded. split_and!; [exact Hm|exact Hc|..].
    + assert (Some mapping
              = TrainProcessor.encoding_maps Example.example_encode.1.1 !! "LINIEN_TEXT")
        as Heq by done.
      vm_compute in Heq. injection Heq as ->. reflexivity.
    + assert (Some encoded
              = Pandas.getitem Example.example_encode.2 "LINIEN_TEXT_encoded")
        as Heq by done.
      vm_compute in Heq. injection Heq as ->. reflexivity.
Defined.

(** X10. For a categorical column as [read_csv] delivers it under the
    dtype [object] (strings and missing values, the text ["<NA>"] having
    been read as missing), the values of the encoded column are the missing
    value, when the column has one, and the codes below the number [N] of
    distinct values other than the code of the key ["<NA>"]: all of
    [0 .. N-1] when no value is missing.  Two rows have the same code only
    when they hold the same value. *)
Theorem categorical_codes_dense `{PyLib} self e d ddf self' d' ddf' col s :
  TrainProcessor.well_named self →
  TrainProcessor.encode_categorical_columns self e d ddf = (self', d', ddf') →
  col ∈ TrainProcessor.categorical_columns self →
  Pandas.getitem ddf col = Some s →
  Forall (λ v, v = VNaN ∨ ∃ t, v = VStr t ∧ t ≠ "<NA>") s →
  ∃ mapping encoded,
    TrainProcessor.encoding_maps self' !! col = Some mapping
    ∧ Pandas.getitem ddf' (TrainProcessor.encoded_name col) = Some encoded
    ∧ (∀ x, x ∈ encoded ↔
            (x = VNaN ∧ VNaN ∈ s)
            ∨ ∃ n, (n < length (Pandas.unique s))%nat ∧ x = VInt (Z.of_nat n)
                   ∧ mapping !! "<NA>" ≠ Some n)
    ∧ (VNaN ∉ s →
       ∀ x, x ∈ encoded ↔ ∃ n, (n < length (Pandas.unique s))%nat ∧ x = VInt (Z.of_nat n))
    ∧ (∀ v w, v ∈ s → w ∈ s →
         mapping !! Pandas.str v = mapping !! Pandas.str w → v = w).
Proof.
  intros Hwn Hrun Hcol Hs Hall.
  destruct (encode_categorical_present _ _ _ _ _ _ _ _ _ Hwn Hrun Hcol Hs) as [Hm Hc].
  eexists _, _. split_and!; [exact Hm|exact Hc|..].
  - intros x. by apply categorical_values.
  - intros Hnone x. rewrite (categorical_values s x Hall). split.
    + intros [[_ ?]|(n & Hlt & -> & _)]; [done|by exists n].
    + intros (n & Hlt & ->). right. exists n. split_and!; [done..|].
      intros Hna.
      assert (is_Some (TrainProcessor.category_mapping (Pandas.unique s) !! "<NA>"))
        as Hsome by by eexists.
      pose proof (csv_values_print_apart s Hall) as Hnd.
      destruct (category_mapping_dense (Pandas.unique s) Hnd) as (Hkeys & _).
      apply Hkeys in Hsome as (v & Hv & Hin)%list_elem_of_fmap.
      apply (proj1 (elem_of_unique _ _)) in Hin.
      rewrite Forall_forall in Hall.
      destruct (Hall v Hin) as [->|(t & -> & Ht)]; [done|]. simpl in Hv. congruence.
  - intros v w. by apply categorical_injective.
Qed.

(** A column with two lines and a missing value: the key of the missing
    value has the code 0, which no row gets. *)
Lemma categorical_codes_dense_witness :
  ∃ mapping encoded,
    TrainProcessor.encoding_maps
      (TrainProcessor.encode_categorical_columns (H := Reference.lib)
         TrainProcessor.__init__ Example.world Example.empty_disk
         [("LINIEN_TEXT", [VStr "IC5"; VStr "IC21"; VNaN; VStr "IC5"])]).1.1
      !! "LINIEN_TEXT" = Some mapping
    ∧ mapping !! "<NA>" = Some 0%nat
    ∧ mapping !! "IC21" = Some 1%nat
    ∧ mapping !! "IC5" = Some 2%nat
    ∧ encoded = [VInt 2; VInt 1; VNaN; VInt 2]
    ∧ (VInt 0 ∉ encoded).
Proof.
  destruct (categorical_codes_dense (H := Reference.lib)
              TrainProcessor.__init__ Example.world Example.empty_disk
              [("LINIEN_TEXT", [VStr "IC5"; VStr "IC21"; VNaN; VStr "IC5"])]
              _ _ _ "LINIEN_TEXT" [VStr "IC5"; VStr "IC21"; VNaN; VStr "IC5"]
              ltac:(compute_done) eq_refl ltac:(compute_done) eq_refl)
    as (mapping & encoded & Hm & Hc & Hvalues & _).
  - repeat (apply Forall_cons; split;
      [first [by left|right; eexists; split; [reflexivity|discriminate]]|]).
    apply Forall_nil_2.
  - exists mapping, encoded.
    assert (encoded = [VInt 2; VInt 1; VNaN; VInt 2]) as Henc.
    { vm_compute in Hc. by injection Hc as <-. }
    assert (Some mapping
            = Some (TrainProcessor.category_mapping (H := Reference.lib)
                      (Pandas.unique [VStr "IC5"; VStr "IC21"; VNaN; VStr "IC5"])))
      as Heq by by rewrite <- Hm.
    split; [exact Hm|]. injection Heq as ->.
    split_and!; [reflexivity..|exact Henc|].
    rewrite Henc. compute_done.
Defined.

(** X11. The mapping of a categorical column depends on the set of its
    values only: two columns with the same values, in whatever order and
    however often, get the same mapping. *)
Theorem category_mapping_of_value_set `{PyLib} (s1 s2 : Pandas.series) :
  (∀ v, v ∈ s1 ↔ v ∈ s2) →
  TrainProcessor.category_mapping (Pandas.unique s1)
  = TrainProcessor.category_mapping (Pandas.unique s2).
Proof.
  intros Hsame. apply category_mapping_deterministic, fmap_Permutation.
  apply NoDup_Permutation; [apply NoDup_unique..|].
  intros v. by rewrite !elem_of_unique.
Qed.

(** The same two lines, once with a repetition and in another order. *)
Lemma category_mapping_of_value_set_witness :
  TrainProcessor.category_mapping (H := Reference.lib)
    (Pandas.unique [VStr "IC5"; VStr "IC21"; VStr "IC5"])
  = TrainProcessor.category_mapping (H := Reference.lib)
      (Pandas.unique [VStr "IC21"; VStr "IC5"]).
Proof.
  apply (category_mapping_of_value_set (H := Reference.lib)).
  intros v. rewrite !elem_of_cons, !elem_of_nil. tauto.
Defined.

(** X12. The entries ['False'] and ['True'] of the boolean table are never
    looked up, the values being lower-cased first: the encoded boolean
    column is the one the table of the two lower-case entries gives. *)
Theorem capitalised_keys_unused `{PyLib} (s : Pandas.series) :
  TrainProcessor.encode_bool_series s
  = Pandas.map_dict (<["true" := 1%nat]> (<["false" := 0%nat]> ∅))
      (Pandas.lower <$> Pandas.astype_str s).
Proof.
  unfold TrainProcessor.encode_bool_series, Pandas.map_dict.
  apply list_fmap_ext. intros _ k (o & -> & _)%list_elem_of_lookup_2%list_elem_of_fmap.
  destruct o as [x|]; [|reflexivity].
  change (Pandas.lower (Some x)) with (Some (Pandas.lower x)).
  cbn [mbind option_bind]. rewrite bool_mapping_lookup.
  destruct (lower_not_capitalised x) as [HF HT].
  rewrite (decide_False (P := _ = "True")), (decide_False (P := _ = "False")) by done.
  destruct (decide (Pandas.lower x = "true")) as [->|Ht]; [done|].
  rewrite lookup_insert_ne by done.
  destruct (decide (Pandas.lower x = "false")) as [->|Hf]; [done|].
  by rewrite lookup_insert_ne.
Qed.

(** ** Where the new columns go *)

Section new_columns.
Context `{PyLib}.
Import Pandas TrainProcessor Columns.

Lemma encode_columns_fresh (all l cols : list string) :
  NoDup l → l ⊆ all →
  (∀ c c', c ∈ all → c' ∈ all → c' ≠ encoded_name c) →
  (∀ c, c ∈ l → encoded_name c ∉ cols) →
  encode_columns cols l = cols ++ (encoded_name <$> filter (λ c, c ∈ cols) l).
Proof.
  unfold encode_columns. intros Hnd Hsub Hall. revert cols Hnd Hsub.
  induction l as [|c l IH]; intros cols Hnd Hsub Hfresh.
  - simpl. by rewrite app_nil_r.
  - apply NoDup_cons in Hnd as [Hc Hnd].
    assert (Hcall : c ∈ all) by (apply Hsub; by left).
    assert (Hlall : l ⊆ all) by (intros x Hx; apply Hsub; by right).
    rewrite foldl_cons_eq.
    assert (Hfilter : ∀ cols' : list string,
              (∀ x : string, x ∈ l → x ∈ cols' ↔ x ∈ cols) →
              filter (λ c, c ∈ cols') l = filter (λ c, c ∈ cols) l).
    { intros cols' Hiff. by apply filter_ext_in. }
    case_decide as Hin.
    + rewrite filter_cons_True by done.
      unfold add_column. rewrite decide_False by (apply Hfresh; by left).
      rewrite IH; [|done|done|].
      * rewrite Hfilter; [by rewrite <-(assoc_L (++))|].
        intros x Hx. rewrite elem_of_app, list_elem_of_singleton.
        split; [|by left]. intros [?|Heq]; [done|]. subst x.
        destruct (Hall c (encoded_name c)); auto.
      * intros x Hx. rewrite elem_of_app, list_elem_of_singleton.
        intros [Hx'|Heq].
        -- by apply (Hfresh x); [right|].
        -- apply encoded_name_inj in Heq as ->. done.
    + rewrite filter_cons_False by done.
      apply IH; [done|done|]. intros x Hx. apply Hfresh. by right.
Qed.

Lemma append_prefix_inj (t s1 s2 : string) : t +:+ s1 = t +:+ s2 → s1 = s2.
Proof. induction t as [|c t IH]; simpl; [done|]. intros [= Heq]. by apply IH. Qed.

Lemma getitem_assign_eq df kw c s :
  NoDup kw.*1 → (c, s) ∈ kw → getitem (assign df kw) c = Some s.
Proof.
  unfold assign. revert df. induction kw as [|[n s0] kw IH]; intros df Hnd Hin.
  - by apply elem_of_nil in Hin.
  - rewrite fmap_cons in Hnd. apply NoDup_cons in Hnd as [Hn Hnd].
    apply elem_of_cons in Hin as [[= -> ->]|Hin].
    + simpl. fold (assign (setitem df n s0) kw).
      rewrite getitem_assign_other by done. apply getitem_setitem_eq.
    + simpl. by apply IH.
Qed.

Lemma getitem_extract_components_eq df col s sf fld :
  getitem df col = Some s → (sf, fld) ∈ component_suffixes →
  getitem (extract_components df col) (col +:+ sf) = Some (dt_component fld s).
Proof.
  intros Hs Hsf. unfold extract_components. rewrite Hs.
  change (default [] (Some s)) with s.
  apply getitem_assign_eq.
  - rewrite <-list_fmap_compose.
    change (NoDup ((λ sf : string, col +:+ sf) <$> component_suffixes.*1)).
    apply NoDup_fmap_2_strong; [|compute_done].
    intros sf1 sf2 _ _. apply append_prefix_inj.
  - apply list_elem_of_fmap. by exists (sf, fld).
Qed.

End new_columns.

(** X13. When the configured lists are well named and the frame has no
    column with the encoded name of a listed column, the encoder appends
    the encoded columns after the columns of the frame, the boolean ones
    before the categorical ones and each group in the order of its list,
    one for every listed column the frame has; the columns of the frame keep
    their values. *)
Theorem encoder_appends `{PyLib} self e d ddf :
  TrainProcessor.well_named self →
  (∀ c, c ∈ TrainProcessor.bool_columns self ++ TrainProcessor.categorical_columns self →
        TrainProcessor.encoded_name c ∉ Pandas.columns ddf) →
  let ddf' := (TrainProcessor.encode_categorical_columns self e d ddf).2 in
  Pandas.columns ddf'
  = Pandas.columns ddf
    ++ (TrainProcessor.encoded_name
          <$> filter (λ c, c ∈ Pandas.columns ddf)
                (TrainProcessor.bool_columns self ++ TrainProcessor.categorical_columns self))
  ∧ (∀ c, c ∈ Pandas.columns ddf → Pandas.getitem ddf' c = Pandas.getitem ddf c).
Proof.
  intros [Hnd Hwn] Hfresh ddf'. unfold ddf'. clear ddf'.
  rewrite encode_categorical_columns_eq. cbn [snd]. split.
  - rewrite columns_encode_rounds, rounds_names. cbn [snd].
    apply (encode_columns_fresh
             (TrainProcessor.bool_columns self ++ TrainProcessor.categorical_columns self));
      [done|done| |done].
    intros c c' Hc Hc' ->. rewrite Forall_forall in Hwn. by apply (Hwn c).
  - intros c Hc. rewrite rounds_frame_other; [done|].
    rewrite rounds_names. intros (c' & -> & Hc')%list_elem_of_fmap.
    by apply (Hfresh c').
Qed.

(** The columns of the example after the encoder. *)
Lemma encoder_appends_witness :
  Pandas.columns Example.example_encode.2
  = Pandas.columns Example.table ++ ["ZUSATZFAHRT_TF_encoded"; "LINIEN_TEXT_encoded"].
Proof.
  destruct (encoder_appends (H := Reference.lib)
              (TrainProcessor.with_output TrainProcessor.__init__ Example.output)
              Example.world Example.empty_disk Example.table) as [Hcols _].
  - compute_done.
  - intros c Hc. revert c Hc. apply Forall_forall. compute_done.
  - exact Hcols.
Defined.

(** X14. For a timestamp pair whose two columns are there and parse, the
    frame after the round of the pair holds, for each of the two columns
    and each of the six suffixes, the calendar component of the converted
    column under the name of the column followed by the suffix. *)
Theorem timestamp_components `{PyLib} ddf pair a p a' p' :
  pair ∈ TrainProcessor.timestamp_pairs →
  Pandas.getitem ddf pair.1.1 = Some a → Pandas.getitem ddf pair.1.2 = Some p →
  Pandas.to_datetime_series a = Some a' → Pandas.to_datetime_series p = Some p' →
  ∃ ddf', TrainProcessor.process_pair ddf pair = Some ddf'
    ∧ ∀ sf fld, (sf, fld) ∈ TrainProcessor.component_suffixes →
        Pandas.getitem ddf' (pair.1.1 +:+ sf) = Some (Pandas.dt_component fld a')
        ∧ Pandas.getitem ddf' (pair.1.2 +:+ sf) = Some (Pandas.dt_component fld p').
Proof.
  intros Hpair Ha Hp Ha' Hp'.
  assert (Hnames : pair.1.1 ≠ pair.1.2
          ∧ Forall (λ sf, (pair.1.1 +:+ sf ∉ [pair.1.1; pair.1.2])
                          ∧ (pair.1.2 +:+ sf ∉ [pair.1.1; pair.1.2])
                          ∧ (pair.1.1 +:+ sf
                               ∉ (λ sf', pair.1.2 +:+ sf'.1) <$> TrainProcessor.component_suffixes))
                   TrainProcessor.component_suffixes.*1
          ∧ (pair.1.2 ∉ (λ sf', pair.1.1 +:+ sf'.1) <$> TrainProcessor.component_suffixes)
          ∧ (pair.2 ∉ [pair.1.1; pair.1.2])).
  { unfold TrainProcessor.timestamp_pairs in Hpair.
    apply elem_of_cons in Hpair as [->|Hpair];
      [|apply list_elem_of_singleton in Hpair as ->]; compute_done. }
  destruct pair as [[actual pred] diff]. cbn [fst snd] in *.
  destruct Hnames as (Hne & Hsf & Hpred & Hdiff).
  unfold TrainProcessor.process_pair.
  rewrite Ha, Hp, Ha'. cbn [mbind option_bind].
  rewrite getitem_setitem_ne, Hp by done. cbn [default from_option id].
  rewrite Hp'. cbn [mbind option_bind].
  eexists. split; [done|].
  intros sf fld Hin.
  assert (sf ∈ TrainProcessor.component_suffixes.*1) as Hsf'.
  { apply list_elem_of_fmap. by exists (sf, fld). }
  rewrite Forall_forall in Hsf. destruct (Hsf sf Hsf') as (Hn1 & Hn2 & Hn3).
  rewrite foldl_pair. split.
  - rewrite getitem_drop, decide_False by done.
    rewrite getitem_extract_components_other by done.
    apply getitem_extract_components_eq; [|done].
    rewrite getitem_setitem_ne by (intros ->; apply Hdiff; by left).
    rewrite getitem_setitem_ne by auto.
    apply getitem_setitem_eq.
  - rewrite getitem_drop, decide_False by done.
    apply getitem_extract_components_eq; [|done].
    rewrite getitem_extract_components_other by done.
    rewrite getitem_setitem_ne by (intros ->; apply Hdiff; right; by left).
    apply getitem_setitem_eq.
Qed.

(** The arrival pair of the example: weekdays of the actual and months of the predicted times. *)
Lemma timestamp_components_witness :
  ∃ ddf', TrainProcessor.process_pair (H := Reference.lib) Example.arrivals
            ("ANKUNFTSZEIT", "AN_PROGNOSE", "ARRIVAL_TIME_DIFF_SECONDS") = Some ddf'
    ∧ Pandas.getitem ddf' "ANKUNFTSZEIT_DAY_OF_WEEK" = Some [VInt 0; VInt 0; VInt 3]
    ∧ Pandas.getitem ddf' "AN_PROGNOSE_MONTH" = Some [VInt 1; VInt 1; VInt 2].
Proof.
  destruct (timestamp_components (H := Reference.lib) Example.arrivals
              ("ANKUNFTSZEIT", "AN_PROGNOSE", "ARRIVAL_TIME_DIFF_SECONDS")
              [VStr "2024-01-01T10:05:00"; VStr "2024-01-01T10:00:00"; VStr "01/02/2024 10:05:00"]
              [VStr "2024-01-01T10:00:00"; VStr "2024-01-01T10:05:00"; VStr "2024-02-01T10:00:00"]
              [VTime 1704103500000000000; VTime 1704103200000000000; VTime 1706781900000000000]
              [VTime 1704103200000000000; VTime 1704103500000000000; VTime 1706781600000000000])
    as (ddf' & Hrun & Hcomp).
  - compute_done.
  - reflexivity.
  - reflexivity.
  - vm_compute; reflexivity.
  - vm_compute; reflexivity.
  - exists ddf'. split; [exact Hrun|].
    split.
    + destruct (Hcomp "_DAY_OF_WEEK" DAY_OF_WEEK) as [Hw _]; [|exact Hw].
      unfold TrainProcessor.component_suffixes. rewrite !elem_of_cons. auto 10.
    + destruct (Hcomp "_MONTH" MONTH) as [_ Hm]; [|exact Hm].
      unfold TrainProcessor.component_suffixes. rewrite !elem_of_cons. auto 10.
Defined.

(** ** The path the legacy writer writes to *)

Section output_path.
Import DataProcessing.

Lemma prefix_app (old s : string) :
  String.prefix old s = true ↔ ∃ post, s = old +:+ post.
Proof.
  revert s. induction old as [|a old IH]; intros [|b s]; simpl.
  - split; [by exists EmptyString|done].
  - split; [by eexists|done].
  - split; [done|by intros [? ?]].
  - destruct (Ascii.ascii_dec a b) as [->|Hne].
    + rewrite IH. split; intros [post Hpost]; exists post; [by rewrite Hpost|].
      by injection Hpost.
    + split; [done|]. intros [post [= ? ?]]. done.
Qed.

Lemma replace_go_skip old new (t post : string) :
  replace_go old new (String.length t) (t +:+ post) = replace_go old new 0 post.
Proof. induction t as [|c t IH]; simpl; [by destruct post|done]. Qed.

Lemma replace_go_match old new post :
  old ≠ EmptyString →
  replace_go old new 0 (old +:+ post) = new +:+ replace_go old new 0 post.
Proof.
  destruct old as [|a old]; [done|]. intros _.
  change (String a old +:+ post) with (String a (old +:+ post)).
  cbn [replace_go].
  assert (String.prefix (String a old) (String a (old +:+ post)) = true) as ->.
  { apply prefix_app. by exists post. }
  f_equal. cbn [String.length]. rewrite Nat.sub_1_r. cbn [Nat.pred].
  apply replace_go_skip.
Qed.

Lemma replace_go_no_match old new s :
  (∀ pre post, s ≠ pre +:+ old +:+ post) → replace_go old new 0 s = s.
Proof.
  induction s as [|c s IH]; intros Hno; [done|]. cbn [replace_go].
  destruct (String.prefix old (String c s)) eqn:Hpre.
  - apply prefix_app in Hpre as [post Hpost]. by destruct (Hno EmptyString post).
  - f_equal. apply IH. intros pre post ->. by destruct (Hno (String c pre) post).
Qed.

Lemma replace_go_first old new pre post :
  old ≠ EmptyString →
  (∀ pre1 c pre2, pre = pre1 +:+ String c pre2 →
     String.prefix old (String c pre2 +:+ old +:+ post) = false) →
  replace_go old new 0 (pre +:+ old +:+ post)
  = pre +:+ new +:+ replace_go old new 0 post.
Proof.
  intros Hold. induction pre as [|c pre IH]; intros Hfirst.
  - exact (replace_go_match old new post Hold).
  - change (String c pre +:+ old +:+ post) with (String c (pre +:+ old +:+ post)).
    cbn [replace_go].
    assert (String.prefix old (String c (pre +:+ old +:+ post)) = false) as ->.
    { by apply (Hfirst EmptyString c pre). }
    change (String c pre +:+ new +:+ replace_go old new 0 post)
      with (String c (pre +:+ new +:+ replace_go old new 0 post)).
    f_equal. apply IH. intros pre1 c' pre2 ->.
    by apply (Hfirst (String c pre1) c' pre2).
Qed.

Lemma replace_csv_suffix (base : string) :
  (∀ pre post, base ≠ pre +:+ ".csv" +:+ post) →
  replace (base +:+ ".csv") ".csv" ".parquet" = base +:+ ".parquet".
Proof.
  intros Hno. unfold replace.
  pose proof (replace_go_first ".csv" ".parquet" base EmptyString) as Hrep.
  change (".csv" +:+ EmptyString) with ".csv" in Hrep.
  change (".parquet" +:+ replace_go ".csv" ".parquet" 0 EmptyString) with ".parquet" in Hrep.
  apply Hrep; [done|]. clear Hrep.
  intros pre1 c pre2 ->.
  destruct (String.prefix ".csv" (String c pre2 +:+ ".csv")) eqn:Hpre; [|done].
  exfalso. apply prefix_app in Hpre as [post Hpost].
  destruct pre2 as [|c2 [|c3 [|c4 pre2]]]; try discriminate Hpost.
  injection Hpost as -> -> -> -> Hpost.
  by destruct (Hno pre1 pre2).
Qed.

End output_path.

(** X15. The path the legacy writer writes to and returns: for a path
    [base.csv], where [base] has no [.csv] inside, it is [base.parquet]; a
    path without [.csv] is used as it is. *)
Theorem legacy_output_path `{PyLib} e d data (base : string) :
  (∀ pre post, base ≠ pre +:+ ".csv" +:+ post) →
  (∀ p d', DataProcessing.save_processed_data e d data (base +:+ ".csv") = (Some p, d') →
           p = base +:+ ".parquet" ∧ is_Some (datasets d' !! (base +:+ ".parquet")))
  ∧ (∀ p d', DataProcessing.save_processed_data e d data base = (Some p, d') →
             p = base ∧ is_Some (datasets d' !! base)).
Proof.
  intros Hno. split.
  - intros p d' (-> & ->)%save_processed_data_Some.
    rewrite replace_csv_suffix by done. split; [done|].
    simpl. rewrite lookup_insert_eq. by eexists.
  - intros p d' (-> & ->)%save_processed_data_Some.
    unfold DataProcessing.replace. rewrite replace_go_no_match by done.
    split; [done|]. simpl. rewrite lookup_insert_eq. by eexists.
Qed.

(** The path [out/processed.csv]. *)
Lemma legacy_output_path_witness :
  (DataProcessing.save_processed_data (H := Reference.lib) Example.world
     Example.empty_disk Example.table ("out/processed" +:+ ".csv")).1
  = Some ("out/processed" +:+ ".parquet").
Proof.
  destruct (legacy_output_path (H := Reference.lib) Example.world Example.empty_disk
              Example.table "out/processed") as [Hcsv _].
  - intros pre post Heq.
    do 13 (destruct pre as [|? pre]; [discriminate Heq|injection Heq as _ Heq]).
    destruct pre; discriminate Heq.
  - destruct (Hcsv "out/processed.parquet"
                (DataProcessing.save_processed_data (H := Reference.lib) Example.world
                   Example.empty_disk Example.table ("out/processed" +:+ ".csv")).2
                eq_refl) as [Hp _].
    reflexivity.
Defined.

(** ** What the run writes and what the validation reports *)

Section written.
Context `{PyLib}.
Import Pandas TrainProcessor Validation.

Lemma rev_app_app (s1 s2 acc : string) :
  String.rev_app (s1 +:+ s2) acc = String.rev_app s2 (String.rev_app s1 acc).
Proof. revert acc. induction s1 as [|a s1 IH]; intros acc; simpl; [done|apply IH]. Qed.

Lemma rev_app_acc (s acc : string) :
  String.rev_app s acc = String.rev_app s EmptyString +:+ acc.
Proof.
  revert acc. induction s as [|a s IH]; intros acc; simpl; [done|].
  rewrite (IH (String a acc)), (IH (String a EmptyString)).
  generalize (String.rev_app s EmptyString). intros r.
  induction r as [|b r IHr]; [done|].
  change (String b (r +:+ String a acc) = String b ((r +:+ String a EmptyString) +:+ acc)).
  by rewrite IHr.
Qed.

Lemma endswith_app (c suffix : string) : endswith (c +:+ suffix) suffix = true.
Proof.
  unfold endswith, String.rev.
  rewrite rev_app_app, (rev_app_acc suffix (String.rev_app c EmptyString)).
  apply prefix_app. by eexists.
Qed.

Lemma getitem_drop_originals self ddf c :
  c ∉ bool_columns self ++ categorical_columns self →
  getitem (drop_originals self ddf) c = getitem ddf c.
Proof.
  intros Hc. unfold drop_originals. rewrite getitem_drop.
  rewrite decide_False; [done|].
  intros [_ Hin]%list_elem_of_filter. done.
Qed.

(** The frame a successful run encodes and the data set it writes. *)
Lemma process_data_written self e d folder fs out exclude_columns delimiter p self' d' :
  well_named self →
  process_data self e d folder fs out exclude_columns delimiter = (Some p, self', d') →
  ∃ size ddf0 ddf pq,
    load e folder exclude_columns delimiter = Some (size, ddf0)
    ∧ process_timestamps (filter_stage ddf0 fs) = Some ddf
    ∧ datasets d' !! p = Some pq
    ∧ ∀ col enc s, (col, enc) ∈ rounds self → getitem ddf col = Some s →
        getitem (pq_frame pq) (encoded_name col) = Some (enc s).2
        ∧ encoding_maps self' !! col = Some (enc s).1.
Proof.
  intros [Hnd Hwn] Hrun. apply process_data_Some in Hrun
    as (size & ddf0 & ddf & d1 & ddf1 & Hload & Hts & Henc & -> & ->).
  exists size, ddf0, ddf. eexists. split_and!; [done|done|..].
  { simpl. by rewrite lookup_insert_eq. }
  intros col enc s Hin Hs. cbn [pq_frame].
  rewrite encode_categorical_columns_eq in Henc. cbv zeta in Henc.
  injection Henc as <- _ <-.
  change (rounds (with_output self out)) with (rounds self).
  cbn [encoding_maps with_output with_maps].
  assert (Hcol : col ∈ bool_columns self ++ categorical_columns self).
  { rewrite <-rounds_names. apply list_elem_of_fmap. by exists (col, enc). }
  rewrite getitem_drop_originals.
  - apply and_comm.
    apply (rounds_present (rounds self) (encoding_maps self, ddf) col enc s);
      rewrite ?rounds_names; done.
  - cbn [bool_columns categorical_columns with_maps with_output].
    rewrite Forall_forall in Hwn. by apply Hwn.
Qed.

(** The validation counts the codes of the rows that hold a value. *)
Lemma value_counts_len_categorical (s : series) :
  Forall (λ v, v = VNaN ∨ ∃ t, v = VStr t ∧ t ≠ "<NA>") s →
  value_counts_len (categorical_encoder s).2
  = length (unique (filter (λ v, v ≠ VNaN) s)).
Proof.
  intros Hall. unfold value_counts_len.
  destruct (categorical_rows s) as [Hrow Hmiss].
  pose (code := λ v, VInt (Z.of_nat (default 0%nat
                                       (category_mapping (unique s) !! str v)))).
  assert (remove_dups (filter (λ v, v ≠ VNaN) (categorical_encoder s).2)
          ≡ₚ code <$> unique (filter (λ v, v ≠ VNaN) s)) as ->.
  { apply NoDup_Permutation; [apply NoDup_remove_dups| |].
    - apply NoDup_fmap_2_strong; [|apply NoDup_unique].
      intros v w Hv Hw Heq.
      apply (proj1 (elem_of_unique _ _)) in Hv. apply (proj1 (elem_of_unique _ _)) in Hw.
      apply list_elem_of_filter in Hv as [_ Hv]. apply list_elem_of_filter in Hw as [_ Hw].
      apply (categorical_injective s v w Hall Hv Hw).
      destruct (category_mapping_total s v Hv) as (n & Hn & _).
      destruct (category_mapping_total s w Hw) as (m & Hm & _).
      unfold code in Heq. rewrite Hn, Hm in Heq. simpl in Heq.
      rewrite Hn, Hm. f_equal. injection Heq as Heq. lia.
    - intros x. rewrite elem_of_remove_dups, list_elem_of_filter, list_elem_of_fmap.
      split.
      + intros [Hx (i & Hi)%list_elem_of_lookup].
        destruct (categorical_encoder_lookup_inv s i x Hi) as [v Hv].
        destruct (decide (v = VNaN)) as [->|Hne].
        { rewrite (Hmiss i Hv) in Hi. by injection Hi as <-. }
        destruct (Hrow i v Hv Hne) as (n & Hn & _ & Hc).
        exists v. split.
        * unfold code. rewrite Hn. simpl. congruence.
        * apply elem_of_unique, list_elem_of_filter. split; [done|].
          by eapply list_elem_of_lookup_2.
      + intros (v & -> & Hv).
        apply (proj1 (elem_of_unique _ _)) in Hv.
        apply list_elem_of_filter in Hv as [Hne (i & Hi)%list_elem_of_lookup].
        destruct (Hrow i v Hi Hne) as (n & Hn & _ & Hc).
        unfold code. rewrite Hn. simpl. split; [done|].
        by eapply list_elem_of_lookup_2. }
  by rewrite length_fmap.
Qed.

Lemma value_counts_len_bool (s : series) :
  (value_counts_len (encode_bool_series s) ≤ 2)%nat.
Proof.
  unfold value_counts_len.
  assert (remove_dups (filter (λ v, v ≠ VNaN) (encode_bool_series s))
          ⊆+ [VInt 0; VInt 1]) as Hsub.
  { apply NoDup_submseteq; [apply NoDup_remove_dups|].
    intros x. rewrite elem_of_remove_dups, list_elem_of_filter.
    rewrite encode_bool_series_fmap. intros [Hx (v & -> & _)%list_elem_of_fmap].
    revert Hx. unfold Spec.bool_code. repeat case_decide; try done.
    - intros _. by left.
    - intros _. right. by left. }
  by apply submseteq_length in Hsub.
Qed.

End written.

(** X16. In the data set a successful run wrote, with well-named lists,
    every listed column that was in the frame after the filter and
    timestamp stages has its encoded column: for a boolean column the
    boolean codes of the filtered values, for a categorical column the
    codes under the mapping built from the filtered values, a missing
    value staying missing; the encoding table of the object holds the table
    that was used. *)
Theorem run_writes_encoded_columns `{PyLib}
    self e d folder fs out exclude_columns delimiter p self' d' :
  TrainProcessor.well_named self →
  TrainProcessor.process_data self e d folder fs out exclude_columns delimiter
  = (Some p, self', d') →
  ∃ size ddf0 ddf pq,
    TrainProcessor.load e folder exclude_columns delimiter = Some (size, ddf0)
    ∧ TrainProcessor.process_timestamps (TrainProcessor.filter_stage ddf0 fs) = Some ddf
    ∧ datasets d' !! p = Some pq
    ∧ (∀ col s, col ∈ TrainProcessor.bool_columns self →
         Pandas.getitem ddf col = Some s →
         Pandas.getitem (pq_frame pq) (TrainProcessor.encoded_name col)
         = Some (TrainProcessor.encode_bool_series s)
         ∧ TrainProcessor.encoding_maps self' !! col = Some TrainProcessor.bool_mapping)
    ∧ (∀ col s, col ∈ TrainProcessor.categorical_columns self →
         Pandas.getitem ddf col = Some s →
         Pandas.getitem (pq_frame pq) (TrainProcessor.encoded_name col)
         = Some (Pandas.map_dict (TrainProcessor.category_mapping (Pandas.unique s))
                   (Pandas.astype_str s))
         ∧ TrainProcessor.encoding_maps self' !! col
           = Some (TrainProcessor.category_mapping (Pandas.unique s))).
Proof.
  intros Hwn Hrun.
  destruct (process_data_written _ _ _ _ _ _ _ _ _ _ _ Hwn Hrun)
    as (size & ddf0 & ddf & pq & Hload & Hts & Hpq & Henc).
  exists size, ddf0, ddf, pq. split_and!; [done..| |].
  - intros col s Hcol Hs.
    apply (Henc col TrainProcessor.bool_encoder s); [|done].
    unfold TrainProcessor.rounds. apply elem_of_app. left.
    apply list_elem_of_fmap. by exists col.
  - intros col s Hcol Hs.
    apply (Henc col TrainProcessor.categorical_encoder s); [|done].
    unfold TrainProcessor.rounds. apply elem_of_app. right.
    apply list_elem_of_fmap. by exists col.
Qed.

(** The encoded line column the example run wrote. *)
Lemma run_writes_encoded_columns_witness :
  ∃ pq, datasets (Example.run [] []).2 !! Example.output = Some pq
        ∧ Pandas.getitem (pq_frame pq) "LINIEN_TEXT_encoded" = Some [VInt 1; VInt 0].
Proof.
  destruct (run_writes_encoded_columns (H := Reference.lib) TrainProcessor.__init__
              Example.world Example.empty_disk "data/train" [] Example.output [] ";"
              Example.output (Example.run [] []).1.2 (Example.run [] []).2)
    as (size & ddf0 & ddf & pq & Hload & Hts & Hpq & _ & Hcat).
  - compute_done.
  - reflexivity.
  - exists pq. split; [exact Hpq|].
    assert (Some ddf = TrainProcessor.process_timestamps (H := Reference.lib)
                         (TrainProcessor.filter_stage Example.table [])) as Hddf.
    { rewrite <-Hts. injection Hload as _ <-. reflexivity. }
    destruct (Hcat "LINIEN_TEXT" [VStr "IC5"; VStr "IC21"]) as [Hcol _].
    + compute_done.
    + vm_compute in Hddf. injection Hddf as ->. reflexivity.
    + exact Hcol.
Defined.

(** X17. The validation of the data set a successful run wrote succeeds
    and lists the columns of that data set.  For a categorical column as
    [read_csv] delivers it (strings and missing values, the text ["<NA>"]
    having been read as missing), the entry of its encoded column reports
    the number [N] of distinct values of the filtered column, missing
    values not counted, and the range ["0 to N-1"]; for a boolean column
    the entry reports at most two values. *)
Theorem validation_of_run `{PyLib}
    self e d folder fs out exclude_columns delimiter p self' d' :
  TrainProcessor.well_named self →
  TrainProcessor.process_data self e d folder fs out exclude_columns delimiter
  = (Some p, self', d') →
  ∃ size ddf0 ddf pq st,
    TrainProcessor.load e folder exclude_columns delimiter = Some (size, ddf0)
    ∧ TrainProcessor.process_timestamps (TrainProcessor.filter_stage ddf0 fs) = Some ddf
    ∧ datasets d' !! p = Some pq
    ∧ Validation.validate_parquet d' p = (true, Some st)
    ∧ Validation.stats_columns st = Pandas.columns (pq_frame pq)
    ∧ (∀ col s, col ∈ TrainProcessor.categorical_columns self →
         Pandas.getitem ddf col = Some s →
         Forall (λ v, v = VNaN ∨ ∃ t, v = VStr t ∧ t ≠ "<NA>") s →
         let n := length (Pandas.unique (filter (λ v, v ≠ VNaN) s)) in
         (TrainProcessor.encoded_name col,
          {| Validation.unique_values := n;
             Validation.value_range := "0 to " +:+ pretty (Z.of_nat n - 1) |})
         ∈ Validation.encoded_columns st)
    ∧ (∀ col s, col ∈ TrainProcessor.bool_columns self →
         Pandas.getitem ddf col = Some s →
         ∃ cs, (TrainProcessor.encoded_name col, cs) ∈ Validation.encoded_columns st
               ∧ (Validation.unique_values cs ≤ 2)%nat).
Proof.
  intros Hwn Hrun.
  destruct (process_data_written _ _ _ _ _ _ _ _ _ _ _ Hwn Hrun)
    as (size & ddf0 & ddf & pq & Hload & Hts & Hpq & Henc).
  exists size, ddf0, ddf, pq. eexists.
  split_and!; [done|done|done| | | |].
  - unfold Validation.validate_parquet. rewrite Hpq. reflexivity.
  - done.
  - intros col s Hcol Hs Hcsv n. subst n. cbn [Validation.encoded_columns].
    destruct (Henc col TrainProcessor.categorical_encoder s) as [Hcolumn _]; [|done|].
    { unfold TrainProcessor.rounds. apply elem_of_app. right.
      apply list_elem_of_fmap. by exists col. }
    apply list_elem_of_fmap. exists (TrainProcessor.encoded_name col). split.
    + rewrite Hcolumn. cbn [default from_option id]. unfold Validation.encoded_stats.
      by rewrite value_counts_len_categorical.
    + apply list_elem_of_filter. split; [apply endswith_app|].
      by eapply getitem_Some_columns.
  - intros col s Hcol Hs. cbn [Validation.encoded_columns].
    destruct (Henc col TrainProcessor.bool_encoder s) as [Hcolumn _]; [|done|].
    { unfold TrainProcessor.rounds. apply elem_of_app. left.
      apply list_elem_of_fmap. by exists col. }
    eexists. split.
    + apply list_elem_of_fmap. exists (TrainProcessor.encoded_name col). split; [done|].
      apply list_elem_of_filter. split; [apply endswith_app|].
      by eapply getitem_Some_columns.
    + rewrite Hcolumn. cbn [default from_option id Validation.encoded_stats
                            Validation.unique_values].
      apply value_counts_len_bool.
Qed.

(** The validation of the example run: the entry of the encoded line
    column, whose two rows hold two lines. *)
Lemma validation_of_run_witness :
  ∃ st, Validation.validate_parquet (Example.run [] []).2 Example.output = (true, Some st)
        ∧ ("LINIEN_TEXT_encoded",
           {| Validation.unique_values := 2; Validation.value_range := "0 to 1" |})
          ∈ Validation.encoded_columns st.
Proof.
  destruct (validation_of_run (H := Reference.lib) TrainProcessor.__init__
              Example.world Example.empty_disk "data/train" [] Example.output [] ";"
              Example.output (Example.run [] []).1.2 (Example.run [] []).2)
    as (size & ddf0 & ddf & pq & st & Hload & Hts & _ & Hval & _ & Hcat & _).
  - compute_done.
  - reflexivity.
  - exists st. split; [exact Hval|].
    assert (Some ddf = TrainProcessor.process_timestamps (H := Reference.lib)
                         (TrainProcessor.filter_stage Example.table [])) as Hddf.
    { rewrite <-Hts. injection Hload as _ <-. reflexivity. }
    apply (Hcat "LINIEN_TEXT" [VStr "IC5"; VStr "IC21"]).
    + compute_done.
    + vm_compute in Hddf. injection Hddf as ->. reflexivity.
    + repeat (apply Forall_cons; split;
        [right; eexists; split; [reflexivity|discriminate]|]).
      apply Forall_nil_2.
Defined.

(** ** The analysis of a written data set *)

Section analysis.
Context `{PyLib}.
Import Pandas TrainProcessor Columns Analysis.

Lemma timestamp_pairs_cases (P : string * string * string → Prop) :
  P ("ANKUNFTSZEIT", "AN_PROGNOSE", "ARRIVAL_TIME_DIFF_SECONDS") →
  P ("ABFAHRTSZEIT", "AB_PROGNOSE", "DEPARTURE_TIME_DIFF_SECONDS") →
  ∀ pair, pair ∈ timestamp_pairs → P pair.
Proof.
  intros H1 H2 pair Hin. unfold timestamp_pairs in Hin.
  apply elem_of_cons in Hin as [->|Hin]; [done|].
  by apply list_elem_of_singleton in Hin as ->.
Qed.

Lemma foldl_pair_columns_eq cols :
  foldl pair_columns cols timestamp_pairs
  = pair_columns
      (pair_columns cols ("ANKUNFTSZEIT", "AN_PROGNOSE", "ARRIVAL_TIME_DIFF_SECONDS"))
      ("ABFAHRTSZEIT", "AB_PROGNOSE", "DEPARTURE_TIME_DIFF_SECONDS").
Proof. reflexivity. Qed.

(** The difference column of a pair that is not complete is not made. *)
Lemma diff_column_absent needed pair :
  pair ∈ timestamp_pairs → pair.2 ∉ needed →
  ¬ (pair.1.1 ∈ needed ∧ pair.1.2 ∈ needed) →
  pair.2 ∉ foldl pair_columns (real_columns needed) timestamp_pairs.
Proof.
  intros Hpair. revert pair Hpair.
  apply (timestamp_pairs_cases (λ pair, _ → _ → _)); cbn [fst snd];
    intros Hdiff Hno; rewrite foldl_pair_columns_eq.
  - rewrite (pair_columns_incomplete (real_columns needed)).
    + intros [Hin|Hin]%elem_of_pair_columns_weak.
      * cbn [fst snd] in Hin. revert Hin. compute_done.
      * by apply real_columns_subseteq in Hin.
    + cbn [fst snd]. intros [H1 H2]. apply Hno.
      split; by apply real_columns_subseteq.
  - rewrite (pair_columns_incomplete (pair_columns _ _)).
    + intros [Hin|Hin]%elem_of_pair_columns_weak.
      * cbn [fst snd] in Hin. revert Hin. compute_done.
      * by apply real_columns_subseteq in Hin.
    + cbn [fst snd]. intros [H1 H2]. apply Hno. split.
      * apply elem_of_pair_columns_weak in H1 as [H1|H1];
          [cbn [fst snd] in H1; revert H1; compute_done|].
        by apply real_columns_subseteq in H1.
      * apply elem_of_pair_columns_weak in H2 as [H2|H2];
          [cbn [fst snd] in H2; revert H2; compute_done|].
        by apply real_columns_subseteq in H2.
Qed.

(** The difference columns of complete pairs are made. *)
Lemma diff_column_present needed pair :
  (∀ pair, pair ∈ timestamp_pairs → pair.1.1 ∈ needed ∧ pair.1.2 ∈ needed) →
  pair ∈ timestamp_pairs →
  pair.2 ∈ foldl pair_columns (real_columns needed) timestamp_pairs.
Proof.
  intros Hall.
  destruct (Hall ("ANKUNFTSZEIT", "AN_PROGNOSE", "ARRIVAL_TIME_DIFF_SECONDS"))
    as [Ha1 Ha2]; [compute_done|].
  destruct (Hall ("ABFAHRTSZEIT", "AB_PROGNOSE", "DEPARTURE_TIME_DIFF_SECONDS"))
    as [Hb1 Hb2]; [compute_done|].
  cbn [fst snd] in *.
  assert (∀ x, x ∈ needed → x ∉ status_columns → x ∈ real_columns needed) as Hreal.
  { intros x. apply real_columns_keeps. }
  revert pair. apply timestamp_pairs_cases; cbn [fst snd]; rewrite foldl_pair_columns_eq.
  - apply pair_columns_keeps; [|cbn [fst snd]; compute_done].
    apply elem_of_pair_columns. cbn [fst snd].
    rewrite decide_True by (split; apply Hreal; [done|compute_done|done|compute_done]).
    split; [compute_done|]. left. by left.
  - apply elem_of_pair_columns. cbn [fst snd].
    rewrite decide_True.
    + split; [compute_done|]. left. by left.
    + split; (apply pair_columns_keeps; [apply Hreal; [done|compute_done]|]);
        cbn [fst snd]; compute_done.
Qed.

Lemma required_not_encoded c x : x ∈ required_cols → encoded_name c ≠ x.
Proof.
  intros Hx. apply encoded_name_apart. revert x Hx. apply Forall_forall.
  unfold required_cols. repeat constructor.
Qed.

Lemma feature_suffix_not_required c :
  endswith_any c feature_suffixes = true → c ∉ required_cols.
Proof.
  intros Hany Hreq. revert Hany.
  unfold required_cols in Hreq.
  apply elem_of_cons in Hreq as [->|Hreq];
    [|apply list_elem_of_singleton in Hreq as ->]; vm_compute; discriminate.
Qed.

End analysis.

(** X18. The feature columns of the analysis are the columns whose name
    ends in one of the seven suffixes: the test that leaves the two target
    columns out never removes a column, as no target name has such a
    suffix. *)
Theorem features_by_suffix (cols : list string) :
  Analysis.feature_cols cols
  = filter (λ col, Analysis.endswith_any col Analysis.feature_suffixes = true) cols.
Proof.
  unfold Analysis.feature_cols. apply filter_ext_in. intros c _. split; [by intros [? _]|].
  intros Hc. split; [done|]. by apply feature_suffix_not_required.
Qed.

(** X19. The analysis of the data set a successful run wrote.  When a
    timestamp pair was not read completely (and the file has no column with
    the name of its difference column), the difference column is missing
    and [analyze_delays] returns [None]; when both pairs were read and no
    target column is in the configured lists, the analysis gets past its
    check and goes on with the written frame and its feature columns. *)
Theorem analysis_after_run `{PyLib} {M : Type} (fit : Pandas.frame → list string → option M)
    self e d folder fs out exclude_columns delimiter p self' d' :
  TrainProcessor.process_data self e d folder fs out exclude_columns delimiter
  = (Some p, self', d') →
  ∃ data_files content pq,
    TrainProcessor.csv_files e folder = Some data_files
    ∧ read_csv e data_files delimiter = Some content
    ∧ datasets d' !! p = Some pq
    ∧ let needed := filter (λ col, col ∉ exclude_columns) (Pandas.columns content) in
      (∀ pair, pair ∈ TrainProcessor.timestamp_pairs → pair.2 ∉ needed →
         ¬ (pair.1.1 ∈ needed ∧ pair.1.2 ∈ needed) →
         Analysis.analyze_delays fit d' p = None)
      ∧ ((∀ pair, pair ∈ TrainProcessor.timestamp_pairs →
            pair.1.1 ∈ needed ∧ pair.1.2 ∈ needed) →
         (∀ c, c ∈ Analysis.required_cols →
            c ∉ TrainProcessor.bool_columns self ++ TrainProcessor.categorical_columns self) →
         Analysis.analyze_delays fit d' p
         = fit (pq_frame pq) (Analysis.feature_cols (Pandas.columns (pq_frame pq)))).
Proof.
  intros Hrun. apply process_data_columns in Hrun
    as (data_files & content & pq & Hfiles & Hcsv & Hpq & Hcols).
  exists data_files, content, pq. split_and!; [done..|].
  cbv zeta. set (needed := filter _ (Pandas.columns content)) in *.
  unfold Analysis.analyze_delays. rewrite Hpq. cbv zeta. rewrite Hcols. split.
  - intros pair Hpair Hdiff Hno. rewrite decide_False; [done|].
    intros Hall. rewrite Forall_forall in Hall.
    assert (pair.2 ∈ Analysis.required_cols) as Hreq.
    { clear Hdiff Hno. revert pair Hpair. apply timestamp_pairs_cases; compute_done. }
    specialize (Hall _ Hreq). unfold Columns.final_columns in Hall.
    apply list_elem_of_filter in Hall as [_ Hin].
    apply elem_of_encode_columns_inv in Hin as [Hin|(c & _ & Hc)].
    + by apply (diff_column_absent needed pair).
    + symmetry in Hc. by apply required_not_encoded in Hc.
  - intros Hall Hlisted. rewrite decide_True; [done|].
    apply Forall_forall. intros c Hc.
    unfold Columns.final_columns. apply list_elem_of_filter. split.
    + intros [_ Hin]%list_elem_of_filter. by apply (Hlisted c).
    + apply elem_of_encode_columns_mono.
      unfold Analysis.required_cols in Hc.
      apply elem_of_cons in Hc as [->|Hc];
        [|apply list_elem_of_singleton in Hc as ->].
      * apply (diff_column_present needed
                 ("ABFAHRTSZEIT", "AB_PROGNOSE", "DEPARTURE_TIME_DIFF_SECONDS"));
          [done|compute_done].
      * apply (diff_column_present needed
                 ("ANKUNFTSZEIT", "AN_PROGNOSE", "ARRIVAL_TIME_DIFF_SECONDS"));
          [done|compute_done].
Qed.

(** The example run with the actual arrival time excluded: the analysis gives nothing. *)
Lemma analysis_after_run_witness :
  Analysis.analyze_delays (λ _ features, Some features)
    (Example.run [] ["ANKUNFTSZEIT"]).2 Example.output = None.
Proof.
  destruct (analysis_after_run (H := Reference.lib) (λ _ features, Some features)
              TrainProcessor.__init__ Example.world Example.empty_disk "data/train" []
              Example.output ["ANKUNFTSZEIT"] ";" Example.output
              (Example.run [] ["ANKUNFTSZEIT"]).1.2 (Example.run [] ["ANKUNFTSZEIT"]).2)
    as (data_files & content & pq & Hfiles & Hcsv & _ & Hnone & _).
  { reflexivity. }
  injection Hfiles as <-. injection Hcsv as <-.
  apply (Hnone ("ANKUNFTSZEIT", "AN_PROGNOSE", "ARRIVAL_TIME_DIFF_SECONDS")).
  - compute_done.
  - compute_done.
  - intros [Hin _]. revert Hin. compute_done.
Defined.

(** ** A timestamp that cannot be read *)

Section unreadable.
Context `{PyLib}.
Import Pandas TrainProcessor.

Lemma to_datetime_series_None (s : series) x :
  x ∈ s → to_datetime true x = None → to_datetime_series s = None.
Proof.
  intros Hx Hnone. unfold to_datetime_series. apply mapM_None, Exists_exists.
  exists x. split; [done|]. by rewrite Hnone.
Qed.

Lemma process_pair_fail ddf actual pred diff a p :
  actual ≠ pred →
  getitem ddf actual = Some a → getitem ddf pred = Some p →
  to_datetime_series a = None ∨ to_datetime_series p = None →
  process_pair ddf (actual, pred, diff) = None.
Proof.
  intros Hne Ha Hp Hfail. unfold process_pair. rewrite Ha, Hp.
  destruct (to_datetime_series a) as [a'|] eqn:Ha'; [|done].
  destruct Hfail as [|Hp']; [done|]. cbn [mbind option_bind].
  rewrite getitem_setitem_ne, Hp by done. cbn [default from_option id].
  by rewrite Hp'.
Qed.

Lemma process_pair_other ddf actual pred diff ddf' c :
  process_pair ddf (actual, pred, diff) = Some ddf' →
  c ∉ [actual; pred; diff] →
  c ∉ (λ sf, actual +:+ sf.1) <$> component_suffixes →
  c ∉ (λ sf, pred +:+ sf.1) <$> component_suffixes →
  getitem ddf' c = getitem ddf c.
Proof.
  intros Hrun Hc Hca Hcp. unfold process_pair in Hrun.
  apply not_elem_of_cons in Hc as [Hc1 Hc]. apply not_elem_of_cons in Hc as [Hc2 Hc].
  apply not_elem_of_cons in Hc as [Hc3 _].
  destruct (getitem ddf actual) as [a|]; [|by injection Hrun as <-].
  destruct (getitem ddf pred) as [p|] eqn:Hp; [|by injection Hrun as <-].
  destruct (to_datetime_series a) as [a'|]; [|done]. cbn [mbind option_bind] in Hrun.
  destruct (to_datetime_series _) as [p'|]; [|done]. cbn [mbind option_bind] in Hrun.
  apply (inj Some) in Hrun. rewrite <-Hrun.
  rewrite getitem_drop, decide_False.
  - rewrite foldl_pair, !getitem_extract_components_other by done.
    by rewrite !getitem_setitem_ne by done.
  - rewrite !not_elem_of_cons. split_and!; [done|done|apply not_elem_of_nil].
Qed.

Lemma process_timestamps_fail ddf pair a p x :
  pair ∈ timestamp_pairs →
  getitem ddf pair.1.1 = Some a → getitem ddf pair.1.2 = Some p →
  x ∈ a ++ p → to_datetime true x = None →
  process_timestamps ddf = None.
Proof.
  intros Hpair Ha Hp Hx Hnone.
  assert (to_datetime_series a = None ∨ to_datetime_series p = None) as Hfail.
  { apply elem_of_app in Hx as [Hx|Hx]; [left|right];
      by apply (to_datetime_series_None _ x). }
  unfold process_timestamps, timestamp_pairs in *. rewrite foldl_pair.
  apply elem_of_cons in Hpair as [->|Hpair];
    [|apply list_elem_of_singleton in Hpair as ->]; cbn [fst snd] in *.
  - cbv beta. cbn [mbind option_bind].
    by rewrite (process_pair_fail ddf _ _ _ a p).
  - cbv beta. cbn [mbind option_bind].
    destruct (process_pair ddf _) as [ddf1|] eqn:H1; [|done].
    apply (process_pair_fail ddf1 _ _ _ a p); [done| | |done].
    + rewrite (process_pair_other _ _ _ _ _ _ H1); [done|compute_done..].
    + rewrite (process_pair_other _ _ _ _ _ _ H1); [done|compute_done..].
Qed.

End unreadable.

(** X20. One timestamp that the parser rejects, in a row that is left
    after the filter stage and in a pair whose two columns are there, makes
    [process_data] return [None]. *)
Theorem unparsable_timestamp `{PyLib}
    self e d folder fs out exclude_columns delimiter size ddf0 pair a p x :
  TrainProcessor.load e folder exclude_columns delimiter = Some (size, ddf0) →
  pair ∈ TrainProcessor.timestamp_pairs →
  Pandas.getitem (TrainProcessor.filter_stage ddf0 fs) pair.1.1 = Some a →
  Pandas.getitem (TrainProcessor.filter_stage ddf0 fs) pair.1.2 = Some p →
  x ∈ a ++ p → to_datetime true x = None →
  (TrainProcessor.process_data self e d folder fs out exclude_columns delimiter).1.1 = None.
Proof.
  intros Hload Hpair Ha Hp Hx Hnone. unfold TrainProcessor.process_data.
  rewrite Hload. by rewrite (process_timestamps_fail _ pair a p x).
Qed.

(** The example with one predicted departure time that is no date. *)
Lemma unparsable_timestamp_witness :
  let e := {| listdir := listdir Example.world;
              getsize := getsize Example.world;
              read_csv := λ _ _,
                Some (Pandas.setitem Example.table "AB_PROGNOSE"
                        [VStr "01.01.2024 10:07:10"; VStr "soon"; VStr "02.01.2024 09:02:00"]);
              writable := writable Example.world |} in
  (TrainProcessor.process_data (H := Reference.lib) TrainProcessor.__init__ e
     Example.empty_disk "data/train" [] Example.output [] ";").1.1 = None.
Proof.
  intros e.
  eapply (unparsable_timestamp (H := Reference.lib) TrainProcessor.__init__ e
            Example.empty_disk "data/train" [] Example.output [] ";" _ _
            ("ABFAHRTSZEIT", "AB_PROGNOSE", "DEPARTURE_TIME_DIFF_SECONDS")
            _ _ (VStr "soon")).
  - reflexivity.
  - compute_done.
  - reflexivity.
  - reflexivity.
  - compute_done.
  - reflexivity.
Defined.

(** X21. The range the validation reports is made from the count of
    distinct values alone: for a boolean column in which no value
    lower-cases to ["false"] and some value lower-cases to ["true"], the
    entry reports one value and the range ["0 to 0"], while the encoded
    column holds the code 1 and never the code 0. *)
Theorem boolean_value_range `{PyLib} (s : Pandas.series) :
  Forall (λ v, Pandas.lower (Pandas.str v) ≠ "false") s →
  Exists (λ v, Pandas.lower (Pandas.str v) = "true") s →
  Validation.encoded_stats (TrainProcessor.encode_bool_series s)
  = {| Validation.unique_values := 1; Validation.value_range := "0 to 0" |}
  ∧ (VInt 0 ∉ TrainProcessor.encode_bool_series s)
  ∧ VInt 1 ∈ TrainProcessor.encode_bool_series s.
Proof.
  intros Hnofalse Htrue. rewrite Forall_forall in Hnofalse.
  apply Exists_exists in Htrue as (t & Ht & Htt).
  assert (H0 : VInt 0 ∉ TrainProcessor.encode_bool_series s).
  { rewrite encode_bool_series_fmap. intros (v & Hv & Hin)%list_elem_of_fmap.
    specialize (Hnofalse v Hin). revert Hv. unfold Spec.bool_code.
    repeat case_decide; done. }
  assert (H1 : VInt 1 ∈ TrainProcessor.encode_bool_series s).
  { rewrite encode_bool_series_fmap. apply list_elem_of_fmap. exists t. split; [|done].
    unfold Spec.bool_code. rewrite decide_False by congruence. by rewrite decide_True. }
  split_and!; [|done|done].
  unfold Validation.encoded_stats.
  assert (Validation.value_counts_len (TrainProcessor.encode_bool_series s) = 1%nat) as ->;
    [|reflexivity].
  unfold Validation.value_counts_len.
  assert (remove_dups (filter (λ v, v ≠ VNaN) (TrainProcessor.encode_bool_series s))
          ≡ₚ [VInt 1]) as ->; [|done].
  apply NoDup_Permutation; [apply NoDup_remove_dups|apply NoDup_singleton|].
  intros x. rewrite elem_of_remove_dups, list_elem_of_filter, list_elem_of_singleton.
  split; [|by intros ->].
  intros [Hx Hin]. pose proof Hin as Hin'. revert Hin'.
  rewrite encode_bool_series_fmap. intros (v & -> & Hv)%list_elem_of_fmap.
  specialize (Hnofalse v Hv). revert Hx. unfold Spec.bool_code.
  repeat case_decide; done.
Qed.

(** A boolean column of true values and a missing one. *)
Lemma boolean_value_range_witness :
  Validation.encoded_stats
    (TrainProcessor.encode_bool_series (H := Reference.lib) [VStr "true"; VNaN; VStr "True"])
  = {| Validation.unique_values := 1; Validation.value_range := "0 to 0" |}.
Proof.
  apply (boolean_value_range (H := Reference.lib) [VStr "true"; VNaN; VStr "True"]).
  - repeat constructor; discriminate.
  - apply Exists_cons_hd. reflexivity.
Defined.

(** X22. A missing time gives a missing difference: in a row where the
    actual or the predicted time converts to the missing timestamp, the
    difference of the two converted columns is missing; and the difference
    has as many rows as the shorter of the two columns. *)
Theorem missing_time_difference `{PyLib} (a p a' p' : Pandas.series) i x y :
  Pandas.to_datetime_series a = Some a' → Pandas.to_datetime_series p = Some p' →
  a !! i = Some x → p !! i = Some y →
  to_datetime true x = Some None ∨ to_datetime true y = Some None →
  Pandas.time_difference a' p' !! i = Some VNaN
  ∧ length (Pandas.time_difference a' p') = min (length a) (length p).
Proof.
  intros Ha Hp Hx Hy Hmissing.
  destruct (to_datetime_series_lookup _ _ _ _ Ha Hx) as (t1 & Ht1 & Hx').
  destruct (to_datetime_series_lookup _ _ _ _ Hp Hy) as (t2 & Ht2 & Hy').
  split.
  - unfold Pandas.time_difference. rewrite lookup_zip_with, Hx', Hy'. simpl.
    destruct Hmissing as [Hm|Hm].
    + rewrite Hm in Ht1. injection Ht1 as <-. done.
    + rewrite Hm in Ht2. injection Ht2 as <-. by destruct t1.
  - unfold Pandas.time_difference, Pandas.to_datetime_series in *.
    rewrite length_zip_with.
    by rewrite <-(length_mapM _ _ _ Ha), <-(length_mapM _ _ _ Hp).
Qed.

(** A row with a missing prediction. *)
Lemma missing_time_difference_witness :
  Pandas.time_difference [VTime 1704103500000000000; VTime 1704106800000000000]
    [VTime 1704103200000000000; VNaN] !! 1%nat = Some VNaN.
Proof.
  apply (missing_time_difference (H := Reference.lib)
           [VStr "2024-01-01T10:05:00"; VStr "2024-01-01T11:00:00"]
           [VStr "2024-01-01T10:00:00"; VNaN]
           [VTime 1704103500000000000; VTime 1704106800000000000]
           [VTime 1704103200000000000; VNaN]
           1%nat (VStr "2024-01-01T11:00:00") VNaN); try reflexivity.
  by right.
Defined.

(** ** The months that are downloaded *)

Section months.
Import Reference Manager.

Lemma civil_from_days_spec z :
  ∃ era yoe mp d,
    valid yoe mp d
    ∧ z + 719468 = day_number era yoe mp d
    ∧ civil_from_days z
      = (yoe + era * 400 + (if (if mp <? 10 then mp + 3 else mp - 9) <=? 2 then 1 else 0),
         if mp <? 10 then mp + 3 else mp - 9, d).
Proof.
  unfold civil_from_days, valid, day_number. cbv zeta.
  set (z' := z + 719468).
  set (era := z' / 146097).
  set (doe := z' - era * 146097).
  assert (0 ≤ doe < 146097) by (subst doe era; zdiv; lia).
  assert (z' = era * 146097 + doe) as Hz by (subst doe; lia).
  clearbody doe.
  set (yoe := (doe - doe / 1460 + doe / 36524 - doe / 146096) / 365).
  set (doy := doe - (365 * yoe + yoe / 4 - yoe / 100)).
  assert (0 ≤ yoe ≤ 399 ∧ 0 ≤ doy ≤ 365
          ∧ (yoe < 399 → doy < 365 * (yoe + 1) + (yoe + 1) / 4 - (yoe + 1) / 100
                               - (365 * yoe + yoe / 4 - yoe / 100))) as (Hy & Hd & Hlen).
  { subst doy yoe. zdiv; lia. }
  assert (doe = 365 * yoe + yoe / 4 - yoe / 100 + doy) as Hdoe by (subst doy; lia).
  clearbody doy. clearbody yoe.
  set (mp := (5 * doy + 2) / 153).
  set (d := doy - (153 * mp + 2) / 5 + 1).
  exists era, yoe, mp, d.
  assert (0 ≤ mp ≤ 11 ∧ 1 ≤ d ∧ doy = (153 * mp + 2) / 5 + d - 1
          ∧ doy < (153 * (mp + 1) + 2) / 5) as (Hmp & Hd1 & Hdoy & Hnext).
  { subst d mp. zdiv; lia. }
  clearbody d mp. subst doy doe. rewrite Hz.
  split_and!; try lia. done.
Qed.

Lemma valid_unique e Y mp d e1 Y1 mp1 d1 :
  valid Y mp d → valid Y1 mp1 d1 →
  day_number e Y mp d = day_number e1 Y1 mp1 d1 →
  e = e1 ∧ Y = Y1 ∧ mp = mp1 ∧ d = d1.
Proof.
  unfold valid, day_number. intros H1 H2 Heq.
  assert (e = e1) as <- by (zdiv; lia).
  assert (Y = Y1) as <- by (zdiv; lia).
  assert (mp = mp1) as <- by (zdiv; lia).
  split_and!; try done. lia.
Qed.

(** Thirty days before a day from the 3rd to the 29th lies in the month
    before. *)
Lemma step_30 e Y mp d e1 Y1 mp1 d1 :
  valid Y mp d → valid Y1 mp1 d1 →
  day_number e1 Y1 mp1 d1 = day_number e Y mp d - 30 →
  3 ≤ d ≤ 29 →
  12 * (Y1 + 400 * e1) + mp1 = 12 * (Y + 400 * e) + mp - 1.
Proof.
  intros Hv Hv1 Heq Hd.
  assert (∃ e' Y' mp' d',
            valid Y' mp' d'
            ∧ day_number e' Y' mp' d' = day_number e Y mp d - 30
            ∧ 12 * (Y' + 400 * e') + mp' = 12 * (Y + 400 * e) + mp - 1)
    as (e' & Y' & mp' & d' & Hv' & Heq' & HJ).
  { destruct (decide (1 ≤ mp)); [|destruct (decide (1 ≤ Y))].
    - exists e, Y, (mp - 1), (d - 30 + (153 * mp + 2) / 5 - (153 * (mp - 1) + 2) / 5).
      solve_valid.
    - exists e, (Y - 1), 11,
        (d - 30 + (365 * Y + Y / 4 - Y / 100)
           - (365 * (Y - 1) + (Y - 1) / 4 - (Y - 1) / 100) - 337).
      solve_valid.
    - exists (e - 1), 399, 11, (d - 30 + 146097 - 145731 - 337).
      solve_valid. }
  rewrite <-Heq in Heq'.
  destruct (valid_unique _ _ _ _ _ _ _ _ Hv' Hv1 Heq') as (-> & -> & -> & ->). lia.
Qed.

(** Sixty days before it lies two months before. *)
Lemma step_60 e Y mp d e1 Y1 mp1 d1 :
  valid Y mp d → valid Y1 mp1 d1 →
  day_number e1 Y1 mp1 d1 = day_number e Y mp d - 60 →
  3 ≤ d ≤ 29 →
  12 * (Y1 + 400 * e1) + mp1 = 12 * (Y + 400 * e) + mp - 2.
Proof.
  intros Hv Hv1 Heq Hd.
  assert (∃ e' Y' mp' d',
            valid Y' mp' d'
            ∧ day_number e' Y' mp' d' = day_number e Y mp d - 60
            ∧ 12 * (Y' + 400 * e') + mp' = 12 * (Y + 400 * e) + mp - 2)
    as (e' & Y' & mp' & d' & Hv' & Heq' & HJ).
  { destruct (decide (2 ≤ mp)); [|destruct (decide (1 ≤ Y))].
    - exists e, Y, (mp - 2), (d - 60 + (153 * mp + 2) / 5 - (153 * (mp - 2) + 2) / 5).
      solve_valid.
    - exists e, (Y - 1), (mp + 10),
        (d - 60 + (153 * mp + 2) / 5 + (365 * Y + Y / 4 - Y / 100)
           - (365 * (Y - 1) + (Y - 1) / 4 - (Y - 1) / 100)
           - (153 * (mp + 10) + 2) / 5).
      solve_valid.
    - exists (e - 1), 399, (mp + 10),
        (d - 60 + (153 * mp + 2) / 5 + 146097 - 145731 - (153 * (mp + 10) + 2) / 5).
      solve_valid. }
  rewrite <-Heq in Heq'.
  destruct (valid_unique _ _ _ _ _ _ _ _ Hv' Hv1 Heq') as (-> & -> & -> & ->). lia.
Qed.

(** Thirty days before a 31st is the first of the same month. *)
Lemma step_31 e Y mp e1 Y1 mp1 d1 :
  valid Y mp 31 → valid Y1 mp1 d1 →
  day_number e1 Y1 mp1 d1 = day_number e Y mp 31 - 30 →
  e1 = e ∧ Y1 = Y ∧ mp1 = mp.
Proof.
  intros Hv Hv1 Heq.
  assert (valid Y mp 1 ∧ day_number e Y mp 1 = day_number e Y mp 31 - 30) as [Hv' Heq'].
  { solve_valid. }
  rewrite <-Heq in Heq'.
  by destruct (valid_unique _ _ _ _ _ _ _ _ Hv' Hv1 Heq') as (-> & -> & -> & _).
Qed.

Lemma get_months_to_download_eq today :
  get_months_to_download today
  = [strftime_Ym today; strftime_Ym (today - 30); strftime_Ym (today - 60)].
Proof.
  change (get_months_to_download today)
    with [strftime_Ym (today - 0); strftime_Ym (today - 30); strftime_Ym (today - 60)].
  by rewrite Z.sub_0_r.
Qed.

End months.

(** X23. [get_months_to_download] steps back by 30 days, not by months.
    When today is the 3rd to the 29th of a month, the list is this month
    and the two months before it, in this order; when today is a 31st, the
    list starts with this month twice, so that it names at most two
    months. *)
Theorem months_to_download today y m d :
  Reference.civil_from_days today = (y, m, d) →
  (3 ≤ d ≤ 29 →
   ∃ y1 m1 y2 m2,
     Manager.get_months_to_download today
     = [Manager.month_str y m; Manager.month_str y1 m1; Manager.month_str y2 m2]
     ∧ 1 ≤ m1 ≤ 12 ∧ 12 * y1 + m1 = 12 * y + m - 1
     ∧ 1 ≤ m2 ≤ 12 ∧ 12 * y2 + m2 = 12 * y + m - 2)
  ∧ (d = 31 →
     ∃ y2 m2,
       Manager.get_months_to_download today
       = [Manager.month_str y m; Manager.month_str y m; Manager.month_str y2 m2]).
Proof.
  intros Htoday. rewrite get_months_to_download_eq. unfold Manager.strftime_Ym.
  rewrite Htoday.
  destruct (civil_from_days_spec today) as (e & Y & mp & d0 & Hv & Hz & Hc).
  rewrite Htoday in Hc. injection Hc as -> -> ->.
  destruct (civil_from_days_spec (today - 30)) as (e1 & Y1 & mp1 & d1 & Hv1 & Hz1 & Hc1).
  destruct (civil_from_days_spec (today - 60)) as (e2 & Y2 & mp2 & d2 & Hv2 & Hz2 & Hc2).
  rewrite Hc1, Hc2.
  assert (Heq1 : Manager.day_number e1 Y1 mp1 d1 = Manager.day_number e Y mp d0 - 30) by lia.
  assert (Heq2 : Manager.day_number e2 Y2 mp2 d2 = Manager.day_number e Y mp d0 - 60) by lia.
  split.
  - intros Hd.
    pose proof (step_30 _ _ _ _ _ _ _ _ Hv Hv1 Heq1 Hd) as H30.
    pose proof (step_60 _ _ _ _ _ _ _ _ Hv Hv2 Heq2 Hd) as H60.
    eexists _, _, _, _. split; [reflexivity|].
    destruct Hv as (_ & Hmp & _), Hv1 as (_ & Hmp1 & _), Hv2 as (_ & Hmp2 & _).
    repeat case_match; rewrite ?Z.ltb_lt, ?Z.ltb_ge, ?Z.leb_le, ?Z.leb_gt in *; lia.
  - intros ->.
    destruct (step_31 _ _ _ _ _ _ _ Hv Hv1 Heq1) as (-> & -> & ->).
    by eexists _, _.
Qed.

(** On 31 March 2024 the list starts with March twice. *)
Lemma months_to_download_witness :
  ∃ y2 m2,
    Manager.get_months_to_download 19813
    = [Manager.month_str 2024 3; Manager.month_str 2024 3; Manager.month_str y2 m2].
Proof.
  destruct (months_to_download 19813 2024 3 31) as [_ H31]; [reflexivity|].
  by apply H31.
Defined.

(** * The encoded columns and the time differences of a run *)

Section end_to_end.
Context `{PyLib}.
Import Pandas TrainProcessor.

Lemma stringified_unique (s : series) :
  Forall (λ v, v = VNaN ∨ ∃ t, v = VStr t ∧ t ≠ "<NA>") s →
  remove_dups (str <$> s) ≡ₚ str <$> unique s.
Proof.
  intros Hall. apply NoDup_Permutation;
    [apply NoDup_remove_dups|by apply csv_values_print_apart|].
  intros k. rewrite elem_of_remove_dups, !list_elem_of_fmap.
  split; intros (v & -> & Hv); exists v; (split; [done|]); by apply elem_of_unique.
Qed.

(** The mapping of a text column has the codes as they are worded. *)
Lemma category_mapping_dense_codes (s : series) :
  Forall (λ v, v = VNaN ∨ ∃ t, v = VStr t ∧ t ≠ "<NA>") s →
  Spec.dense_codes (category_mapping (unique s)) (str <$> s).
Proof.
  intros Hall. pose proof (csv_values_print_apart s Hall) as Hnd.
  destruct (category_mapping_dense (unique s) Hnd) as (Hkeys & Hcodes & Hinj & Hord).
  unfold Spec.dense_codes. cbv zeta. split_and!; [|..|done|done].
  - intros k. rewrite Hkeys, !list_elem_of_fmap.
    split; intros (v & -> & Hv); exists v; (split; [done|]); by apply elem_of_unique.
  - intros n. by rewrite Hcodes, (stringified_unique s Hall), length_fmap.
Qed.

Lemma category_mapping_same_values (s1 s2 : series) :
  (∀ v, v ∈ s1 ↔ v ∈ s2) → category_mapping (unique s1) = category_mapping (unique s2).
Proof.
  intros Hsame. apply category_mapping_deterministic, fmap_Permutation.
  apply NoDup_Permutation; [apply NoDup_unique..|].
  intros v. by rewrite !elem_of_unique.
Qed.

(** *** Seconds from nanoseconds *)





(** *** The difference columns through the timestamp loop *)




(** *** The difference columns of the older pipeline *)



End end_to_end.

(** C1. For every categorical column of strings and missing values, which
    is how [read_csv] delivers a column under the dtype [object] that
    [dtype_definitions] asks for, the encoder records a mapping whose keys
    are the stringified values of the column and whose codes are exactly
    [0 .. N-1], [N] being the number of distinct stringified values, with
    one key for each code and the codes ascending in the lexicographic
    order of the keys; and an encoder run on a column with the same set of
    values records the identical mapping.  In [process_data] the column is
    the one of the frame after the filter and timestamp stages, the mapping
    is the one the returned object holds, and every row of the written
    encoded column whose value is not missing holds the code of its
    stringified value. *)
Theorem encoding_map_dense `{PyLib} self :
  TrainProcessor.well_named self →
  (∀ e d ddf self' d' ddf' col s,
     TrainProcessor.encode_categorical_columns self e d ddf = (self', d', ddf') →
     col ∈ TrainProcessor.categorical_columns self →
     Pandas.getitem ddf col = Some s →
     Forall (λ v, v = VNaN ∨ ∃ t, v = VStr t ∧ t ≠ "<NA>") s →
     ∃ mapping,
       TrainProcessor.encoding_maps self' !! col = Some mapping
       ∧ Spec.dense_codes mapping (Pandas.str <$> s)
       ∧ ∀ self2 e2 d2 ddf2 self2' d2' ddf2' s2,
           TrainProcessor.well_named self2 →
           col ∈ TrainProcessor.categorical_columns self2 →
           TrainProcessor.encode_categorical_columns self2 e2 d2 ddf2
           = (self2', d2', ddf2') →
           Pandas.getitem ddf2 col = Some s2 →
           (∀ v, v ∈ s ↔ v ∈ s2) →
           TrainProcessor.encoding_maps self2' !! col = Some mapping)
  ∧ (∀ e d folder fs out exclude_columns delimiter p self' d',
       TrainProcessor.process_data self e d folder fs out exclude_columns delimiter
       = (Some p, self', d') →
       ∃ size ddf0 ddf pq,
         TrainProcessor.load e folder exclude_columns delimiter = Some (size, ddf0)
         ∧ TrainProcessor.process_timestamps (TrainProcessor.filter_stage ddf0 fs)
           = Some ddf
         ∧ datasets d' !! p = Some pq
         ∧ ∀ col s,
             col ∈ TrainProcessor.categorical_columns self →
             Pandas.getitem ddf col = Some s →
             Forall (λ v, v = VNaN ∨ ∃ t, v = VStr t ∧ t ≠ "<NA>") s →
             ∃ mapping encoded,
               TrainProcessor.encoding_maps self' !! col = Some mapping
               ∧ Spec.dense_codes mapping (Pandas.str <$> s)
               ∧ Pandas.getitem (pq_frame pq) (TrainProcessor.encoded_name col)
                 = Some encoded
               ∧ ∀ i v, s !! i = Some v → v ≠ VNaN →
                   ∃ n, mapping !! Pandas.str v = Some n
                        ∧ encoded !! i = Some (VInt (Z.of_nat n))).
Proof.
  intros Hwn. split.
  - intros e d ddf self' d' ddf' col s Hrun Hcol Hs Hall.
    destruct (encode_categorical_present _ _ _ _ _ _ _ _ _ Hwn Hrun Hcol Hs) as [Hm _].
    eexists. split_and!; [exact Hm|by apply category_mapping_dense_codes|].
    intros self2 e2 d2 ddf2 self2' d2' ddf2' s2 Hwn2 Hcol2 Hrun2 Hs2 Hsame.
    destruct (encode_categorical_present _ _ _ _ _ _ _ _ _ Hwn2 Hrun2 Hcol2 Hs2)
      as [Hm2 _].
    by rewrite Hm2, (category_mapping_same_values s s2).
  - intros e d folder fs out exclude_columns delimiter p self' d' Hrun.
    destruct (process_data_written _ _ _ _ _ _ _ _ _ _ _ Hwn Hrun)
      as (size & ddf0 & ddf & pq & Hload & Hts & Hpq & Henc).
    exists size, ddf0, ddf, pq. split_and!; [done..|].
    intros col s Hcol Hs Hall.
    destruct (Henc col TrainProcessor.categorical_encoder s) as [Hcolumn Hm]; [|done|].
    { unfold TrainProcessor.rounds. apply elem_of_app. right.
      apply list_elem_of_fmap. by exists col. }
    eexists _, _.
    split_and!; [exact Hm|by apply category_mapping_dense_codes|exact Hcolumn|].
    intros i v Hv Hne.
    destruct (categorical_rows s) as [Hrow _].
    destruct (Hrow i v Hv Hne) as (n & Hn & _ & Hi). by exists n.
Qed.

(** The line column of the example run: after the filter stage it holds
    two lines, which get the codes 0 and 1 in sorted order. *)
Lemma encoding_map_dense_witness :
  ∃ mapping,
    TrainProcessor.encoding_maps (Example.run [] []).1.2 !! "LINIEN_TEXT" = Some mapping
    ∧ Spec.dense_codes mapping ["IC5"; "IC21"]
    ∧ mapping !! "IC21" = Some 0%nat
    ∧ mapping !! "IC5" = Some 1%nat.
Proof.
  destruct (encoding_map_dense (H := Reference.lib) TrainProcessor.__init__) as [_ Hrun].
  - compute_done.
  - destruct (Hrun Example.world Example.empty_disk "data/train" [] Example.output [] ";"
                Example.output (Example.run [] []).1.2 (Example.run [] []).2 eq_refl)
      as (size & ddf0 & ddf & pq & Hload & Hts & Hpq & Hcat).
    assert (Some ddf = TrainProcessor.process_timestamps (H := Reference.lib)
                         (TrainProcessor.filter_stage Example.table [])) as Hddf.
    { rewrite <-Hts. injection Hload as _ <-. reflexivity. }
    destruct (Hcat "LINIEN_TEXT" [VStr "IC5"; VStr "IC21"])
      as (mapping & encoded & Hm & Hdense & _).
    + compute_done.
    + vm_compute in Hddf. injection Hddf as ->. reflexivity.
    + repeat (apply Forall_cons; split;
        [right; eexists; split; [reflexivity|discriminate]|]).
      apply Forall_nil_2.
    + exists mapping. split_and!; [exact Hm|exact Hdense|..].
      * assert (Some mapping
                = TrainProcessor.encoding_maps (Example.run [] []).1.2 !! "LINIEN_TEXT")
          as Heq by done.
        vm_compute in Heq. injection Heq as ->. reflexivity.
      * assert (Some mapping
                = TrainProcessor.encoding_maps (Example.run [] []).1.2 !! "LINIEN_TEXT")
          as Heq by done.
        vm_compute in Heq. injection Heq as ->. reflexivity.
Defined.

(** C2. For every boolean column that the frame has, the encoded column
    holds, row by row, 0 when the lower-cased stringification of the value
    is ["false"], 1 when it is ["true"], and the missing value for every
    other value; so every encoded value is 0, 1 or missing.  In
    [process_data] the column is the one of the frame after the filter and
    timestamp stages and the encoded column is the one that is written. *)
Theorem boolean_encoding `{PyLib} self :
  TrainProcessor.well_named self →
  (∀ e d ddf self' d' ddf' col s,
     TrainProcessor.encode_categorical_columns self e d ddf = (self', d', ddf') →
     col ∈ TrainProcessor.bool_columns self →
     Pandas.getitem ddf col = Some s →
     ∃ encoded,
       Pandas.getitem ddf' (TrainProcessor.encoded_name col) = Some encoded
       ∧ length encoded = length s
       ∧ (∀ i v, s !! i = Some v →
            encoded !! i
            = Some (if decide (Pandas.lower (Pandas.str v) = "false") then VInt 0
                    else if decide (Pandas.lower (Pandas.str v) = "true") then VInt 1
                    else VNaN))
       ∧ Forall (λ x, x = VInt 0 ∨ x = VInt 1 ∨ x = VNaN) encoded)
  ∧ (∀ e d folder fs out exclude_columns delimiter p self' d',
       TrainProcessor.process_data self e d folder fs out exclude_columns delimiter
       = (Some p, self', d') →
       ∃ size ddf0 ddf pq,
         TrainProcessor.load e folder exclude_columns delimiter = Some (size, ddf0)
         ∧ TrainProcessor.process_timestamps (TrainProcessor.filter_stage ddf0 fs)
           = Some ddf
         ∧ datasets d' !! p = Some pq
         ∧ ∀ col s,
             col ∈ TrainProcessor.bool_columns self →
             Pandas.getitem ddf col = Some s →
             ∃ encoded,
               Pandas.getitem (pq_frame pq) (TrainProcessor.encoded_name col)
               = Some encoded
               ∧ length encoded = length s
               ∧ (∀ i v, s !! i = Some v →
                    encoded !! i
                    = Some (if decide (Pandas.lower (Pandas.str v) = "false") then VInt 0
                            else if decide (Pandas.lower (Pandas.str v) = "true")
                                 then VInt 1
                            else VNaN))
               ∧ Forall (λ x, x = VInt 0 ∨ x = VInt 1 ∨ x = VNaN) encoded).
Proof.
  assert (Hcolumn : ∀ s : Pandas.series,
            length (TrainProcessor.encode_bool_series s) = length s
            ∧ (∀ i v, s !! i = Some v →
                 TrainProcessor.encode_bool_series s !! i
                 = Some (if decide (Pandas.lower (Pandas.str v) = "false") then VInt 0
                         else if decide (Pandas.lower (Pandas.str v) = "true")
                              then VInt 1
                         else VNaN))
            ∧ Forall (λ x, x = VInt 0 ∨ x = VInt 1 ∨ x = VNaN)
                (TrainProcessor.encode_bool_series s)).
  { intros s. rewrite encode_bool_series_fmap. split_and!.
    - by rewrite length_fmap.
    - intros i v Hv. by rewrite list_lookup_fmap, Hv.
    - apply Forall_fmap, Forall_forall. intros v _. simpl.
      unfold Spec.bool_code. repeat case_decide; auto. }
  intros Hwn. split.
  - intros e d ddf self' d' ddf' col s Hrun Hcol Hs.
    destruct (encode_bool_present _ _ _ _ _ _ _ _ _ Hwn Hrun Hcol Hs) as [_ Hc].
    eexists. split; [exact Hc|apply Hcolumn].
  - intros e d folder fs out exclude_columns delimiter p self' d' Hrun.
    destruct (process_data_written _ _ _ _ _ _ _ _ _ _ _ Hwn Hrun)
      as (size & ddf0 & ddf & pq & Hload & Hts & Hpq & Henc).
    exists size, ddf0, ddf, pq. split_and!; [done..|].
    intros col s Hcol Hs.
    destruct (Henc col TrainProcessor.bool_encoder s) as [Hc _]; [|done|].
    { unfold TrainProcessor.rounds. apply elem_of_app. left.
      apply list_elem_of_fmap. by exists col. }
    eexists. split; [exact Hc|apply Hcolumn].
Qed.

(** The boolean column of the example: the encoder alone makes 0, 1 and
    the missing value of its three rows, and the run, which filters the
    third row out, writes 0 and 1. *)
Lemma boolean_encoding_witness :
  Pandas.getitem Example.example_encode.2 "ZUSATZFAHRT_TF_encoded"
  = Some [VInt 0; VInt 1; VNaN]
  ∧ ∃ pq, datasets (Example.run [] []).2 !! Example.output = Some pq
          ∧ Pandas.getitem (pq_frame pq) "ZUSATZFAHRT_TF_encoded"
            = Some [VInt 0; VInt 1].
Proof.
  destruct (boolean_encoding (H := Reference.lib)
              (TrainProcessor.with_output TrainProcessor.__init__ Example.output))
    as [Hencode _]; [compute_done|].
  destruct (boolean_encoding (H := Reference.lib) TrainProcessor.__init__)
    as [_ Hrun]; [compute_done|].
  split.
  - destruct (Hencode Example.world Example.empty_disk Example.table
                Example.example_encode.1.1 Example.example_encode.1.2
                Example.example_encode.2 "ZUSATZFAHRT_TF"
                [VStr "false"; VStr "True"; VNaN])
      as (encoded & Hc & _); [reflexivity|compute_done|reflexivity|].
    assert (Some encoded
            = Pandas.getitem Example.example_encode.2 "ZUSATZFAHRT_TF_encoded")
      as Heq by done.
    vm_compute in Heq. injection Heq as ->. exact Hc.
  - destruct (Hrun Example.world Example.empty_disk "data/train" [] Example.output []
                ";" Example.output (Example.run [] []).1.2 (Example.run [] []).2
                eq_refl)
      as (size & ddf0 & ddf & pq & Hload & Hts & Hpq & Hbool).
    exists pq. split; [exact Hpq|].
    assert (Some ddf = TrainProcessor.process_timestamps (H := Reference.lib)
                         (TrainProcessor.filter_stage Example.table [])) as Hddf.
    { rewrite <-Hts. injection Hload as _ <-. reflexivity. }
    destruct (Hbool "ZUSATZFAHRT_TF" [VStr "false"; VStr "True"])
      as (encoded & Hc & Hlen & Hrows & _).
    + compute_done.
    + vm_compute in Hddf. injection Hddf as ->. reflexivity.
    + assert (Some pq = datasets (Example.run [] []).2 !! Example.output) as Heq by done.
      vm_compute in Heq. injection Heq as ->.
      assert (Some encoded = Some [VInt 0; VInt 1]) as Henc.
      { rewrite <-Hc. vm_compute. reflexivity. }
      injection Henc as ->. exact Hc.
Defined.


